(** * RMP scraper: pagination driver, obstruction resolver, record extractor

    A shallow embedding of [src/part1.py].  The Python functions are
    written as functions over an explicit [World]: the browser session
    (document, load-more control, overlays), the wall clock and the warning
    log.  Exceptions are values of [exn]; every statement of the script is
    a state transformer that returns either a value or a raised exception
    together with the world it leaves behind. *)

From Stdlib Require Import List String Ascii Bool Arith ZArith QArith Lia Lqa.
From Stdlib Require Import DecimalString Permutation Qround.
Import ListNotations.
Open Scope string_scope.

(* ------------------------------------------------------------------ *)
(** ** Text helpers *)

Module Text.

(** The double-quote character, code 34. *)
Definition dquote : ascii := ascii_of_nat 34.

(** Python [s[:-1]]: everything but the last character (the empty string
    stays empty). *)
Fixpoint drop_last (s : string) : string :=
  match s with
  | EmptyString => EmptyString
  | String c EmptyString => EmptyString
  | String c s' => String c (drop_last s')
  end.

(** [strip_prefix p s] is [Some r] when [s = p ++ r]. *)
Fixpoint strip_prefix (p s : string) : option string :=
  match p, s with
  | EmptyString, _ => Some s
  | String a p', String b s' =>
      if Ascii.eqb a b then strip_prefix p' s' else None
  | String _ _, EmptyString => None
  end.

Definition is_digit (c : ascii) : bool :=
  let n := nat_of_ascii c in (48 <=? n)%nat && (n <=? 57)%nat.

Definition digit_value (c : ascii) : Z := Z.of_nat (nat_of_ascii c) - 48.

(** Whitespace that [int()] skips around a literal.  A character is a code
    point below 256: tab, newline, vertical tab, form feed, carriage return
    and space, and the two further whitespace characters of that range,
    next line (133) and no-break space (160). *)
Definition is_space (c : ascii) : bool :=
  let n := nat_of_ascii c in
  ((9 <=? n)%nat && (n <=? 13)%nat) || (n =? 32)%nat
  || (n =? 133)%nat || (n =? 160)%nat.

Fixpoint all_chars (p : ascii -> bool) (s : string) : bool :=
  match s with
  | EmptyString => true
  | String c s' => p c && all_chars p s'
  end.

Fixpoint any_char (p : ascii -> bool) (s : string) : bool :=
  match s with
  | EmptyString => false
  | String c s' => p c || any_char p s'
  end.



(** The characters that can occur in a text [int()] accepts. *)
Definition is_literal_char (c : ascii) : bool :=
  is_digit c || is_space c || Ascii.eqb c "_" || Ascii.eqb c "+"
  || Ascii.eqb c "-".

End Text.

(* ------------------------------------------------------------------ *)
(** ** The regular expression of [click_showmore]

    [re.findall] with the pattern of line 165: an opening angle bracket, one
    or more characters other than a closing angle bracket, the text
    class= and a double quote, a group of one or more characters other than
    a double quote, and a double quote.  The result lists the group of each
    non-overlapping match, left to right.  Both repetitions are greedy; the
    matcher below backtracks as [re] does. *)

Module Regex.
Import Text.

(** After the opening quote of the attribute: the group and the closing
    quote.  Returns the group and the number of characters read, closing
    quote included. *)
Fixpoint capture (s : string) : option (string * nat) :=
  match s with
  | EmptyString => None
  | String c s' =>
      if Ascii.eqb c dquote then Some (EmptyString, 1%nat)
      else match capture s' with
           | Some (g, n) => Some (String c g, S n)
           | None => None
           end
  end.

Definition class_attr : string := "class=" ++ String dquote EmptyString.

(** The attribute with a non-empty quoted value at the head of [s]. *)
Definition attr_here (s : string) : option (string * nat) :=
  match strip_prefix class_attr s with
  | Some r =>
      match capture r with
      | Some (String c g, n) => Some (String c g, (7 + n)%nat)
      | _ => None
      end
  | None => None
  end.

(** [s] is what follows the part of the first repetition read so far (at
    least one character).  The longest repetition is tried first, then shorter
    ones. *)
Fixpoint tag_scan (s : string) : option (string * nat) :=
  match s with
  | EmptyString => attr_here s
  | String c s' =>
      if Ascii.eqb c ">" then attr_here s
      else match tag_scan s' with
           | Some (g, n) => Some (g, S n)
           | None => attr_here s
           end
  end.

(** A match whose opening angle bracket has just been read. *)
Definition match_open (s : string) : option (string * nat) :=
  match s with
  | EmptyString => None
  | String c s' =>
      if Ascii.eqb c ">" then None
      else match tag_scan s' with
           | Some (g, n) => Some (g, S n)
           | None => None
           end
  end.

(** [skip] characters still belong to the previous match. *)
Fixpoint findall_from (skip : nat) (s : string) : list string :=
  match s with
  | EmptyString => []
  | String c s' =>
      match skip with
      | S k => findall_from k s'
      | O =>
          if Ascii.eqb c "<" then
            match match_open s' with
            | Some (g, n) => g :: findall_from n s'
            | None => findall_from 0 s'
            end
          else findall_from 0 s'
      end
  end.

Definition findall (s : string) : list string := findall_from 0 s.

End Regex.

(* ------------------------------------------------------------------ *)
(** ** Class names

    [By.CLASS_NAME] with a value [v] is sent to the browser as the CSS
    selector made of a dot and [v].  When [v] is an identifier, the
    selector names the elements that carry [v] among the tokens of their
    class attribute; the tokens are what HTML's whitespace separates.  When
    [v] is a list of identifiers the selector is a descendant selector
    whose last identifier is a tag name, and no element answers to it by
    its class. *)

Module Css.
Import Text.

(** HTML's ASCII whitespace: tab, line feed, form feed, carriage return
    and space. *)
Definition is_html_space (c : ascii) : bool :=
  let n := nat_of_ascii c in
  (n =? 9)%nat || (n =? 10)%nat || (n =? 12)%nat || (n =? 13)%nat
  || (n =? 32)%nat.

Definition add_token (t : string) (ts : list string) : list string :=
  match t with
  | EmptyString => ts
  | String _ _ => t :: ts
  end.

(** The token that starts at the head of [s], empty when [s] starts with
    whitespace, and the tokens after it. *)
Fixpoint scan_tokens (s : string) : string * list string :=
  match s with
  | EmptyString => (EmptyString, [])
  | String c s' =>
      let (t, ts) := scan_tokens s' in
      if is_html_space c then (EmptyString, add_token t ts)
      else (String c t, ts)
  end.

(** The tokens of a class attribute, in order. *)
Definition class_tokens (s : string) : list string :=
  let (t, ts) := scan_tokens s in add_token t ts.

Definition is_letter (c : ascii) : bool :=
  let n := nat_of_ascii c in
  ((65 <=? n)%nat && (n <=? 90)%nat) || ((97 <=? n)%nat && (n <=? 122)%nat).

(** A character that can start an identifier: a letter, an underscore or
    a character outside ASCII. *)
Definition is_ident_start (c : ascii) : bool :=
  is_letter c || Ascii.eqb c "_" || (128 <=? nat_of_ascii c)%nat.

Definition is_ident_char (c : ascii) : bool :=
  is_ident_start c || is_digit c || Ascii.eqb c "-".

(** A CSS identifier written without escapes: it starts with two hyphens,
    or with an optional hyphen and a starting character, and goes on with
    identifier characters. *)
Definition is_identifier (s : string) : bool :=
  match s with
  | EmptyString => false
  | String c r =>
      all_chars is_ident_char r
      && (is_ident_start c
          || (Ascii.eqb c "-"
              && match r with
                 | EmptyString => false
                 | String d _ => is_ident_start d || Ascii.eqb d "-"
                 end))
  end.

(** One identifier or more, separated by whitespace, the first at the
    head of the text: with a dot before it, a selector that the browser
    accepts. *)
Definition is_identifier_list (s : string) : bool :=
  match s with
  | EmptyString => false
  | String c _ =>
      negb (is_html_space c) && forallb is_identifier (class_tokens s)
  end.

End Css.

(* ------------------------------------------------------------------ *)
(** ** Python's [int(str)] in base 10

    A text is a string of characters with code points below 256; among
    these the decimal digits are 0 to 9 and the whitespace that [int]
    skips is that of [Text.is_space]. *)

Module PyInt.
Import Text.

(** Default of [sys.int_info.default_max_str_digits]: a literal with more
    decimal digits is refused with [ValueError]. *)
Definition MAX_STR_DIGITS : nat := 4300.

Inductive scan_state := AfterDigit | AfterUnderscore | AtStart.

(** Digits with single underscores between them, then trailing
    whitespace to the end of the text.  [acc] is the value and [cnt] the
    number of digits read so far. *)
Fixpoint scan_digits (st : scan_state) (acc : Z) (cnt : nat) (s : string)
  : option (Z * nat) :=
  match s with
  | EmptyString =>
      match st with AfterDigit => Some (acc, cnt) | _ => None end
  | String c s' =>
      if is_digit c then
        scan_digits AfterDigit (10 * acc + digit_value c) (S cnt) s'
      else if Ascii.eqb c "_" then
        match st with
        | AfterDigit => scan_digits AfterUnderscore acc cnt s'
        | _ => None
        end
      else
        match st with
        | AfterDigit =>
            if all_chars is_space s then Some (acc, cnt) else None
        | _ => None
        end
  end.

Fixpoint skip_spaces (s : string) : string :=
  match s with
  | String c s' => if is_space c then skip_spaces s' else s
  | EmptyString => s
  end.

Definition unsigned (s : string) : option Z :=
  match scan_digits AtStart 0 0 s with
  | Some (v, cnt) => if (cnt <=? MAX_STR_DIGITS)%nat then Some v else None
  | None => None
  end.

(** [int(s)]: [None] stands for [ValueError]. *)
Definition int (s : string) : option Z :=
  match skip_spaces s with
  | String c s' =>
      if Ascii.eqb c "-" then option_map Z.opp (unsigned s')
      else if Ascii.eqb c "+" then unsigned s'
      else unsigned (String c s')
  | EmptyString => unsigned EmptyString
  end.




End PyInt.

(* ------------------------------------------------------------------ *)
(** ** Exceptions and the state-and-exception monad *)

Inductive exn : Type :=
| NoSuchElementException
| StaleElementReferenceException
| TimeoutException
| ElementClickInterceptedException (detail : string)
| ValueError
| IndexError
| KeyError
| RecursionError
| RuntimeError (school : string) (cause : exn).

Inductive result (A : Type) : Type :=
| Ok (a : A)
| Raise (e : exn).
Arguments Ok {A} a.
Arguments Raise {A} e.

(** The constants of lines 101-107 and 120; times are in seconds. *)
Definition MIN_WAIT : Q := 2.
Definition MAX_WAIT : Q := 4.
Definition MIN_CLICK_PAUSE : Q := 1 # 2.
Definition MAX_CLICK_PAUSE : Q := 3 # 2.
Definition MAX_SCROLL_TIME : Q := 1200.
Definition MAX_INNER_THREADS : nat := 6.

(** Line 118: [(os.cpu_count() or 4) // 2].  [None] is Python's [None]; a
    count of [0] is falsy as well. *)
Definition MAX_OUTER_THREADS (cpu_count : option nat) : nat :=
  match cpu_count with
  | None | Some O => 4 / 2
  | Some n => n / 2
  end.

(** The two warnings of lines 111-113; [NO_DATA_WARN] carries the URL. *)
Inductive warning : Type :=
| SCROLL_TIME_WARN
| NO_DATA_WARN (source : string).

(** *** The simulated page

    The page access surface is not part of the script; it is simulated by
    the smallest page that has everything the script touches: record
    panels, a load-more control that is there as long as batches of panels
    remain to be revealed, and overlays stacked over the control.  The
    page answers at once: only sleeping and a wait that runs out take
    time, so the times of the journal are the earliest at which the script
    can get there. *)

(** What a record panel shows under each of the four field selectors of
    lines 91-94: the texts of the matching elements, in document order. *)
Inductive selector : Type :=
| NAME_SELECTOR | RATING_SELECTOR | DEPARTMENT_SELECTOR | FEEDBACK_SELECTOR.

Record Card : Type := {
  name_els : list string;
  rating_els : list string;
  department_els : list string;
  feedback_els : list string
}.

Definition select (sel : selector) (c : Card) : list string :=
  match sel with
  | NAME_SELECTOR => name_els c
  | RATING_SELECTOR => rating_els c
  | DEPARTMENT_SELECTOR => department_els c
  | FEEDBACK_SELECTOR => feedback_els c
  end.

(** An element that may lie over the load-more control: its class
    attribute, the text the driver reports when it intercepts a click, and
    whether it is displayed. *)
Record Overlay : Type := {
  ov_class : string;
  ov_detail : string;
  ov_displayed : bool
}.

(** What happened on the page, with the time of each action. *)
Inductive event : Type :=
| Activated                      (* the load-more control was clicked *)
| Intercepted (cls : string)     (* a click was intercepted by this element *)
| Hidden (cls : string)          (* this element was set to display none *)
| Detached (card : nat).         (* this panel was removed from its parent *)

Record World : Type := {
  now : Q;                               (* what [time.time()] returns *)
  draws : list Q;                        (* coming values of [random.random()] *)
  document : list (nat * Card);          (* attached panels by handle *)
  pending : list (list (nat * Card));    (* batches the control still reveals *)
  overlays : list Overlay;               (* topmost first *)
  journal : list (Q * event);            (* oldest first *)
  warnings : list warning                (* oldest first *)
}.

Definition M (A : Type) : Type := World -> result A * World.

Definition ret {A} (a : A) : M A := fun w => (Ok a, w).
Definition raise {A} (e : exn) : M A := fun w => (Raise e, w).
Definition bind {A B} (m : M A) (k : A -> M B) : M B :=
  fun w => match m w with
           | (Ok a, w') => k a w'
           | (Raise e, w') => (Raise e, w')
           end.

Notation "x <- m ;; k" := (bind m (fun x => k))
  (at level 61, m at next level, right associativity).
Notation "m ;;; k" := (bind m (fun _ => k))
  (at level 61, right associativity).

(** [try: body except: handler]; [handler e = None] when no clause matches. *)
Definition try_except {A} (body : M A) (handler : exn -> option (M A)) : M A :=
  fun w => match body w with
           | (Ok a, w') => (Ok a, w')
           | (Raise e, w') =>
               match handler e with
               | Some h => h w'
               | None => (Raise e, w')
               end
           end.

(** [try: body finally: cleanup]; an exception of [cleanup] replaces the
    outcome of [body]. *)
Definition try_finally {A} (body : M A) (cleanup : M unit) : M A :=
  fun w => match body w with
           | (r, w') =>
               match cleanup w' with
               | (Ok _, w'') => (r, w'')
               | (Raise e, w'') => (Raise e, w'')
               end
           end.

(** [xs[i]] *)
Definition subscript {A} (xs : list A) (i : nat) : M A :=
  match nth_error xs i with
  | Some x => ret x
  | None => raise IndexError
  end.

Definition Qlt_bool (x y : Q) : bool := negb (Qle_bool y x).

(** *** The clock and the random source *)

Definition time_time : M Q := fun w => (Ok (now w), w).

Definition set_now (t : Q) (w : World) : World :=
  {| now := t; draws := draws w; document := document w;
     pending := pending w; overlays := overlays w; journal := journal w;
     warnings := warnings w |}.

Definition time_sleep (secs : Q) : M unit :=
  fun w => (Ok tt, set_now (now w + secs) w).

Definition clamp01 (u : Q) : Q :=
  if Qle_bool u 0 then 0 else if Qle_bool 1 u then 1 else u.

(** [random.uniform(a, b)] is [a + (b - a) * random.random()]. *)
Definition random_uniform (a b : Q) : M Q :=
  fun w =>
    match draws w with
    | [] => (Ok a, w)
    | u :: rest =>
        (Ok (a + (b - a) * clamp01 u),
         {| now := now w; draws := rest; document := document w;
            pending := pending w; overlays := overlays w;
            journal := journal w; warnings := warnings w |})
    end.

Definition log (e : event) (w : World) : World :=
  {| now := now w; draws := draws w; document := document w;
     pending := pending w; overlays := overlays w;
     journal := journal w ++ [(now w, e)]; warnings := warnings w |}.

Definition warnings_warn (msg : warning) : M unit :=
  fun w =>
    (Ok tt,
     {| now := now w; draws := draws w; document := document w;
        pending := pending w; overlays := overlays w; journal := journal w;
        warnings := warnings w ++ [msg] |}).

(** *** The load-more control and the overlays *)

(** [WebDriverWait.until] tries its condition, sleeps [POLL_FREQUENCY]
    seconds and tries again, and gives up at the first try that comes
    later than the timeout.  Nothing changes on the page while the script
    waits, so a condition that fails at first fails to the end: the wait
    has then taken the timeout rounded up to the next try. *)
Definition POLL_FREQUENCY : Q := 1 # 2.

Definition wait_out (timeout : Q) : Q :=
  (inject_Z (Qfloor (timeout / POLL_FREQUENCY)) + 1) * POLL_FREQUENCY.
Arguments wait_out _ : simpl never.

(** [WebDriverWait(driver, timeout).until(element_to_be_clickable(...))]:
    the control is there as long as the page has more to reveal; otherwise
    the wait runs out. *)
Definition await_showmore (timeout : Q) : M unit :=
  fun w =>
    match pending w with
    | [] => (Raise TimeoutException, set_now (now w + wait_out timeout) w)
    | _ :: _ => (Ok tt, w)
    end.

Definition blocker (w : World) : option Overlay :=
  find ov_displayed (overlays w).

(** [.click()] on the control: intercepted by the topmost displayed
    overlay, otherwise the next batch of panels joins the document. *)
Definition click : M unit :=
  fun w =>
    match blocker w with
    | Some o =>
        (Raise (ElementClickInterceptedException (ov_detail o)),
         log (Intercepted (ov_class o)) w)
    | None =>
        (Ok tt,
         log Activated
           {| now := now w; draws := draws w;
              document := document w ++ hd [] (pending w);
              pending := tl (pending w); overlays := overlays w;
              journal := journal w; warnings := warnings w |})
    end.

Fixpoint find_index {A} (p : A -> bool) (xs : list A) : option nat :=
  match xs with
  | [] => None
  | x :: xs' => if p x then Some O else option_map S (find_index p xs')
  end.

(** The element answers to [(By.CLASS_NAME, cls)]: [cls] is an identifier
    and one of the tokens of the element's class attribute. *)
Definition has_class (cls : string) (o : Overlay) : bool :=
  Css.is_identifier cls
  && existsb (String.eqb cls) (Css.class_tokens (ov_class o)).

(** [WebDriverWait(driver, timeout).until(presence_of_element_located(
    (By.CLASS_NAME, el_class)))]: the first element in document order that
    answers to the class name, displayed or not.  Overlays are the only
    elements of the page that are looked up by class. *)
Definition await_presence (timeout : Q) (el_class : string) : M nat :=
  fun w =>
    match find_index (has_class el_class) (overlays w) with
    | Some i => (Ok i, w)
    | None => (Raise TimeoutException, set_now (now w + wait_out timeout) w)
    end.

Definition undisplay (o : Overlay) : Overlay :=
  {| ov_class := ov_class o; ov_detail := ov_detail o; ov_displayed := false |}.

Fixpoint update_nth {A} (i : nat) (f : A -> A) (xs : list A) : list A :=
  match xs, i with
  | [], _ => []
  | x :: xs', O => f x :: xs'
  | x :: xs', S i' => x :: update_nth i' f xs'
  end.

(** The script of line 153, [arguments[0].style.display = 'none']. *)
Definition script_display_none (overlay : nat) : M unit :=
  fun w =>
    match nth_error (overlays w) overlay with
    | None => (Raise StaleElementReferenceException, w)
    | Some o =>
        (Ok tt,
         log (Hidden (ov_class o))
           {| now := now w; draws := draws w; document := document w;
              pending := pending w;
              overlays := update_nth overlay undisplay (overlays w);
              journal := journal w; warnings := warnings w |})
    end.

(** *** Panels *)

Fixpoint lookup (h : nat) (doc : list (nat * Card)) : option Card :=
  match doc with
  | [] => None
  | (k, c) :: doc' => if Nat.eqb k h then Some c else lookup h doc'
  end.

Definition attached (h : nat) (w : World) : bool :=
  existsb (fun kc => Nat.eqb (fst kc) h) (document w).

(** [driver.find_elements(By.XPATH, PROFCARD_SELECTOR)] *)
Definition find_cards : M (list nat) :=
  fun w => (Ok (map fst (document w)), w).

(** [card.find_elements(By.XPATH, sel)] with the text of each element. *)
Definition find_elements (card : nat) (sel : selector) : M (list string) :=
  fun w =>
    match lookup card (document w) with
    | None => (Raise StaleElementReferenceException, w)
    | Some c => (Ok (select sel c), w)
    end.

(** [card.find_element(By.XPATH, sel).text] *)
Definition find_element_text (card : nat) (sel : selector) : M string :=
  els <- find_elements card sel ;;
  match els with
  | [] => raise NoSuchElementException
  | t :: _ => ret t
  end.

(** The script of lines 175-176, [el.parentNode.removeChild(el)]. *)
Definition script_remove_child (card : nat) : M unit :=
  fun w =>
    if attached card w then
      (Ok tt,
       log (Detached card)
         {| now := now w; draws := draws w;
            document :=
              filter (fun kc => negb (Nat.eqb (fst kc) card)) (document w);
            pending := pending w; overlays := overlays w;
            journal := journal w; warnings := warnings w |})
    else (Raise StaleElementReferenceException, w).

(* ------------------------------------------------------------------ *)
(** ** The script *)

(** Lines 58-74. *)
Definition SCHOOL_IDS : list (string * Z) :=
  [("Acadia University", 1406%Z);
   ("Carleton University", 1420%Z);
   ("Memorial University of Newfoundland", 1441%Z);
   ("Mount Allison University", 1444%Z);
   ("Mount Saint Vincent University", 1445%Z)].

Definition CSV_DESTS : list (string * string) :=
  [("Acadia University", "rmp_acadia.csv");
   ("Carleton University", "rmp_carleton.csv");
   ("Memorial University of Newfoundland", "rmp_mun.csv");
   ("Mount Allison University", "rmp_mta.csv");
   ("Mount Saint Vincent University", "rmp_msvu.csv")].

Definition SITE : string := "https://www.ratemyprofessors.com/".
Definition PATH_SEG : string := "search/professors/".

Fixpoint dict_get {V} (d : list (string * V)) (k : string) : option V :=
  match d with
  | [] => None
  | (k', v) :: d' => if String.eqb k' k then Some v else dict_get d' k
  end.

(** [d[k]] *)
Definition getitem {V} (d : list (string * V)) (k : string) : M V :=
  match dict_get d k with
  | Some v => ret v
  | None => raise KeyError
  end.

(** Lines 148-153. *)
Definition hide_overlay (el_class : string) : M unit :=
  overlay <- await_presence MAX_WAIT el_class ;;
  script_display_none overlay.

(** Lines 157-168.  [frames] is the number of nested calls the interpreter
    still allows; the call that would exceed it raises [RecursionError]. *)
Fixpoint click_showmore (frames : nat) : M unit :=
  match frames with
  | O => raise RecursionError
  | S frames' =>
      try_except
        (pause <- random_uniform MIN_CLICK_PAUSE MAX_CLICK_PAUSE ;;
         time_sleep pause ;;;
         await_showmore MAX_WAIT ;;;
         click)
        (fun e =>
           match e with
           | ElementClickInterceptedException detail =>
               Some (let matches := Regex.findall detail in
                     el_class <- subscript matches 1 ;;
                     hide_overlay el_class ;;;
                     click_showmore frames')
           | _ => None
           end)
  end.

(** Lines 172-177. *)
Definition free_card_memory (card : nat) : M unit :=
  script_remove_child card.

(** Lines 192-196: the would-take-again text. *)
Definition take_again_pct_of (take_again_pct_text : string) : M (option Z) :=
  if String.eqb take_again_pct_text "N/A" then ret None
  else match PyInt.int (Text.drop_last take_again_pct_text) with
       | Some n => ret (Some n)
       | None => raise ValueError
       end.

Section Scraper.

(** [float] and its conversion from text are Python's; the script only
    stores the values. *)
Variable Float : Type.
Variable py_float : string -> option Float.

(** The interpreter's allowance of nested [click_showmore] calls. *)
Variable recursion_limit : nat.

(** The pagination budget; the script fixes it to [MAX_SCROLL_TIME]. *)
Variable max_scroll_time : Q.

Definition float (text : string) : M Float :=
  match py_float text with
  | Some x => ret x
  | None => raise ValueError
  end.

(** The dictionary of lines 198-204. *)
Record ProfData : Type := {
  Name : string;
  Rating : Float;
  Would_Take_Again : option Z;
  Difficulty : Float;
  Department : string
}.

(** Lines 181-206. *)
Definition extract_prof_data (card : nat) : M ProfData :=
  try_finally
    (name <- find_element_text card NAME_SELECTOR ;;
     rating_text <- find_element_text card RATING_SELECTOR ;;
     rating <- float rating_text ;;
     department <- find_element_text card DEPARTMENT_SELECTOR ;;
     feedback <- find_elements card FEEDBACK_SELECTOR ;;
     take_again_pct_text <- subscript feedback 0 ;;
     difficulty_text <- subscript feedback 1 ;;
     difficulty <- float difficulty_text ;;
     take_again_pct <- take_again_pct_of take_again_pct_text ;;
     ret {| Name := name; Rating := rating;
            Would_Take_Again := take_again_pct;
            Difficulty := difficulty; Department := department |})
    (free_card_memory card).

(** [executor.map(extract_prof_data, prof_cards)] followed by leaving the
    [with] block: every panel is submitted and the pool is joined, so
    every extraction runs to its end; each outcome is kept.  Extractions
    of different panels touch different panels, so they are run here in
    the order of submission. *)
Fixpoint executor_map (cards : list nat) (w : World)
  : list (result ProfData) * World :=
  match cards with
  | [] => ([], w)
  | card :: cards' =>
      let (r, w1) := extract_prof_data card w in
      let (rs, w2) := executor_map cards' w1 in
      (r :: rs, w2)
  end.

(** [list(results)]: the outcomes in order; the first exception met is
    raised. *)
Fixpoint list_results (results : list (result ProfData))
  : result (list ProfData) :=
  match results with
  | [] => Ok []
  | Raise e :: _ => Raise e
  | Ok d :: rest =>
      match list_results rest with
      | Ok ds => Ok (d :: ds)
      | Raise e => Raise e
      end
  end.

(** Lines 210-216. *)
Definition store_and_delete_cards : M (list ProfData) :=
  prof_cards <- find_cards ;;
  fun w =>
    let (results, w') := executor_map prof_cards w in
    (list_results results, w').

(** The [while] loop of lines 226-231, one unfolding per iteration.  The
    value is the pair of [prof_data] and [more_content] when the loop is
    left; [None] when [fuel] iterations did not end it. *)
Fixpoint scroll_loop (fuel : nat) (start_time : Q)
    (prof_data : list ProfData) (w : World)
  : option (result (list ProfData * bool) * World) :=
  match fuel with
  | O => None
  | S fuel' =>
      if Qlt_bool (now w - start_time) max_scroll_time then
        match click_showmore recursion_limit w with
        | (Ok _, w1) =>
            match store_and_delete_cards w1 with
            | (Ok more, w2) =>
                scroll_loop fuel' start_time (prof_data ++ more) w2
            | (Raise TimeoutException, w2) => Some (Ok (prof_data, false), w2)
            | (Raise e, w2) => Some (Raise e, w2)
            end
        | (Raise TimeoutException, w1) => Some (Ok (prof_data, false), w1)
        | (Raise e, w1) => Some (Raise e, w1)
        end
      else Some (Ok (prof_data, true), w)
  end.

(** Lines 220-237. *)
Definition load_and_store_all_content (fuel : nat) (w : World)
  : option (result (list ProfData) * World) :=
  match store_and_delete_cards w with
  | (Raise e, w0) => Some (Raise e, w0)
  | (Ok prof_data, w0) =>
      match scroll_loop fuel (now w0) prof_data w0 with
      | None => None
      | Some (Raise e, w1) => Some (Raise e, w1)
      | Some (Ok (prof_data', more_content), w1) =>
          if more_content : bool then
            Some (Ok prof_data', snd (warnings_warn SCROLL_TIME_WARN w1))
          else Some (Ok prof_data', w1)
      end
  end.

(** Lines 241-250.  The world is the browser session on the page that
    [source] serves; building the data frame keeps the rows as they are,
    their integers being taken to fit the Int64 column. *)
Definition session_data (fuel : nat) (source : string) (w : World)
  : option (result (list ProfData) * World) :=
  match (pause <- random_uniform MIN_WAIT MAX_WAIT ;; time_sleep pause) w with
  | (Raise e, w1) => Some (Raise e, w1)
  | (Ok _, w1) =>
      match load_and_store_all_content fuel w1 with
      | None => None
      | Some (Raise e, w2) => Some (Raise e, w2)
      | Some (Ok prof_data, w2) =>
          match prof_data with
          | [] =>
              Some (Ok prof_data,
                    snd (warnings_warn (NO_DATA_WARN source) w2))
          | _ :: _ => Some (Ok prof_data, w2)
          end
      end
  end.

Definition str_of_int (n : Z) : string :=
  DecimalString.NilZero.string_of_int (Z.to_int n).

(** Lines 254-268.  On success the value is the destination and the rows
    written to it. *)
Definition save_school_data (fuel : nat) (school : string) (w : World)
  : option (result (string * list ProfData) * World) :=
  let wrap (e : exn) := RuntimeError school e in
  match getitem SCHOOL_IDS school w with
  | (Raise e, w0) => Some (Raise (wrap e), w0)
  | (Ok id, w0) =>
      let source := SITE ++ PATH_SEG ++ str_of_int id in
      match getitem CSV_DESTS school w0 with
      | (Raise e, w1) => Some (Raise (wrap e), w1)
      | (Ok dest, w1) =>
          match session_data fuel source w1 with
          | None => None
          | Some (Raise e, w2) => Some (Raise (wrap e), w2)
          | Some (Ok rows, w2) => Some (Ok (dest, rows), w2)
          end
      end
  end.

End Scraper.

Arguments Name {Float} _.
Arguments Rating {Float} _.
Arguments Would_Take_Again {Float} _.
Arguments Difficulty {Float} _.
Arguments Department {Float} _.
Arguments float {Float} py_float text _.
Arguments extract_prof_data {Float} py_float card _.
Arguments executor_map {Float} py_float cards w.
Arguments list_results {Float} results.
Arguments store_and_delete_cards {Float} py_float _.
Arguments scroll_loop {Float} py_float recursion_limit max_scroll_time fuel start_time prof_data w.
Arguments load_and_store_all_content {Float} py_float recursion_limit max_scroll_time fuel w.
Arguments session_data {Float} py_float recursion_limit max_scroll_time fuel source w.
Arguments save_school_data {Float} py_float recursion_limit max_scroll_time fuel school w.

(* ------------------------------------------------------------------ *)
(** ** Vocabulary of the statements *)

Arguments attached _ _ : simpl never.

(** The page with a single panel, under handle [0]. *)
Definition one_card_world (c : Card) : World :=
  {| now := 0; draws := []; document := [(O, c)]; pending := [];
     overlays := []; journal := []; warnings := [] |}.

(** The page once [card] has been removed from its parent. *)
Definition detach (card : nat) (w : World) : World :=
  log (Detached card)
    {| now := now w; draws := draws w;
       document := filter (fun kc => negb (Nat.eqb (fst kc) card)) (document w);
       pending := pending w; overlays := overlays w;
       journal := journal w; warnings := warnings w |}.

Definition served (cards : list nat) (kc : nat * Card) : bool :=
  existsb (Nat.eqb (fst kc)) cards.

(** The pause that the next call of [click_showmore] draws, and the page
    after it. *)
Definition pause_of (w : World) : Q :=
  match draws w with
  | [] => MIN_CLICK_PAUSE
  | u :: _ => MIN_CLICK_PAUSE + (MAX_CLICK_PAUSE - MIN_CLICK_PAUSE) * clamp01 u
  end.

Definition paused (w : World) : World :=
  {| now := now w + pause_of w; draws := tl (draws w); document := document w;
     pending := pending w; overlays := overlays w; journal := journal w;
     warnings := warnings w |}.

(** One call of [click_showmore] written out case by case. *)
Definition click_showmore_step (frames' : nat) (w : World)
  : result unit * World :=
  let w1 := paused w in
  match pending w1 with
  | [] => (Raise TimeoutException, set_now (now w1 + wait_out MAX_WAIT) w1)
  | _ :: _ =>
      match blocker w1 with
      | None => click w1
      | Some o =>
          let w2 := log (Intercepted (ov_class o)) w1 in
          match nth_error (Regex.findall (ov_detail o)) 1 with
          | None => (Raise IndexError, w2)
          | Some el_class =>
              match find_index (has_class el_class) (overlays w2) with
              | None =>
                  (Raise TimeoutException, set_now (now w2 + wait_out MAX_WAIT) w2)
              | Some i =>
                  match script_display_none i w2 with
                  | (Ok _, w3) => click_showmore frames' w3
                  | (Raise e, w3) => (Raise e, w3)
                  end
              end
          end
      end
  end.

(** The driver names the overlay: the second class attribute in the detail
    of the interception is the overlay's own class. *)
Definition well_described (o : Overlay) : Prop :=
  nth_error (Regex.findall (ov_detail o)) 1 = Some (ov_class o).

(** What the resolver does to a stack of overlays, topmost first. *)
Fixpoint resolution_events (ovs : list Overlay) : list event :=
  match ovs with
  | [] => []
  | o :: ovs' =>
      if ov_displayed o
      then Intercepted (ov_class o) :: Hidden (ov_class o)
             :: resolution_events ovs'
      else resolution_events ovs'
  end.

Definition displayed_count (ovs : list Overlay) : nat :=
  List.length (filter ov_displayed ovs).

Definition Qnat (n : nat) : Q := inject_Z (Z.of_nat n).

(** The report of the overlay at place [i] leads the resolver to it: the
    second class attribute that the pattern finds in the detail is a class
    name, and the first element of the page that answers to it is the one
    at place [i]. *)
Definition leads_home (ovs : list Overlay) (i : nat) (o : Overlay) : Prop :=
  exists el_class,
    nth_error (Regex.findall (ov_detail o)) 1 = Some el_class
    /\ find_index (has_class el_class) ovs = Some i.

(** The state of the page on which the resolver can do its work: the
    control is there, and the report of every displayed overlay leads to
    that overlay. *)
Record resolvable (w : World) : Prop := {
  control_present : pending w <> [];
  reports_lead_home :
    forall i o,
      nth_error (overlays w) i = Some o -> ov_displayed o = true ->
      leads_home (overlays w) i o
}.

(** The session after the startup pause of line 243. *)
Definition startup (w : World) : World :=
  snd ((pause <- random_uniform MIN_WAIT MAX_WAIT ;; time_sleep pause) w).

(** The times at which overlays were hidden. *)
Fixpoint hidden_times (j : list (Q * event)) : list Q :=
  match j with
  | [] => []
  | (t, Hidden _) :: j' => t :: hidden_times j'
  | _ :: j' => hidden_times j'
  end.

(** The classes of the overlays that were hidden, oldest first. *)
Fixpoint hidden_classes (evs : list event) : list string :=
  match evs with
  | [] => []
  | Hidden cls :: evs' => cls :: hidden_classes evs'
  | _ :: evs' => hidden_classes evs'
  end.

(** Every overlay hidden on this page was hidden before the budget that
    started at [start] was used up. *)
Definition resolved_within_budget (start budget : Q) (w : World) : Prop :=
  Forall (fun t => t - start < budget) (hidden_times (journal w)).

Section Vocabulary.
Variable Float : Type.
Variable py_float : string -> option Float.
Variable recursion_limit : nat.
Variable max_scroll_time : Q.

(** What extraction makes of a panel's content. *)
Definition card_outcome (c : Card) : result (ProfData Float) :=
  fst (extract_prof_data py_float O (one_card_world c)).

(** [iterates start acc w acc' w']: from [prof_data = acc] on page [w] at
    the head of the loop, some number of complete iterations lead to
    [prof_data = acc'] on page [w'] at the head of the loop. *)
Inductive iterates (start : Q)
  : list (ProfData Float) -> World -> list (ProfData Float) -> World -> Prop :=
| iterates_here acc w : iterates start acc w acc w
| iterates_more acc w w1 more w2 acc' w' :
    Qlt_bool (now w - start) max_scroll_time = true ->
    click_showmore recursion_limit w = (Ok tt, w1) ->
    store_and_delete_cards py_float w1 = (Ok more, w2) ->
    iterates start (acc ++ more)%list w2 acc' w' ->
    iterates start acc w acc' w'.

End Vocabulary.

Arguments card_outcome {Float} py_float c.
Arguments iterates {Float} py_float recursion_limit max_scroll_time start _ _ _ _.

(* ------------------------------------------------------------------ *)
(** ** Pages and panels for the examples *)

Module Fixtures.

(** A stand-in for [float] on the texts of the examples: plain decimals
    such as 4.1, read as rationals. *)
Fixpoint decimal_scan (seen_dot any : bool) (num : Z) (scale : positive)
    (s : string) : option Q :=
  match s with
  | EmptyString => if any then Some (num # scale) else None
  | String c s' =>
      if Text.is_digit c then
        decimal_scan seen_dot true (10 * num + Text.digit_value c)
          (if seen_dot then 10 * scale else scale) s'
      else if Ascii.eqb c "." && negb seen_dot then
        decimal_scan true any num scale s'
      else None
  end.

Definition decimal (s : string) : option Q := decimal_scan false false 0 1 s.

Definition smith : Card :=
  {| name_els := ["J. Smith"]; rating_els := ["4.1"];
     department_els := ["Math"]; feedback_els := ["60%"; "3.2"] |}.

Definition jones : Card :=
  {| name_els := ["A. Jones"]; rating_els := ["3.0"];
     department_els := ["Physics"]; feedback_els := ["N/A"; "2.5"] |}.

Definition okafor : Card :=
  {| name_els := ["C. Okafor"]; rating_els := ["4.8"];
     department_els := ["Biology"]; feedback_els := ["100%"; "1.9"] |}.

Definition lee : Card :=
  {| name_els := ["M. Lee"]; rating_els := ["2.2"];
     department_els := ["History"]; feedback_els := ["37%"; "4.0"] |}.

(** A panel whose rating is not a number. *)
Definition garbled : Card :=
  {| name_els := ["B. Garbled"]; rating_els := ["n/a"];
     department_els := ["Music"]; feedback_els := ["50%"; "3.0"] |}.

(** A panel whose percentage is above a hundred. *)
Definition eager : Card :=
  {| name_els := ["E. Eager"]; rating_els := ["5.0"];
     department_els := ["Drama"]; feedback_els := ["250%"; "1.0"] |}.

Definition page (doc : list (nat * Card)) (more : list (list (nat * Card)))
    (ovs : list Overlay) (pauses : list Q) : World :=
  {| now := 0; draws := pauses; document := doc; pending := more;
     overlays := ovs; journal := []; warnings := [] |}.

Definition q : string := String Text.dquote EmptyString.

(** The detail of an interception as the driver words it. *)
Definition detail (tag cls : string) : string :=
  "Message: Element <button class=" ++ q
  ++ "Buttons__Button-sc-19xdot-1 PaginationButton__StyledPaginationButton-txi1dr-1 glImpo"
  ++ q ++ " type=" ++ q ++ "button" ++ q
  ++ "> is not clickable at point (640,587) because another element <"
  ++ tag ++ " class=" ++ q ++ cls ++ q ++ "> obscures it".

Definition overlay (tag cls : string) : Overlay :=
  {| ov_class := cls; ov_detail := detail tag cls; ov_displayed := true |}.

(** An overlay without a class attribute: the detail names one class only,
    the control's. *)
Definition classless : Overlay :=
  {| ov_class := "";
     ov_detail :=
       "Message: Element <button class=" ++ q ++ "Buttons__Button-sc-19xdot-1"
       ++ q ++ "> is not clickable at point (640,587) because another element "
       ++ "<iframe id=" ++ q ++ "ad_frame" ++ q ++ "> obscures it";
     ov_displayed := true |}.

Definition three_overlays : list Overlay :=
  [overlay "iframe" "bx-gbi-frame"; overlay "div" "cookie-banner";
   overlay "div" "modal-backdrop"].

(** Three panels at first, one more after a click, then nothing. *)
Definition listing : World :=
  page [(1%nat, smith); (2%nat, jones); (3%nat, okafor)] [[(4%nat, lee)]] [] [].

(** The same listing with an unreadable rating in the middle panel. *)
Definition listing_garbled : World :=
  page [(1%nat, smith); (2%nat, garbled); (3%nat, okafor)] [[(4%nat, lee)]] [] [].

(** The listing behind three overlays; every click pause lasts a second. *)
Definition listing_obstructed : World :=
  page [(1%nat, smith)] [[(4%nat, lee)]] three_overlays
       [1 # 2; 1 # 2; 1 # 2; 1 # 2; 1 # 2; 1 # 2].

(** The listing behind an overlay that the driver reports without a
    class. *)
Definition listing_classless : World :=
  page [(1%nat, smith)] [[(4%nat, lee)]] [classless] [].

End Fixtures.

(* ------------------------------------------------------------------ *)
(** ** The entry point *)

(** The two errors of lines 139-144. *)
Inductive startup_exn : Type :=
| FileNotFoundError
| PermissionError.

(** What the file system answers about [GECKO_PATH]:
    [os.path.isfile] and [os.access] with [os.X_OK]. *)
Record Gecko : Type := {
  isfile : bool;
  access_x_ok : bool
}.

(** Lines 139-144; [None] when nothing is raised. *)
Definition handle_gecko_errors (gecko : Gecko) : option startup_exn :=
  if negb (isfile gecko) then Some FileNotFoundError
  else if negb (access_x_ok gecko) then Some PermissionError
  else None.

(** How a run of [main] ends. *)
Inductive run (A : Type) : Type :=
| Completed (a : A)
| Aborted (e : startup_exn)
| Crashed (e : exn).
Arguments Completed {A} a.
Arguments Aborted {A} e.
Arguments Crashed {A} e.

Section EntryPoint.
Variable Float : Type.
Variable py_float : string -> option Float.
Variable recursion_limit : nat.
Variable max_scroll_time : Q.

(** [list(executor.map(save_school_data, SCHOOL_IDS.keys()))] of line 131.
    Every school gets a browser of its own, [browsers school]; the
    outcomes are taken in the order of the keys and the first exception
    met is raised.  The value is [None] when a session has not ended
    within [fuel] iterations. *)
Fixpoint outer_map (fuel : nat) (browsers : string -> World)
    (schools : list string)
  : option (result (list (string * list (ProfData Float)))) :=
  match schools with
  | [] => Some (Ok [])
  | school :: schools' =>
      match save_school_data py_float recursion_limit max_scroll_time fuel
              school (browsers school),
            outer_map fuel browsers schools' with
      | Some (Ok file, _), Some (Ok files) => Some (Ok (file :: files))
      | Some (Raise e, _), Some _ => Some (Raise e)
      | Some (Ok _, _), Some (Raise e) => Some (Raise e)
      | _, _ => None
      end
  end.

(** Lines 124-135.  [ThreadPoolExecutor(max_workers)] raises [ValueError]
    when [max_workers] is not positive. *)
Definition main (gecko : Gecko) (cpu_count : option nat) (fuel : nat)
    (browsers : string -> World)
  : option (run (list (string * list (ProfData Float)))) :=
  match handle_gecko_errors gecko with
  | Some e => Some (Aborted e)
  | None =>
      if Nat.eqb (MAX_OUTER_THREADS cpu_count) 0 then Some (Crashed ValueError)
      else match outer_map fuel browsers (map fst SCHOOL_IDS) with
           | None => None
           | Some (Ok files) => Some (Completed files)
           | Some (Raise e) => Some (Crashed e)
           end
  end.

End EntryPoint.

Arguments outer_map {Float} py_float recursion_limit max_scroll_time fuel browsers schools.
Arguments main {Float} py_float recursion_limit max_scroll_time gecko cpu_count fuel browsers.

(* ------------------------------------------------------------------ *)
(** ** More vocabulary *)

(** A character that can stand in a tag name or a class attribute of the
    driver's messages without ending it: none of the two angle brackets,
    the double quote and the equals sign. *)
Definition is_name_char (c : ascii) : bool :=
  negb (Ascii.eqb c "<" || Ascii.eqb c ">" || Ascii.eqb c Text.dquote
        || Ascii.eqb c "=").

Definition is_name (s : string) : Prop :=
  s <> "" /\ Text.all_chars is_name_char s = true.

(** The detail of an interception as the driver words it, for a control of
    class [button_class] under an element [tag] of class [cls]. *)
Definition driver_detail (button_class tag cls : string) : string :=
  "Message: Element <button class=" ++ String Text.dquote button_class
  ++ String Text.dquote " type=" ++ String Text.dquote "button"
  ++ String Text.dquote
       "> is not clickable at point (640,587) because another element <"
  ++ tag ++ " class=" ++ String Text.dquote cls
  ++ String Text.dquote "> obscures it".

(** [g] is the value of a class attribute written in [s]: not empty, free
    of double quotes, and standing in [s] between the attribute's opening
    and closing quotes. *)
Definition is_class_value (s g : string) : Prop :=
  g <> ""
  /\ Text.all_chars (fun c => negb (Ascii.eqb c Text.dquote)) g = true
  /\ exists pre rest,
       s = pre ++ Regex.class_attr ++ g ++ String Text.dquote rest.

(** All the panels the page holds or will reveal, in the order in which
    the driver meets them. *)
Definition all_panels (w : World) : list (nat * Card) :=
  (document w ++ List.concat (pending w))%list.

(** *** The class attributes of a text

    What [re.findall] is to return for the pattern of line 165, said
    without a matcher.  A class attribute occurs at the head of [s] when
    [s] is an opening angle bracket, a [body] of one character or more
    other than the closing angle bracket, the text class= and a double
    quote, a value [g] of one character or more other than the double
    quote, a double quote, and some [rest]. *)
Definition occurrence_at (s body g rest : string) : Prop :=
  s = String "<" (body ++ Regex.class_attr ++ g ++ String Text.dquote rest)
  /\ body <> ""
  /\ Text.all_chars (fun c => negb (Ascii.eqb c ">")) body = true
  /\ g <> ""
  /\ Text.all_chars (fun c => negb (Ascii.eqb c Text.dquote)) g = true.

(** The same from inside the tag: the attribute with its value at the
    head of [s], and the attribute after the rest of a body. *)
Definition attribute_at (s g rest : string) : Prop :=
  s = Regex.class_attr ++ g ++ String Text.dquote rest
  /\ g <> ""
  /\ Text.all_chars (fun c => negb (Ascii.eqb c Text.dquote)) g = true.

Definition tail_at (s body g rest : string) : Prop :=
  s = body ++ Regex.class_attr ++ g ++ String Text.dquote rest
  /\ Text.all_chars (fun c => negb (Ascii.eqb c ">")) body = true
  /\ g <> ""
  /\ Text.all_chars (fun c => negb (Ascii.eqb c Text.dquote)) g = true.

(** The search goes through the text from left to right.  Where no class
    attribute occurs it moves on by one character; where one occurs it
    takes the occurrence with the longest [body], keeps the value, and
    goes on behind the closing quote.  [occurrences s gs]: the values kept
    in [s] are [gs], in this order. *)
Inductive occurrences : string -> list string -> Prop :=
| occurrences_end : occurrences "" []
| occurrences_skip c s gs :
    (forall body g rest, ~ occurrence_at (String c s) body g rest) ->
    occurrences s gs ->
    occurrences (String c s) gs
| occurrences_take s body g rest gs :
    occurrence_at s body g rest ->
    (forall body' g' rest',
        occurrence_at s body' g' rest' ->
        (String.length body' <= String.length body)%nat) ->
    occurrences rest gs ->
    occurrences s (g :: gs).

Module Scenes.

(** A page without panels and without a control. *)
Definition empty_page : World := Fixtures.page [] [] [] [].



(** The listing behind an overlay that shares its class with an element
    that is already hidden. *)
Definition twin_hidden : Overlay :=
  {| ov_class := "modal"; ov_detail := driver_detail "Buttons__Button-sc-19xdot-1" "div" "modal";
     ov_displayed := false |}.

Definition twin_shown : Overlay :=
  {| ov_class := "modal"; ov_detail := driver_detail "Buttons__Button-sc-19xdot-1" "div" "modal";
     ov_displayed := true |}.

Definition listing_twins : World :=
  Fixtures.page [(1%nat, Fixtures.smith)] [[(4%nat, Fixtures.lee)]]
    [twin_hidden; twin_shown] [].

(** The listing behind an overlay that carries two classes; the driver
    reports the class attribute as it stands. *)
Definition two_classes : Overlay :=
  {| ov_class := "modal fade";
     ov_detail :=
       driver_detail "Buttons__Button-sc-19xdot-1" "div" "modal fade";
     ov_displayed := true |}.

Definition listing_two_classes : World :=
  Fixtures.page [(1%nat, Fixtures.smith)] [[(4%nat, Fixtures.lee)]]
    [two_classes] [].

(** Five batches of one panel behind the control. *)
Definition listing_long : World :=
  Fixtures.page [(1%nat, Fixtures.smith)]
    [[(2%nat, Fixtures.jones)]; [(3%nat, Fixtures.okafor)];
     [(4%nat, Fixtures.lee)]; [(5%nat, Fixtures.eager)];
     [(6%nat, Fixtures.smith)]] [] [].

(** A panel without a second feedback element. *)
Definition short_feedback : Card :=
  {| name_els := ["S. Short"]; rating_els := ["3.3"];
     department_els := ["Art"]; feedback_els := ["80%"] |}.

(** One browser per school: the listing for every school but one, whose
    listing has the unreadable rating. *)
Definition browsers_one_garbled (school : string) : World :=
  if String.eqb school "Memorial University of Newfoundland"
  then Fixtures.listing_garbled else Fixtures.listing.

Definition gecko_ready : Gecko := {| isfile := true; access_x_ok := true |}.

End Scenes.

Example findall_gecko :
  Regex.findall
    ("Message: Element <button class=" ++ String Text.dquote "Buttons__Button-sc-19xdot-1 glImpo"
     ++ String Text.dquote " type=" ++ String Text.dquote "button" ++ String Text.dquote
     "> is not clickable at point (640,587) because another element <iframe id="
     ++ String Text.dquote "ad_frame" ++ String Text.dquote " class=" ++ String Text.dquote "bx-gbi-frame"
     ++ String Text.dquote "> obscures it")
  = ["Buttons__Button-sc-19xdot-1 glImpo"; "bx-gbi-frame"].
Proof. vm_compute. reflexivity. Qed.

Example int_examples :
  PyInt.int "37" = Some 37%Z /\ PyInt.int " -5 " = Some (-5)%Z /\
  PyInt.int "1_000" = Some 1000%Z /\ PyInt.int "1__0" = None /\
  PyInt.int "" = None /\ PyInt.int "+" = None /\ PyInt.int "- 5" = None /\
  PyInt.int "007" = Some 7%Z /\ PyInt.int "3 7" = None /\ PyInt.int "12_" = None.
Proof. vm_compute. repeat split; reflexivity. Qed.

Example class_name_examples :
  Css.class_tokens "modal fade" = ["modal"; "fade"]
  /\ Css.class_tokens "  bx-gbi-frame " = ["bx-gbi-frame"]
  /\ Css.class_tokens "" = []
  /\ Css.is_identifier "bx-gbi-frame" = true
  /\ Css.is_identifier "--wide" = true
  /\ Css.is_identifier "modal fade" = false
  /\ Css.is_identifier "2col" = false
  /\ Css.is_identifier "-" = false
  /\ Css.is_identifier_list "modal fade" = true
  /\ Css.is_identifier_list " modal" = false
  /\ has_class "modal" Scenes.two_classes = true
  /\ has_class "fade" Scenes.two_classes = true
  /\ has_class "modal fade" Scenes.two_classes = false.
Proof. vm_compute. repeat split; reflexivity. Qed.

(* ------------------------------------------------------------------ *)
(** ** Panels and batches *)

Lemma lookup_attached h w c : lookup h (document w) = Some c -> attached h w = true.
Proof.
  unfold attached. induction (document w) as [|[k c'] doc IH]; simpl; [discriminate|].
  destruct (Nat.eqb k h); simpl; auto.
Qed.

Lemma lookup_not_attached h w : lookup h (document w) = None -> attached h w = false.
Proof.
  unfold attached. induction (document w) as [|[k c'] doc IH]; simpl; [reflexivity|].
  destruct (Nat.eqb k h); simpl; [discriminate|auto].
Qed.

Section Extraction.
Variable Float : Type.
Variable py_float : string -> option Float.

Lemma extract_attached card w c :
  lookup card (document w) = Some c ->
  extract_prof_data py_float card w = (card_outcome py_float c, detach card w).
Proof.
  intros H. pose proof (lookup_attached _ _ _ H) as Ha.
  unfold card_outcome, extract_prof_data, try_finally, free_card_memory,
    script_remove_child, find_element_text, find_elements, float,
    take_again_pct_of, subscript, bind, ret, raise.
  destruct c as [ns rs ds fs]; simpl in *.
  rewrite H; simpl.
  destruct ns as [|n ns]; simpl; rewrite ?H, ?Ha; simpl; [reflexivity|].
  destruct rs as [|r rs]; simpl; rewrite ?H, ?Ha; simpl; [reflexivity|].
  destruct (py_float r); simpl; rewrite ?H, ?Ha; simpl; [|reflexivity].
  destruct ds as [|d ds]; simpl; rewrite ?H, ?Ha; simpl; [reflexivity|].
  destruct fs as [|f0 [|f1 fs]]; simpl; rewrite ?H, ?Ha; simpl;
    try reflexivity.
  destruct (py_float f1); simpl; rewrite ?H, ?Ha; simpl; [|reflexivity].
  destruct (String.eqb f0 "N/A"); simpl; rewrite ?H, ?Ha; simpl;
    [reflexivity|].
  destruct (PyInt.int (Text.drop_last f0)); simpl; rewrite ?H, ?Ha;
    reflexivity.
Qed.

Lemma extract_stale card w :
  lookup card (document w) = None ->
  extract_prof_data py_float card w = (Raise StaleElementReferenceException, w).
Proof.
  intros H. pose proof (lookup_not_attached _ _ H) as Ha.
  unfold extract_prof_data, try_finally, free_card_memory, script_remove_child.
  unfold bind, find_element_text, find_elements, bind. rewrite H, Ha. reflexivity.
Qed.

Lemma attached_detach card w : attached card (detach card w) = false.
Proof.
  unfold attached, detach; simpl.
  induction (document w) as [|[k c] doc IH]; simpl; [reflexivity|].
  destruct (Nat.eqb k card) eqn:E; simpl; [exact IH|].
  rewrite E. exact IH.
Qed.


Lemma document_detach card w :
  document (detach card w)
  = filter (fun kc => negb (Nat.eqb (fst kc) card)) (document w).
Proof. reflexivity. Qed.

Lemma lookup_filter_other k card doc :
  k <> card ->
  lookup card (filter (fun kc => negb (Nat.eqb (fst kc) k)) doc)
  = lookup card doc.
Proof.
  intros Hk. induction doc as [|[j c] doc IH]; simpl; [reflexivity|].
  destruct (Nat.eqb j k) eqn:Ejk; simpl.
  - apply Nat.eqb_eq in Ejk; subst j.
    destruct (Nat.eqb k card) eqn:E; [apply Nat.eqb_eq in E; contradiction|].
    exact IH.
  - rewrite IH. reflexivity.
Qed.

Lemma filter_absent k doc :
  lookup k doc = None ->
  filter (fun kc : nat * Card => negb (Nat.eqb (fst kc) k)) doc = doc.
Proof.
  induction doc as [|[j c] doc IH]; simpl; [reflexivity|].
  destruct (Nat.eqb j k); simpl; [discriminate|]. intros H. rewrite IH; auto.
Qed.

(** What one extraction leaves of the session. *)
Lemma extract_world card w :
  let w' := snd (extract_prof_data py_float card w) in
  document w' = filter (fun kc => negb (Nat.eqb (fst kc) card)) (document w)
  /\ now w' = now w /\ draws w' = draws w /\ pending w' = pending w
  /\ overlays w' = overlays w /\ warnings w' = warnings w.
Proof.
  destruct (lookup card (document w)) as [c|] eqn:E.
  - rewrite (extract_attached _ _ _ E). simpl. repeat split; reflexivity.
  - rewrite (extract_stale _ _ E). simpl. rewrite (filter_absent _ _ E).
    repeat split; reflexivity.
Qed.

Lemma extract_other k card w :
  k <> card ->
  fst (extract_prof_data py_float card
         (snd (extract_prof_data py_float k w)))
  = fst (extract_prof_data py_float card w).
Proof.
  intros Hk.
  destruct (extract_world k w) as [Hd _].
  set (w1 := snd (extract_prof_data py_float k w)) in *.
  assert (L : lookup card (document w1) = lookup card (document w))
    by (rewrite Hd; apply lookup_filter_other, Hk).
  destruct (lookup card (document w)) as [c|] eqn:E.
  - rewrite (extract_attached _ _ _ L), (extract_attached _ _ _ E).
    reflexivity.
  - rewrite (extract_stale _ _ L), (extract_stale _ _ E). reflexivity.
Qed.

Lemma extract_same_document card w1 w2 :
  lookup card (document w1) = lookup card (document w2) ->
  fst (extract_prof_data py_float card w1)
  = fst (extract_prof_data py_float card w2).
Proof.
  intros L. destruct (lookup card (document w2)) as [c|] eqn:E.
  - rewrite (extract_attached _ _ _ L), (extract_attached _ _ _ E).
    reflexivity.
  - rewrite (extract_stale _ _ L), (extract_stale _ _ E). reflexivity.
Qed.

(** The outcomes of a batch do not depend on the order in which its
    panels are served: each is what its panel gives on the page as the
    batch found it. *)
Lemma executor_map_outcomes cards :
  NoDup cards ->
  forall w,
    fst (executor_map py_float cards w)
    = map (fun card => fst (extract_prof_data py_float card w)) cards.
Proof.
  induction 1 as [|card cards Hnotin Hnd IH]; intros w; simpl;
    [reflexivity|].
  destruct (extract_prof_data py_float card w) as [r w1] eqn:E1.
  destruct (executor_map py_float cards w1) as [rs w2] eqn:E2. simpl.
  f_equal. change rs with (fst (rs, w2)). rewrite <- E2, IH.
  apply map_ext_in. intros k Hk.
  change w1 with (snd (r, w1)). rewrite <- E1.
  apply extract_other. intros ->. contradiction.
Qed.

Lemma executor_map_world cards :
  forall w,
    let w' := snd (executor_map py_float cards w) in
    document w' = filter (fun kc => negb (served cards kc)) (document w)
    /\ now w' = now w /\ draws w' = draws w /\ pending w' = pending w
    /\ overlays w' = overlays w /\ warnings w' = warnings w.
Proof.
  induction cards as [|card cards IH]; intros w; simpl.
  - repeat split; try reflexivity.
    induction (document w) as [|kc doc IHd]; simpl; [reflexivity|].
    rewrite <- IHd at 1. reflexivity.
  - destruct (extract_prof_data py_float card w) as [r w1] eqn:E1.
    destruct (executor_map py_float cards w1) as [rs w2] eqn:E2. simpl.
    specialize (IH w1). rewrite E2 in IH. simpl in IH.
    destruct IH as (Hd & Hn & Hr & Hp & Ho & Hw).
    destruct (extract_world card w) as (Hd1 & Hn1 & Hr1 & Hp1 & Ho1 & Hw1).
    rewrite E1 in *. simpl in *.
    rewrite Hd, Hn, Hr, Hp, Ho, Hw, Hd1, Hn1, Hr1, Hp1, Ho1, Hw1.
    repeat split; try reflexivity.
    clear. induction (document w) as [|kc doc IHd]; simpl; [reflexivity|].
    unfold served at 2. simpl.
    destruct (Nat.eqb (fst kc) card); simpl; [exact IHd|].
    fold (served cards kc). destruct (served cards kc); simpl;
      [exact IHd | f_equal; exact IHd].
Qed.

Lemma served_handles doc :
  filter (fun kc : nat * Card => negb (served (map fst doc) kc)) doc = [].
Proof.
  assert (G : forall cards,
             (forall kc, In kc doc -> In (fst kc) cards) ->
             filter (fun kc : nat * Card => negb (served cards kc)) doc = []).
  { intros cards. induction doc as [|kc doc IH]; intros Hin; simpl;
      [reflexivity|].
    assert (S : served cards kc = true).
    { unfold served. apply existsb_exists. exists (fst kc). split.
      - apply Hin. left; reflexivity.
      - apply Nat.eqb_refl. }
    rewrite S. simpl. apply IH. intros kc' H'. apply Hin. right; exact H'. }
  apply G. intros kc H. apply in_map, H.
Qed.

End Extraction.

(* ------------------------------------------------------------------ *)
(** ** The obstruction resolver *)

Lemma clamp01_range u : 0 <= clamp01 u <= 1.
Proof.
  unfold clamp01. destruct (Qle_bool u 0) eqn:E0; [lra|].
  destruct (Qle_bool 1 u) eqn:E1; [lra|].
  assert (~ u <= 0) by (rewrite <- Qle_bool_iff; congruence).
  assert (~ 1 <= u) by (rewrite <- Qle_bool_iff; congruence).
  lra.
Qed.

Lemma pause_of_range w : MIN_CLICK_PAUSE <= pause_of w <= MAX_CLICK_PAUSE.
Proof.
  unfold pause_of, MIN_CLICK_PAUSE, MAX_CLICK_PAUSE.
  destruct (draws w) as [|u ?]; [lra|].
  pose proof (clamp01_range u). lra.
Qed.

Lemma click_pause {A} (k : M A) w :
  (pause <- random_uniform MIN_CLICK_PAUSE MAX_CLICK_PAUSE ;;
   time_sleep pause ;;; k) w
  = k (paused w).
Proof.
  unfold bind, random_uniform, time_sleep, paused, pause_of, set_now.
  destruct w as [n d doc p o j wn]; simpl. destruct d; reflexivity.
Qed.

Lemma click_showmore_unfold frames' w :
  click_showmore (S frames') w = click_showmore_step frames' w.
Proof.
  unfold click_showmore_step. simpl click_showmore.
  unfold try_except.
  rewrite click_pause.
  unfold bind at 1. unfold await_showmore.
  destruct (pending (paused w)) as [|b bs] eqn:Ep; [reflexivity|].
  unfold click. rewrite Ep.
  destruct (blocker (paused w)) as [o|] eqn:Eb; [|reflexivity].
  unfold subscript, hide_overlay, await_presence.
  destruct (nth_error (Regex.findall (ov_detail o)) 1) as [cls|];
    [|reflexivity].
  unfold bind, ret.
  destruct (find_index (has_class cls) _) as [i|]; [|reflexivity].
  destruct (script_display_none i _) as [[[]|e] w3]; reflexivity.
Qed.

Lemma paused_now w : now w + MIN_CLICK_PAUSE <= now (paused w).
Proof. simpl. pose proof (pause_of_range w). lra. Qed.

(** A wait of [MAX_WAIT] seconds that runs out: tries at 0, 0.5 and so on
    to 4, and the last one at 4.5. *)
Lemma wait_out_MAX_WAIT : wait_out MAX_WAIT == 9 # 2.
Proof. reflexivity. Qed.


Lemma wait_out_positive : 0 < wait_out MAX_WAIT.
Proof. rewrite wait_out_MAX_WAIT. lra. Qed.

Lemma update_nth_classes i ovs :
  map ov_class (update_nth i undisplay ovs) = map ov_class ovs.
Proof.
  revert i. induction ovs as [|o ovs IH]; intros [|i]; simpl; try reflexivity.
  rewrite IH. reflexivity.
Qed.

Lemma update_nth_details i ovs :
  map ov_detail (update_nth i undisplay ovs) = map ov_detail ovs.
Proof.
  revert i. induction ovs as [|o ovs IH]; intros [|i]; simpl; try reflexivity.
  rewrite IH. reflexivity.
Qed.

(** What a call of [click_showmore] may change besides the overlays'
    display and the journal: it reveals one batch exactly when it returns
    normally, and it never sets the clock back. *)
Lemma click_showmore_frame frames :
  forall w r w',
    click_showmore frames w = (r, w') ->
    warnings w' = warnings w
    /\ now w <= now w'
    /\ map ov_class (overlays w') = map ov_class (overlays w)
    /\ map ov_detail (overlays w') = map ov_detail (overlays w)
    /\ match r with
       | Ok _ => exists batch,
           pending w = batch :: pending w'
           /\ document w' = (document w ++ batch)%list
       | Raise _ => pending w' = pending w /\ document w' = document w
       end.
Proof.
  induction frames as [|frames IH]; intros w r w' H.
  - simpl in H. inversion H; subst. repeat split; try reflexivity. lra.
  - rewrite click_showmore_unfold in H. unfold click_showmore_step in H.
    pose proof (paused_now w) as Hp.
    pose proof wait_out_positive as Hwo.
    assert (Hm : now w <= now (paused w))
      by (unfold MIN_CLICK_PAUSE in Hp; lra).
    destruct (pending (paused w)) as [|b bs] eqn:Ep.
    { inversion H; subst; simpl. repeat split; try reflexivity.
      simpl in Hm. lra. }
    destruct (blocker (paused w)) as [o|] eqn:Eb.
    2:{ unfold click in H. rewrite Eb in H. inversion H; subst; simpl.
        repeat split; try reflexivity; try exact Hm.
        simpl in Ep. exists b. rewrite Ep. split; reflexivity. }
    destruct (nth_error (Regex.findall (ov_detail o)) 1) as [cls|].
    2:{ inversion H; subst; simpl. repeat split; try reflexivity; exact Hm. }
    destruct (find_index _ _) as [i|].
    2:{ inversion H; subst; simpl. repeat split; try reflexivity.
        simpl in Hm. lra. }
    unfold script_display_none in H.
    destruct (nth_error _ i) as [o'|].
    2:{ inversion H; subst; simpl. repeat split; try reflexivity; exact Hm. }
    apply IH in H. simpl in H. destruct H as (Hw & Hn & Hc & Hd & Hr).
    rewrite update_nth_classes in Hc. rewrite update_nth_details in Hd.
    repeat split; try assumption. simpl in Hm. lra.
Qed.

(** *** Stacked overlays *)

Lemma Qnat_succ n : Qnat (S n) == Qnat n + 1.
Proof.
  unfold Qnat. rewrite Nat2Z.inj_succ. unfold Z.succ.
  rewrite inject_Z_plus. reflexivity.
Qed.

Lemma find_split {A} (p : A -> bool) l x :
  find p l = Some x ->
  exists pre post,
    l = (pre ++ x :: post)%list /\ forallb (fun y => negb (p y)) pre = true
    /\ p x = true.
Proof.
  induction l as [|y l IH]; simpl; [discriminate|].
  destruct (p y) eqn:E.
  - intros H; inversion H; subst. exists [], l. auto.
  - intros H. destruct (IH H) as (pre & post & -> & Hpre & Hx).
    exists (y :: pre), post. simpl. rewrite E. auto.
Qed.

Section HiddenPrefix.
Variable pre : list Overlay.
Hypothesis pre_hidden :
  forallb (fun y => negb (ov_displayed y)) pre = true.

Lemma hidden_find l : find ov_displayed (pre ++ l) = find ov_displayed l.
Proof.
  induction pre as [|y p IH]; simpl in *; [reflexivity|].
  apply andb_prop in pre_hidden as [Hy Hp].
  apply negb_true_iff in Hy. rewrite Hy. auto.
Qed.

Lemma hidden_count l :
  displayed_count (pre ++ l) = displayed_count l.
Proof.
  unfold displayed_count.
  induction pre as [|y p IH]; simpl in *; [reflexivity|].
  apply andb_prop in pre_hidden as [Hy Hp].
  apply negb_true_iff in Hy. rewrite Hy. auto.
Qed.

Lemma hidden_events l :
  resolution_events (pre ++ l) = resolution_events l.
Proof.
  induction pre as [|y p IH]; simpl in *; [reflexivity|].
  apply andb_prop in pre_hidden as [Hy Hp].
  apply negb_true_iff in Hy. rewrite Hy. auto.
Qed.

Lemma hidden_undisplay : map undisplay pre = pre.
Proof.
  induction pre as [|y p IH]; simpl in *; [reflexivity|].
  apply andb_prop in pre_hidden as [Hy Hp].
  apply negb_true_iff in Hy. rewrite IH by exact Hp. f_equal.
  destruct y as [c d b]; simpl in *; subst; reflexivity.
Qed.
End HiddenPrefix.

(** Whether an element answers to a class name depends on its class
    attribute only. *)
Lemma find_index_classes cls ovs :
  forall ovs',
    map ov_class ovs = map ov_class ovs' ->
    find_index (has_class cls) ovs = find_index (has_class cls) ovs'.
Proof.
  induction ovs as [|o ovs IH]; intros [|o' ovs'] H; simpl in *;
    try discriminate; [reflexivity|].
  injection H as Ho H. unfold has_class at 1 3. rewrite Ho, (IH ovs' H).
  reflexivity.
Qed.

Lemma update_nth_middle {A} (f : A -> A) pre x post :
  update_nth (List.length pre) f (pre ++ x :: post) = (pre ++ f x :: post)%list.
Proof. induction pre as [|y pre IH]; simpl; [reflexivity|]. rewrite IH. reflexivity. Qed.

Lemma nth_error_middle {A} pre (x : A) post :
  nth_error (pre ++ x :: post) (List.length pre) = Some x.
Proof. induction pre as [|y pre IH]; simpl; auto. Qed.

Lemma count_zero_find ovs :
  displayed_count ovs = O -> find ov_displayed ovs = None.
Proof.
  unfold displayed_count. induction ovs as [|o ovs IH]; simpl; [reflexivity|].
  destruct (ov_displayed o); simpl; [discriminate|exact IH].
Qed.

Lemma count_zero_hidden ovs :
  displayed_count ovs = O ->
  forallb (fun y => negb (ov_displayed y)) ovs = true.
Proof.
  unfold displayed_count. induction ovs as [|o ovs IH]; simpl; [reflexivity|].
  destruct (ov_displayed o); simpl; [discriminate|exact IH].
Qed.

Lemma count_succ_find ovs n :
  displayed_count ovs = S n -> exists o, find ov_displayed ovs = Some o.
Proof.
  unfold displayed_count. induction ovs as [|o ovs IH]; simpl; [discriminate|].
  destruct (ov_displayed o); simpl; eauto.
Qed.

(** One interception, when the lookup by the reported class finds the
    place of the blocker: the blocker is hidden in place and the call
    recurs. *)
Lemma click_showmore_hides frames w pre o post el_class :
  pending w <> [] ->
  overlays w = (pre ++ o :: post)%list ->
  forallb (fun y => negb (ov_displayed y)) pre = true ->
  ov_displayed o = true ->
  nth_error (Regex.findall (ov_detail o)) 1 = Some el_class ->
  find_index (has_class el_class) (overlays w) = Some (List.length pre) ->
  click_showmore (S frames) w
  = click_showmore frames
      (log (Hidden (ov_class o))
         {| now := now (paused w); draws := draws (paused w);
            document := document w; pending := pending w;
            overlays := (pre ++ undisplay o :: post)%list;
            journal :=
              (journal w ++ [(now (paused w), Intercepted (ov_class o))])%list;
            warnings := warnings w |}).
Proof.
  intros Hp Ho Hpre Hdisp Hcls Hfind.
  assert (Hb : blocker w = Some o).
  { unfold blocker. rewrite Ho, (hidden_find _ Hpre). simpl.
    rewrite Hdisp. reflexivity. }
  rewrite click_showmore_unfold. unfold click_showmore_step.
  change (pending (paused w)) with (pending w).
  destruct (pending w) as [|b bs] eqn:Ep; [contradiction Hp; reflexivity|].
  change (blocker (paused w)) with (blocker w). rewrite Hb, Hcls.
  change (overlays (log (Intercepted (ov_class o)) (paused w)))
    with (overlays w).
  rewrite Hfind. unfold script_display_none.
  change (overlays (log (Intercepted (ov_class o)) (paused w)))
    with (overlays w).
  rewrite Ho at 1. rewrite nth_error_middle.
  rewrite Ho at 1. rewrite update_nth_middle.
  simpl. rewrite Ep. reflexivity.
Qed.

Lemma click_showmore_intercepted frames w o :
  resolvable w ->
  blocker w = Some o ->
  exists pre post,
    overlays w = (pre ++ o :: post)%list
    /\ forallb (fun y => negb (ov_displayed y)) pre = true
    /\ ov_displayed o = true
    /\ click_showmore (S frames) w
       = click_showmore frames
           (log (Hidden (ov_class o))
              {| now := now (paused w); draws := draws (paused w);
                 document := document w; pending := pending w;
                 overlays := (pre ++ undisplay o :: post)%list;
                 journal :=
                   (journal w ++ [(now (paused w), Intercepted (ov_class o))])%list;
                 warnings := warnings w |}).
Proof.
  intros [Hp Hl] Hb. unfold blocker in Hb.
  destruct (find_split _ _ _ Hb) as (pre & post & Ho & Hpre & Hdisp).
  exists pre, post. repeat split; try assumption.
  destruct (Hl (List.length pre) o) as (el_class & Hcls & Hfind).
  { rewrite Ho. apply nth_error_middle. }
  { exact Hdisp. }
  apply (click_showmore_hides frames w pre o post el_class); assumption.
Qed.

Lemma count_zero_events ovs :
  displayed_count ovs = O -> resolution_events ovs = [].
Proof.
  unfold displayed_count. induction ovs as [|o ovs IH]; simpl; [reflexivity|].
  destruct (ov_displayed o); simpl; [discriminate|exact IH].
Qed.

Lemma undisplay_idem o : undisplay (undisplay o) = undisplay o.
Proof. reflexivity. Qed.

Lemma nth_error_after_hide pre o post i o' :
  nth_error (pre ++ undisplay o :: post) i = Some o' ->
  ov_displayed o' = true ->
  nth_error (pre ++ o :: post) i = Some o'.
Proof.
  revert i. induction pre as [|y pre IH]; intros [|i] H Hd; simpl in *.
  - inversion H; subst. discriminate.
  - exact H.
  - exact H.
  - apply IH; assumption.
Qed.

Lemma resolvable_after_hide w pre o post w3 :
  resolvable w ->
  overlays w = (pre ++ o :: post)%list ->
  pending w3 = pending w ->
  overlays w3 = (pre ++ undisplay o :: post)%list ->
  resolvable w3.
Proof.
  intros [Hp Hl] Ho Hp3 Ho3. split.
  - rewrite Hp3. exact Hp.
  - intros i o' Hn Hd. rewrite Ho3 in Hn.
    apply nth_error_after_hide in Hn; [|exact Hd]. rewrite <- Ho in Hn.
    destruct (Hl i o' Hn Hd) as (el_class & Hcls & Hfind).
    exists el_class. split; [exact Hcls|]. rewrite <- Hfind.
    apply find_index_classes. rewrite Ho3, Ho, !map_app. reflexivity.
Qed.

Lemma ident_char_no_space c :
  Css.is_ident_char c = true -> Css.is_html_space c = false.
Proof.
  destruct c as [[] [] [] [] [] [] [] []]; vm_compute; intuition congruence.
Qed.

Lemma scan_tokens_plain s :
  Text.all_chars Css.is_ident_char s = true -> Css.scan_tokens s = (s, []).
Proof.
  induction s as [|c s IH]; intros H; [reflexivity|].
  cbn [Text.all_chars] in H. apply andb_prop in H as [Hc Hs].
  cbn [Css.scan_tokens]. rewrite (IH Hs), (ident_char_no_space c Hc).
  reflexivity.
Qed.

(** The class attribute that is one identifier has one token, itself. *)
Lemma class_tokens_identifier s :
  Css.is_identifier s = true -> Css.class_tokens s = [s].
Proof.
  unfold Css.is_identifier, Css.class_tokens.
  destruct s as [|c r]; [discriminate|]. intros H.
  apply andb_prop in H as [Hr Hc].
  assert (Hall : Text.all_chars Css.is_ident_char (String c r) = true).
  { cbn [Text.all_chars]. rewrite Hr, andb_true_r.
    unfold Css.is_ident_char.
    destruct (Css.is_ident_start c); [reflexivity|]. simpl in Hc.
    apply andb_prop in Hc as [Hc _]. rewrite Hc. apply orb_true_r. }
  rewrite (scan_tokens_plain _ Hall). reflexivity.
Qed.

Lemma has_class_identifier cls o :
  Css.is_identifier (ov_class o) = true ->
  has_class cls o = String.eqb cls (ov_class o).
Proof.
  intros H. unfold has_class. rewrite (class_tokens_identifier _ H). simpl.
  rewrite orb_false_r.
  destruct (String.eqb cls (ov_class o)) eqn:E; [|apply andb_false_r].
  apply String.eqb_eq in E. rewrite E, H. reflexivity.
Qed.

Lemma find_index_named cls pre o post :
  Forall (fun y => Css.is_identifier (ov_class y) = true) (pre ++ o :: post) ->
  ov_class o = cls ->
  ~ In cls (map ov_class pre) ->
  find_index (has_class cls) (pre ++ o :: post) = Some (List.length pre).
Proof.
  intros Hid Ho. induction pre as [|y pre IH]; simpl; intros Hn;
    inversion Hid as [|? ? Hy Hrest]; subst.
  - rewrite (has_class_identifier _ _ Hy), String.eqb_refl. reflexivity.
  - rewrite (has_class_identifier _ _ Hy).
    destruct (String.eqb (ov_class o) (ov_class y)) eqn:E.
    + apply String.eqb_eq in E. exfalso. apply Hn. left. symmetry. exact E.
    + rewrite IH; [reflexivity|exact Hrest|].
      intros H; apply Hn; right; exact H.
Qed.

Lemma nth_error_split_at {A} (l : list A) i x :
  nth_error l i = Some x ->
  exists pre post, l = (pre ++ x :: post)%list /\ List.length pre = i.
Proof.
  revert i. induction l as [|y l IH]; intros [|i] H; simpl in H;
    try discriminate.
  - inversion H; subst. exists [], l. split; reflexivity.
  - destruct (IH i H) as (pre & post & -> & <-).
    exists (y :: pre), post. split; reflexivity.
Qed.

(** Overlays that carry one class each, an identifier of their own, and
    that the driver reports by it: the resolver can do its work. *)
Lemma named_overlays_resolvable w :
  pending w <> [] ->
  Forall well_described (overlays w) ->
  Forall (fun o => Css.is_identifier (ov_class o) = true) (overlays w) ->
  NoDup (map ov_class (overlays w)) ->
  resolvable w.
Proof.
  intros Hp Hd Hid Hnd. split; [exact Hp|].
  intros i o Hn _.
  destruct (nth_error_split_at _ _ _ Hn) as (pre & post & Ho & <-).
  exists (ov_class o). split.
  - rewrite Forall_forall in Hd. apply Hd. rewrite Ho.
    apply in_or_app. right; left; reflexivity.
  - rewrite Ho in *. apply find_index_named; [exact Hid|reflexivity|].
    rewrite map_app in Hnd. simpl in Hnd. apply NoDup_remove_2 in Hnd.
    intros H. apply Hnd. apply in_or_app. left; exact H.
Qed.

(** The resolver on a stack of overlays: every displayed overlay is
    intercepted and hidden, topmost first, and then the control is
    activated; nothing is removed.  Each attempt costs a click pause at
    least. *)
Lemma resolve_stack n :
  forall frames w,
    resolvable w ->
    displayed_count (overlays w) = n ->
    (n < frames)%nat ->
    exists w' batch,
      click_showmore frames w = (Ok tt, w')
      /\ overlays w' = map undisplay (overlays w)
      /\ map snd (journal w')
         = (map snd (journal w) ++ resolution_events (overlays w)
              ++ [Activated])%list
      /\ now w + (Qnat n + 1) * MIN_CLICK_PAUSE <= now w'
      /\ pending w = batch :: pending w'
      /\ document w' = (document w ++ batch)%list
      /\ warnings w' = warnings w.
Proof.
  induction n as [|n IH]; intros frames w Hr Hcount Hlt;
    (destruct frames as [|frames]; [lia|]).
  - rewrite click_showmore_unfold. unfold click_showmore_step.
    change (pending (paused w)) with (pending w).
    destruct (pending w) as [|b bs] eqn:Ep;
      [exfalso; apply (control_present _ Hr), Ep|].
    unfold blocker, click, blocker.
    change (overlays (paused w)) with (overlays w).
    rewrite (count_zero_find _ Hcount).
    eexists. exists b. split; [reflexivity|]. simpl.
    rewrite (hidden_undisplay _ (count_zero_hidden _ Hcount)).
    rewrite (count_zero_events _ Hcount). rewrite Ep. simpl.
    rewrite map_app. simpl.
    pose proof (pause_of_range w) as [Hlo _].
    unfold Qnat, MIN_CLICK_PAUSE in *. simpl Z.of_nat.
    unfold inject_Z.
    repeat split; try reflexivity; lra.
  - destruct (count_succ_find _ _ Hcount) as [o Hb].
    destruct (click_showmore_intercepted frames w o Hr Hb)
      as (pre & post & Ho & Hpre & Hdisp & Heq).
    rewrite Heq. clear Heq.
    set (w3 := log _ _).
    assert (Hr3 : resolvable w3)
      by (apply (resolvable_after_hide w pre o post); auto).
    assert (Hc3 : displayed_count (overlays w3) = n).
    { change (overlays w3) with (pre ++ undisplay o :: post)%list.
      rewrite Ho in Hcount. rewrite (hidden_count _ Hpre) in *.
      unfold displayed_count in *. simpl in *. rewrite Hdisp in Hcount.
      simpl in Hcount. lia. }
    destruct (IH frames w3 Hr3 Hc3 ltac:(lia))
      as (w' & batch & Hrun & Hov & Hj & Hlo & Hpend & Hdoc & Hwarn).
    exists w', batch. split; [exact Hrun|].
    change (overlays w3) with (pre ++ undisplay o :: post)%list in *.
    split.
    { rewrite Hov, Ho. rewrite !map_app. reflexivity. }
    split.
    { rewrite Hj. subst w3. simpl. rewrite !map_app. simpl.
      rewrite Ho. rewrite !(hidden_events _ Hpre). simpl. rewrite Hdisp.
      rewrite <- !app_assoc. reflexivity. }
    pose proof (pause_of_range w) as [Plo _].
    change (now w3) with (now w + pause_of w) in *.
    rewrite Qnat_succ.
    unfold MIN_CLICK_PAUSE in *.
    repeat split; try assumption; lra.
Qed.

(** When the interpreter allows fewer nested calls than overlays are
    displayed, the recursion ends in [RecursionError] after hiding as many
    overlays as calls were allowed. *)
Lemma resolve_stack_overflow frames :
  forall w,
    resolvable w ->
    (frames <= displayed_count (overlays w))%nat ->
    exists w',
      click_showmore frames w = (Raise RecursionError, w')
      /\ displayed_count (overlays w')
         = (displayed_count (overlays w) - frames)%nat
      /\ now w + Qnat frames * MIN_CLICK_PAUSE <= now w'.
Proof.
  induction frames as [|frames IH]; intros w Hr Hle.
  - exists w. simpl. split; [reflexivity|]. split; [lia|].
    unfold Qnat, inject_Z. simpl. lra.
  - destruct (displayed_count (overlays w)) as [|n] eqn:Hcount; [lia|].
    destruct (count_succ_find _ _ Hcount) as [o Hb].
    destruct (click_showmore_intercepted frames w o Hr Hb)
      as (pre & post & Ho & Hpre & Hdisp & Heq).
    rewrite Heq. clear Heq.
    set (w3 := log _ _).
    assert (Hr3 : resolvable w3)
      by (apply (resolvable_after_hide w pre o post); auto).
    assert (Hc3 : displayed_count (overlays w3) = n).
    { change (overlays w3) with (pre ++ undisplay o :: post)%list.
      rewrite Ho in Hcount. rewrite (hidden_count _ Hpre) in *.
      unfold displayed_count in *. simpl in *. rewrite Hdisp in Hcount.
      simpl in Hcount. lia. }
    destruct (IH w3 Hr3 ltac:(lia)) as (w' & Hrun & Hcnt & Hlo).
    exists w'. split; [exact Hrun|]. split; [rewrite Hcnt, Hc3; lia|].
    pose proof (pause_of_range w) as [Plo Phi].
    change (now w3) with (now w + pause_of w) in *.
    rewrite Qnat_succ. unfold MIN_CLICK_PAUSE in *. lra.
Qed.

(* ------------------------------------------------------------------ *)
(** ** The pagination driver *)

Lemma Qlt_bool_true x y : Qlt_bool x y = true <-> x < y.
Proof.
  unfold Qlt_bool. rewrite negb_true_iff. split; intros H.
  - apply Qnot_le_lt. intros Hle. apply Qle_bool_iff in Hle. congruence.
  - destruct (Qle_bool y x) eqn:E; [|reflexivity].
    apply Qle_bool_iff in E. apply Qlt_not_le in H. contradiction.
Qed.

Lemma Qlt_bool_false x y : Qlt_bool x y = false <-> y <= x.
Proof.
  unfold Qlt_bool. rewrite negb_false_iff. apply Qle_bool_iff.
Qed.

Section Pagination.
Variable Float : Type.
Variable py_float : string -> option Float.
Variable recursion_limit : nat.
Variable max_scroll_time : Q.

Abbreviation loop := (scroll_loop py_float recursion_limit max_scroll_time).
Abbreviation driver :=
  (load_and_store_all_content py_float recursion_limit max_scroll_time).
Abbreviation rounds := (iterates py_float recursion_limit max_scroll_time).

(** A batch never touches the clock, the control, the overlays or the
    warnings, and leaves no panel attached. *)
Lemma store_and_delete_cards_world w :
  let w' := snd (store_and_delete_cards py_float w) in
  document w' = []
  /\ now w' = now w /\ draws w' = draws w /\ pending w' = pending w
  /\ overlays w' = overlays w /\ warnings w' = warnings w.
Proof.
  unfold store_and_delete_cards, find_cards, bind.
  pose proof (executor_map_world _ py_float (map fst (document w)) w) as Hw.
  destruct (executor_map py_float (map fst (document w)) w) as [rs w'].
  simpl in *. rewrite served_handles in Hw. exact Hw.
Qed.

(** The loop is left at once when the budget is used up. *)
Lemma scroll_loop_budget fuel start acc w :
  max_scroll_time <= now w - start ->
  loop (S fuel) start acc w = Some (Ok (acc, true), w).
Proof.
  intros H. apply Qlt_bool_false in H. simpl. rewrite H. reflexivity.
Qed.

(** A timeout in [click_showmore] ends the loop with [more_content] false. *)
Lemma scroll_loop_timeout fuel start acc w w1 :
  now w - start < max_scroll_time ->
  click_showmore recursion_limit w = (Raise TimeoutException, w1) ->
  loop (S fuel) start acc w = Some (Ok (acc, false), w1).
Proof.
  intros H E. apply Qlt_bool_true in H. simpl. rewrite H, E. reflexivity.
Qed.

(** Any other exception of [click_showmore] leaves the loop as it is. *)
Lemma scroll_loop_raise fuel start acc w w1 e :
  now w - start < max_scroll_time ->
  click_showmore recursion_limit w = (Raise e, w1) ->
  e <> TimeoutException ->
  loop (S fuel) start acc w = Some (Raise e, w1).
Proof.
  intros H E Hne. apply Qlt_bool_true in H. simpl. rewrite H, E.
  destruct e; try reflexivity. contradiction.
Qed.

(** So does an exception of the batch that follows a click. *)
Lemma scroll_loop_batch_raise fuel start acc w w1 w2 e :
  now w - start < max_scroll_time ->
  click_showmore recursion_limit w = (Ok tt, w1) ->
  store_and_delete_cards py_float w1 = (Raise e, w2) ->
  e <> TimeoutException ->
  loop (S fuel) start acc w = Some (Raise e, w2).
Proof.
  intros H E Es Hne. apply Qlt_bool_true in H. simpl. rewrite H, E, Es.
  destruct e; try reflexivity. contradiction.
Qed.

(** Every iteration that goes round uses up one batch of the page, so the
    loop ends within as many iterations as the page has batches, plus
    one. *)
Lemma scroll_loop_total fuel :
  forall start acc w,
    (List.length (pending w) < fuel)%nat ->
    exists r, loop fuel start acc w = Some r.
Proof.
  induction fuel as [|fuel IH]; intros start acc w Hf; [lia|].
  simpl. destruct (Qlt_bool (now w - start) max_scroll_time); [|eauto].
  destruct (click_showmore recursion_limit w) as [[[]|e] w1] eqn:E.
  - destruct (click_showmore_frame _ _ _ _ E)
      as (_ & _ & _ & _ & batch & Hp & _).
    pose proof (store_and_delete_cards_world w1) as (_ & _ & _ & Hp2 & _).
    destruct (store_and_delete_cards py_float w1) as [[more|e] w2];
      simpl in Hp2.
    + apply IH. rewrite Hp2. rewrite Hp in Hf. simpl in Hf. lia.
    + destruct e; eauto.
  - destruct e; eauto.
Qed.

(** Complete iterations only consume fuel. *)
Lemma iterates_scroll_loop start acc w acc' w' :
  rounds start acc w acc' w' ->
  forall fuel,
    (List.length (pending w) < fuel)%nat ->
    exists fuel',
      (List.length (pending w') < fuel')%nat
      /\ loop fuel start acc w = loop fuel' start acc' w'.
Proof.
  induction 1 as [acc w|acc w w1 more w2 acc' w' Hb Hc Hs Hi IH];
    intros fuel Hf.
  - exists fuel. split; [exact Hf|reflexivity].
  - destruct fuel as [|fuel]; [lia|].
    destruct (click_showmore_frame _ _ _ _ Hc)
      as (_ & _ & _ & _ & batch & Hp & _).
    pose proof (store_and_delete_cards_world w1) as (_ & _ & _ & Hp2 & _).
    rewrite Hs in Hp2. simpl in Hp2.
    destruct (IH fuel) as (fuel' & Hf' & Heq).
    { rewrite Hp2. rewrite Hp in Hf. simpl in Hf. lia. }
    exists fuel'. split; [exact Hf'|].
    simpl. rewrite Hb, Hc, Hs. exact Heq.
Qed.

(** Complete iterations emit no warning and leave one batch less each. *)
Lemma iterates_warnings start acc w acc' w' :
  rounds start acc w acc' w' -> warnings w' = warnings w.
Proof.
  induction 1 as [acc w|acc w w1 more w2 acc' w' Hb Hc Hs Hi IH];
    [reflexivity|].
  destruct (click_showmore_frame _ _ _ _ Hc) as (Hw & _).
  pose proof (store_and_delete_cards_world w1) as (_ & _ & _ & _ & _ & Hw2).
  rewrite Hs in Hw2. simpl in Hw2. congruence.
Qed.

(** The driver, from the first batch on. *)
Lemma load_and_store_unfold fuel w recs w0 :
  store_and_delete_cards py_float w = (Ok recs, w0) ->
  driver fuel w
  = match loop fuel (now w0) recs w0 with
    | None => None
    | Some (Raise e, w1) => Some (Raise e, w1)
    | Some (Ok (prof_data, true), w1) =>
        Some (Ok prof_data, snd (warnings_warn SCROLL_TIME_WARN w1))
    | Some (Ok (prof_data, false), w1) => Some (Ok prof_data, w1)
    end.
Proof.
  intros E. unfold load_and_store_all_content. rewrite E.
  destruct (loop fuel (now w0) recs w0) as [[[[pd [|]]|e] w1]|];
    reflexivity.
Qed.

(** An exception of the driver is fatal to the session: [save_school_data]
    raises [RuntimeError] for the school, caused by it. *)
Lemma save_school_data_raises fuel school id dest w e w' :
  dict_get SCHOOL_IDS school = Some id ->
  dict_get CSV_DESTS school = Some dest ->
  driver fuel (startup w) = Some (Raise e, w') ->
  save_school_data py_float recursion_limit max_scroll_time fuel school w
  = Some (Raise (RuntimeError school e), w').
Proof.
  intros Hid Hdest Hload.
  unfold save_school_data, getitem, session_data. rewrite Hid, Hdest.
  unfold ret. simpl. unfold startup in Hload.
  destruct ((pause <- random_uniform MIN_WAIT MAX_WAIT ;; time_sleep pause) w)
    as [[[]|x] w1] eqn:E.
  - simpl in Hload. rewrite Hload. reflexivity.
  - unfold bind, random_uniform, time_sleep in E.
    destruct (draws w); discriminate.
Qed.

End Pagination.

(* ------------------------------------------------------------------ *)
(** ** The record extractor *)

Section RecordExtractor.
Variable Float : Type.
Variable py_float : string -> option Float.

(** C4.  Whatever panel handle [extract_prof_data] is given and on whatever
    page, the panel is no longer attached to the document when the call
    ends: this holds of the page the call leaves, of every normal return
    with a record, and of every return with a raised exception. *)
Theorem extract_prof_data_detaches card w :
  attached card (snd (extract_prof_data py_float card w)) = false
  /\ (forall d w', extract_prof_data py_float card w = (Ok d, w') ->
                   attached card w' = false)
  /\ (forall e w', extract_prof_data py_float card w = (Raise e, w') ->
                   attached card w' = false).
Proof.
  assert (H : attached card (snd (extract_prof_data py_float card w)) = false).
  { destruct (lookup card (document w)) as [c|] eqn:E.
    - rewrite (extract_attached _ _ _ _ _ E). apply attached_detach.
    - rewrite (extract_stale _ _ _ _ E). apply lookup_not_attached, E. }
  split; [exact H|]. split; intros x w' Hx; rewrite Hx in H; exact H.
Qed.

End RecordExtractor.

(** Both exits of the extractor on the listing: panel 1 gives a record,
    panel 2 of the garbled listing raises, and each is detached. *)
Example extract_prof_data_detaches_both_exits :
  (exists d w', extract_prof_data Fixtures.decimal 1 Fixtures.listing = (Ok d, w')
                /\ attached 1 w' = false
                /\ attached 1 Fixtures.listing = true)
  /\ (exists w', extract_prof_data Fixtures.decimal 2 Fixtures.listing_garbled
                 = (Raise ValueError, w')
                 /\ attached 2 w' = false
                 /\ attached 2 Fixtures.listing_garbled = true).
Proof.
  split.
  - eexists. eexists. split; [vm_compute; reflexivity|]. split; reflexivity.
  - eexists. split; [vm_compute; reflexivity|]. split; reflexivity.
Qed.

(* ------------------------------------------------------------------ *)
(** ** A batch with a panel that cannot be read *)

Section Batch.
Variable Float : Type.
Variable py_float : string -> option Float.
Variable recursion_limit : nat.
Variable max_scroll_time : Q.

Lemma attached_lookup h w :
  attached h w = true -> exists c, lookup h (document w) = Some c.
Proof.
  intros H. destruct (lookup h (document w)) as [c|] eqn:E; [eauto|].
  rewrite (lookup_not_attached _ _ E) in H. discriminate.
Qed.

Lemma lookup_nodup doc :
  NoDup (map fst doc) ->
  forall k (c : Card), In (k, c) doc -> lookup k doc = Some c.
Proof.
  induction doc as [|[j cj] doc IH]; simpl; intros Hnd k c Hin;
    [contradiction|].
  inversion Hnd as [|? ? Hnotin Hnd']; subst.
  destruct Hin as [Heq|Hin].
  - inversion Heq; subst. rewrite Nat.eqb_refl. reflexivity.
  - destruct (Nat.eqb j k) eqn:E.
    + apply Nat.eqb_eq in E; subst j. exfalso. apply Hnotin.
      change k with (fst (k, c)). apply in_map, Hin.
    + apply IH; assumption.
Qed.

(** On a page whose handles are distinct, the outcomes of a batch are the
    outcomes of its panels' contents, in document order. *)
Lemma outcomes_of_document w :
  NoDup (map fst (document w)) ->
  map (fun card => fst (extract_prof_data py_float card w))
      (map fst (document w))
  = map (fun kc => card_outcome py_float (snd kc)) (document w).
Proof.
  intros Hnd. rewrite map_map. apply map_ext_in. intros [k c] Hin. simpl.
  rewrite (extract_attached _ py_float k w c (lookup_nodup _ Hnd k c Hin)).
  reflexivity.
Qed.

Lemma list_results_first_failure (oks : list (result (ProfData Float))) e rest :
  Forall (fun r => exists d, r = Ok d) oks ->
  list_results (oks ++ Raise e :: rest) = Raise e.
Proof.
  induction 1 as [|r oks [d ->] _ IH]; simpl; [reflexivity|].
  rewrite IH. reflexivity.
Qed.

(** Every panel of a batch is detached, in the order of submission. *)
Lemma executor_map_journal cards :
  NoDup cards ->
  forall w,
    (forall h, In h cards -> attached h w = true) ->
    journal (snd (executor_map py_float cards w))
    = (journal w ++ map (fun h => (now w, Detached h)) cards)%list.
Proof.
  induction 1 as [|card cards Hnotin Hnd IH]; intros w Hatt; simpl.
  - rewrite app_nil_r. reflexivity.
  - destruct (attached_lookup card w (Hatt card (or_introl eq_refl)))
      as [c Hc].
    rewrite (extract_attached _ py_float card w c Hc).
    specialize (IH (detach card w)).
    destruct (executor_map py_float cards (detach card w)) as [rs w2].
    simpl in *. rewrite IH.
    + rewrite <- app_assoc. reflexivity.
    + intros h Hh.
      destruct (attached_lookup h w (Hatt h (or_intror Hh))) as [ch Hch].
      apply (lookup_attached h _ ch). simpl.
      rewrite lookup_filter_other; [exact Hch|].
      intros ->. contradiction.
Qed.

Lemma handles_attached w h :
  In h (map fst (document w)) -> attached h w = true.
Proof.
  unfold attached. intros H. apply existsb_exists.
  apply in_map_iff in H as (kc & Hk & Hin). exists kc. split; [exact Hin|].
  rewrite Hk. apply Nat.eqb_refl.
Qed.

(** C2, as the script has it.  Take a batch with distinct handles in which
    the first panel that cannot be extracted fails on a number
    ([ValueError]).  Every panel of the batch, the ones after the failing
    one included, is still served and detached; but the batch returns no
    record and raises the [ValueError], the pagination driver lets it
    through both for the first batch and for a batch that follows a click,
    and the session of the school ends in a [RuntimeError] caused by it. *)
Theorem parse_failure_aborts_batch_and_session w pre card c post :
  document w = (pre ++ (card, c) :: post)%list ->
  NoDup (map fst (document w)) ->
  Forall (fun kc => exists d, card_outcome py_float (snd kc) = Ok d) pre ->
  card_outcome py_float c = Raise ValueError ->
  let w' := snd (store_and_delete_cards py_float w) in
  store_and_delete_cards py_float w = (Raise ValueError, w')
  /\ document w' = []
  /\ journal w'
     = (journal w
          ++ map (fun h => (now w, Detached h)) (map fst (document w)))%list
  /\ (forall fuel,
         load_and_store_all_content py_float recursion_limit max_scroll_time
           fuel w
         = Some (Raise ValueError, w'))
  /\ (forall fuel start acc w0,
         now w0 - start < max_scroll_time ->
         click_showmore recursion_limit w0 = (Ok tt, w) ->
         scroll_loop py_float recursion_limit max_scroll_time (S fuel) start
           acc w0
         = Some (Raise ValueError, w'))
  /\ (forall fuel school id dest ws,
         startup ws = w ->
         dict_get SCHOOL_IDS school = Some id ->
         dict_get CSV_DESTS school = Some dest ->
         save_school_data py_float recursion_limit max_scroll_time fuel
           school ws
         = Some (Raise (RuntimeError school ValueError), w')).
Proof.
  intros Hdoc Hnd Hpre Hc w'.
  assert (Hrun : store_and_delete_cards py_float w = (Raise ValueError, w')).
  { subst w'. unfold store_and_delete_cards, find_cards, bind.
    pose proof (executor_map_outcomes _ py_float _ Hnd w) as Ho.
    destruct (executor_map py_float (map fst (document w)) w) as [rs w1].
    simpl in *. subst rs. rewrite (outcomes_of_document w Hnd), Hdoc.
    rewrite map_app. simpl. rewrite Hc.
    rewrite list_results_first_failure; [reflexivity|].
    apply Forall_map. exact Hpre. }
  assert (Hload : forall fuel,
             load_and_store_all_content py_float recursion_limit
               max_scroll_time fuel w
             = Some (Raise ValueError, w')).
  { intros fuel. unfold load_and_store_all_content. rewrite Hrun.
    reflexivity. }
  split; [exact Hrun|]. split.
  { subst w'. apply (store_and_delete_cards_world _ py_float w). }
  split.
  { subst w'. unfold store_and_delete_cards, find_cards, bind.
    pose proof (executor_map_journal _ Hnd w (handles_attached w)) as Hj.
    destruct (executor_map py_float (map fst (document w)) w) as [rs w1].
    exact Hj. }
  split; [exact Hload|]. split.
  - intros fuel start acc w0 Hb Hclick.
    apply (scroll_loop_batch_raise _ py_float _ _ fuel start acc w0 w w'
             ValueError Hb Hclick Hrun).
    discriminate.
  - intros fuel school id dest ws Hs Hid Hdest.
    apply (save_school_data_raises _ py_float _ _ fuel school id dest ws
             ValueError w' Hid Hdest).
    rewrite Hs. apply Hload.
Qed.

End Batch.

(** C2, as the spec has it, fails: the middle panel of the garbled listing
    is the only one whose number cannot be read, and the session of the
    school does fail, with no record kept. *)
Lemma parse_failure_is_fatal_example :
  card_outcome Fixtures.decimal Fixtures.garbled = Raise ValueError
  /\ (exists d, card_outcome Fixtures.decimal Fixtures.smith = Ok d)
  /\ (exists d, card_outcome Fixtures.decimal Fixtures.okafor = Ok d)
  /\ option_map fst
       (save_school_data Fixtures.decimal 1000 MAX_SCROLL_TIME 2
          "Acadia University" Fixtures.listing_garbled)
     = Some (Raise (RuntimeError "Acadia University" ValueError)).
Proof.
  split; [vm_compute; reflexivity|].
  split; [eexists; vm_compute; reflexivity|].
  split; [eexists; vm_compute; reflexivity|].
  vm_compute. reflexivity.
Qed.

Lemma parse_failure_aborts_batch_and_session_witness :
  let w := startup Fixtures.listing_garbled in
  let w' := snd (store_and_delete_cards Fixtures.decimal w) in
  store_and_delete_cards Fixtures.decimal w = (Raise ValueError, w')
  /\ document w' = []
  /\ save_school_data Fixtures.decimal 1000 MAX_SCROLL_TIME 2
       "Acadia University" Fixtures.listing_garbled
     = Some (Raise (RuntimeError "Acadia University" ValueError), w').
Proof.
  intros w w'.
  destruct (parse_failure_aborts_batch_and_session Q Fixtures.decimal 1000
              MAX_SCROLL_TIME w [(1%nat, Fixtures.smith)] 2%nat
              Fixtures.garbled [(3%nat, Fixtures.okafor)])
    as (H1 & H2 & _ & _ & _ & H6).
  - reflexivity.
  - vm_compute. repeat constructor; simpl; intuition discriminate.
  - repeat constructor. eexists. vm_compute. reflexivity.
  - vm_compute. reflexivity.
  - split; [exact H1|]. split; [exact H2|].
    apply (H6 2%nat "Acadia University" 1406%Z "rmp_acadia.csv"
             Fixtures.listing_garbled); reflexivity.
Defined.

(* ------------------------------------------------------------------ *)
(** ** The would-take-again percentage *)

Lemma take_again_pct_of_pure text w : snd (take_again_pct_of text w) = w.
Proof.
  unfold take_again_pct_of. destruct (String.eqb text "N/A"); [reflexivity|].
  destruct (PyInt.int (Text.drop_last text)); reflexivity.
Qed.

(** The numerals of 0 to 100 followed by a percent sign are read as the
    numbers they write. *)
Lemma percent_numerals n :
  (n <= 100)%nat ->
  String.eqb (str_of_int (Z.of_nat n) ++ "%") "N/A" = false
  /\ PyInt.int (Text.drop_last (str_of_int (Z.of_nat n) ++ "%"))
     = Some (Z.of_nat n).
Proof.
  intros H.
  do 101 (destruct n as [|n]; [vm_compute; split; reflexivity|]).
  lia.
Qed.

Section Percentage.
Variable Float : Type.
Variable py_float : string -> option Float.

(** What a record tells about the panel it was read from. *)
Lemma card_outcome_ok c d :
  card_outcome py_float c = Ok d ->
  exists text difficulty_text rest,
    feedback_els c = text :: difficulty_text :: rest
    /\ name_els c = Name d :: tl (name_els c)
    /\ department_els c = Department d :: tl (department_els c)
    /\ py_float (hd "" (rating_els c)) = Some (Rating d)
    /\ py_float difficulty_text = Some (Difficulty d)
    /\ (if String.eqb text "N/A" then Would_Take_Again d = None
        else exists n, PyInt.int (Text.drop_last text) = Some n
                       /\ Would_Take_Again d = Some n).
Proof.
  unfold card_outcome, extract_prof_data, try_finally, free_card_memory,
    script_remove_child, find_element_text, find_elements, float,
    take_again_pct_of, subscript, bind, ret, raise.
  destruct c as [ns rs ds fs]; simpl.
  destruct ns as [|n ns]; simpl; [discriminate|].
  destruct rs as [|r rs]; simpl; [discriminate|].
  destruct (py_float r) as [rt|] eqn:Er; simpl; [|discriminate].
  destruct ds as [|dp ds]; simpl; [discriminate|].
  destruct fs as [|f0 [|f1 fs]]; simpl; try discriminate.
  destruct (py_float f1) as [df|] eqn:Ed; simpl; [|discriminate].
  destruct (String.eqb f0 "N/A") eqn:Es; simpl.
  - intros H; inversion H; subst; simpl. exists f0, f1, fs.
    rewrite Es. repeat split; try reflexivity; assumption.
  - destruct (PyInt.int (Text.drop_last f0)) as [k|] eqn:Ei; simpl;
      [|discriminate].
    intros H; inversion H; subst; simpl. exists f0, f1, fs.
    rewrite Es. repeat split; try reflexivity; try assumption.
    exists k. split; [exact Ei|reflexivity].
Qed.

(** C9, as the script has it.  The would-take-again field of every record
    that [extract_prof_data] returns comes from the first feedback text of
    the panel: it is absent exactly when that text is the sentinel, and
    otherwise it is the integer that [int] reads from the text without its
    last character, whatever its size or sign.  It is the number from 0 to
    100 that the text writes when the text is such a numeral followed by a
    percent sign. *)
Theorem record_percentage_origin card w d w' :
  extract_prof_data py_float card w = (Ok d, w') ->
  exists c text rest,
    lookup card (document w) = Some c
    /\ feedback_els c = text :: rest
    /\ (text = "N/A" -> Would_Take_Again d = None)
    /\ (text <> "N/A" ->
        exists n, PyInt.int (Text.drop_last text) = Some n
                  /\ Would_Take_Again d = Some n)
    /\ (forall n, (n <= 100)%nat ->
                  text = str_of_int (Z.of_nat n) ++ "%" ->
                  Would_Take_Again d = Some (Z.of_nat n)).
Proof.
  intros H.
  destruct (lookup card (document w)) as [c|] eqn:E.
  2:{ rewrite (extract_stale _ py_float card w E) in H. discriminate. }
  rewrite (extract_attached _ py_float card w c E) in H.
  inversion H as [[Hout Hw]].
  destruct (card_outcome_ok c d Hout)
    as (text & dtext & rest & Hf & _ & _ & _ & _ & Hwta).
  exists c, text, (dtext :: rest). split; [reflexivity|]. split; [exact Hf|].
  split; [|split].
  - intros ->. simpl in Hwta. exact Hwta.
  - intros Hne. destruct (String.eqb text "N/A") eqn:Es; [|exact Hwta].
    apply String.eqb_eq in Es. contradiction.
  - intros n Hn ->. destruct (percent_numerals n Hn) as [Hs Hi].
    rewrite Hs in Hwta. destruct Hwta as (k & Hk & ->).
    rewrite Hi in Hk. inversion Hk. reflexivity.
Qed.

End Percentage.

(** C9, as the spec has it, fails: the panel whose percentage text is
    250 percent gives a record whose field is 250, outside 0 to 100. *)
Lemma record_percentage_out_of_range_example :
  exists d w',
    extract_prof_data Fixtures.decimal 7
      (Fixtures.page [(7%nat, Fixtures.eager)] [] [] []) = (Ok d, w')
    /\ Would_Take_Again d = Some 250%Z
    /\ ~ (0 <= 250 <= 100)%Z.
Proof.
  eexists. eexists. split; [vm_compute; reflexivity|].
  split; [reflexivity|lia].
Qed.

Lemma record_percentage_origin_witness :
  exists d w',
    extract_prof_data Fixtures.decimal 1 Fixtures.listing = (Ok d, w')
    /\ Would_Take_Again d = Some 60%Z.
Proof.
  eexists. eexists. split; [vm_compute; reflexivity|].
  destruct (record_percentage_origin Q Fixtures.decimal 1 Fixtures.listing
              _ _ eq_refl)
    as (c & text & rest & Hl & Hf & _ & _ & Hr).
  vm_compute in Hl. inversion Hl; subst c. vm_compute in Hf.
  inversion Hf; subst text rest. apply (Hr 60%nat); [lia|reflexivity].
Defined.

(* ------------------------------------------------------------------ *)
(** ** The concurrency caps *)

(** C6, as the script has it.  The outer cap is the integer half of the
    number of processing units; when the number is not known the script
    takes 4 units, so the cap is 2.  The script sets no floor: the cap is at
    least 2 exactly when the number is unknown or at least 4.  The inner cap
    is 6 on every machine, so both pools together never hold more than
    three workers per unit. *)
Theorem concurrency_caps :
  MAX_OUTER_THREADS None = 2%nat
  /\ (forall n, (0 < n)%nat -> MAX_OUTER_THREADS (Some n) = (n / 2)%nat)
  /\ (forall n, (0 < n)%nat ->
                (2 <= MAX_OUTER_THREADS (Some n))%nat <-> (4 <= n)%nat)
  /\ MAX_INNER_THREADS = 6%nat
  /\ (forall n, (0 < n)%nat ->
                (MAX_OUTER_THREADS (Some n) * MAX_INNER_THREADS <= 3 * n)%nat).
Proof.
  assert (H : forall n, (0 < n)%nat ->
                        MAX_OUTER_THREADS (Some n) = (n / 2)%nat).
  { intros [|n] Hn; [lia|reflexivity]. }
  split; [reflexivity|]. split; [exact H|]. split; [|split; [reflexivity|]].
  - intros n Hn. rewrite (H n Hn).
    pose proof (Nat.div_mod_eq n 2) as Hd.
    pose proof (Nat.mod_upper_bound n 2 ltac:(lia)) as Hm. lia.
  - intros n Hn. rewrite (H n Hn). unfold MAX_INNER_THREADS.
    pose proof (Nat.div_mod_eq n 2) as Hd. lia.
Qed.

(** C6, as the spec has it, fails: with two processing units the outer cap
    is 1, below 2. *)
Lemma outer_cap_below_two_example :
  MAX_OUTER_THREADS (Some 2%nat) = 1%nat
  /\ (MAX_OUTER_THREADS (Some 2%nat) < 2)%nat.
Proof. split; [reflexivity|]. vm_compute. lia. Qed.

(* ------------------------------------------------------------------ *)
(** ** Leaving the pagination loop *)

Section Driver.
Variable Float : Type.
Variable py_float : string -> option Float.
Variable recursion_limit : nat.
Variable max_scroll_time : Q.

Abbreviation loop := (scroll_loop py_float recursion_limit max_scroll_time).
Abbreviation driver :=
  (load_and_store_all_content py_float recursion_limit max_scroll_time).
Abbreviation rounds := (iterates py_float recursion_limit max_scroll_time).

(** The driver after the first batch and any number of complete
    iterations: what is left is the loop from there. *)
Lemma driver_after_rounds fuel w recs w0 acc w' :
  store_and_delete_cards py_float w = (Ok recs, w0) ->
  rounds (now w0) recs w0 acc w' ->
  (List.length (pending w) < fuel)%nat ->
  exists fuel',
    driver fuel w
    = match loop (S fuel') (now w0) acc w' with
      | None => None
      | Some (Raise e, w1) => Some (Raise e, w1)
      | Some (Ok (prof_data, true), w1) =>
          Some (Ok prof_data, snd (warnings_warn SCROLL_TIME_WARN w1))
      | Some (Ok (prof_data, false), w1) => Some (Ok prof_data, w1)
      end.
Proof.
  intros Hs Hr Hf.
  pose proof (store_and_delete_cards_world _ py_float w) as (_ & _ & _ & Hp & _).
  rewrite Hs in Hp. simpl in Hp.
  destruct (iterates_scroll_loop _ _ _ _ _ _ _ _ _ Hr fuel) as (fuel' & Hf' & Heq).
  { rewrite Hp. exact Hf. }
  destruct fuel' as [|fuel']; [lia|]. exists fuel'.
  rewrite (load_and_store_unfold _ py_float _ _ fuel w recs w0 Hs), Heq.
  reflexivity.
Qed.

Lemma rounds_warnings w recs w0 acc w' :
  store_and_delete_cards py_float w = (Ok recs, w0) ->
  rounds (now w0) recs w0 acc w' ->
  warnings w' = warnings w.
Proof.
  intros Hs Hr.
  pose proof (store_and_delete_cards_world _ py_float w)
    as (_ & _ & _ & _ & _ & Hw).
  rewrite Hs in Hw. simpl in Hw.
  rewrite (iterates_warnings _ _ _ _ _ _ _ _ _ Hr). exact Hw.
Qed.

(** C1.  Take a session whose first batch gave [recs].  If, after any
    number of complete iterations, the check at the head of the loop finds
    the budget used up, the driver returns normally with the records
    gathered so far and adds the truncation warning to the warnings.  With
    a budget of 0 it returns the records of the first batch, and the
    truncation warning, without a single iteration. *)
Theorem budget_exceeded_truncates w recs w0 :
  store_and_delete_cards py_float w = (Ok recs, w0) ->
  (forall acc w' fuel,
      rounds (now w0) recs w0 acc w' ->
      max_scroll_time <= now w' - now w0 ->
      (List.length (pending w) < fuel)%nat ->
      driver fuel w
      = Some (Ok acc, snd (warnings_warn SCROLL_TIME_WARN w'))
      /\ warnings (snd (warnings_warn SCROLL_TIME_WARN w'))
         = (warnings w ++ [SCROLL_TIME_WARN])%list)
  /\ (max_scroll_time == 0 ->
      forall fuel,
        (0 < fuel)%nat ->
        driver fuel w
        = Some (Ok recs, snd (warnings_warn SCROLL_TIME_WARN w0))
        /\ journal (snd (warnings_warn SCROLL_TIME_WARN w0)) = journal w0).
Proof.
  intros Hs. split.
  - intros acc w' fuel Hr Hb Hf.
    destruct (driver_after_rounds fuel w recs w0 acc w' Hs Hr Hf)
      as (fuel' & ->).
    rewrite (scroll_loop_budget _ py_float _ _ fuel' (now w0) acc w' Hb).
    split; [reflexivity|]. simpl.
    rewrite (rounds_warnings w recs w0 acc w' Hs Hr). reflexivity.
  - intros Hz fuel Hf. destruct fuel as [|fuel]; [lia|].
    rewrite (load_and_store_unfold _ py_float _ _ (S fuel) w recs w0 Hs).
    rewrite scroll_loop_budget; [split; reflexivity|].
    rewrite Hz. lra.
Qed.

(** C5.  Take a session whose first batch gave [recs].  If, after any
    number of complete iterations and within the budget, the page has no
    load-more control left, the wait for it times out and the driver
    returns normally with all the records gathered, on a page with nothing
    left to reveal, and with no warning added. *)
Theorem control_timeout_completes w recs w0 acc w' fuel :
  store_and_delete_cards py_float w = (Ok recs, w0) ->
  rounds (now w0) recs w0 acc w' ->
  now w' - now w0 < max_scroll_time ->
  pending w' = [] ->
  (0 < recursion_limit)%nat ->
  (List.length (pending w) < fuel)%nat ->
  exists w'',
    click_showmore recursion_limit w' = (Raise TimeoutException, w'')
    /\ driver fuel w = Some (Ok acc, w'')
    /\ warnings w'' = warnings w
    /\ pending w'' = [].
Proof.
  intros Hs Hr Hb Hp Hl Hf.
  assert (Hc : click_showmore recursion_limit w'
               = (Raise TimeoutException,
                  set_now (now (paused w') + wait_out MAX_WAIT) (paused w'))).
  { clear - Hp Hl. destruct recursion_limit as [|frames]; [lia|].
    rewrite click_showmore_unfold. unfold click_showmore_step.
    change (pending (paused w')) with (pending w'). rewrite Hp.
    reflexivity. }
  eexists. split; [exact Hc|].
  destruct (driver_after_rounds fuel w recs w0 acc w' Hs Hr Hf)
    as (fuel' & ->).
  rewrite (scroll_loop_timeout _ py_float _ _ fuel' (now w0) acc w' _ Hb Hc).
  split; [reflexivity|]. simpl.
  split; [exact (rounds_warnings w recs w0 acc w' Hs Hr)|exact Hp].
Qed.


(** An exception of the resolver other than a timeout is fatal to the
    session. *)
Lemma resolver_exception_fatal ws recs w0 acc w' e w'' fuel school id dest :
  store_and_delete_cards py_float (startup ws) = (Ok recs, w0) ->
  rounds (now w0) recs w0 acc w' ->
  now w' - now w0 < max_scroll_time ->
  click_showmore recursion_limit w' = (Raise e, w'') ->
  e <> TimeoutException ->
  (List.length (pending ws) < fuel)%nat ->
  dict_get SCHOOL_IDS school = Some id ->
  dict_get CSV_DESTS school = Some dest ->
  driver fuel (startup ws) = Some (Raise e, w'')
  /\ save_school_data py_float recursion_limit max_scroll_time fuel school ws
     = Some (Raise (RuntimeError school e), w'').
Proof.
  intros Hs Hr Hb Hc Hne Hf Hid Hdest.
  assert (Hd : driver fuel (startup ws) = Some (Raise e, w'')).
  { destruct (driver_after_rounds fuel (startup ws) recs w0 acc w' Hs Hr)
      as (fuel' & ->).
    - unfold startup, bind, random_uniform, time_sleep.
      destruct (draws ws); exact Hf.
    - rewrite (scroll_loop_raise _ py_float _ _ fuel' (now w0) acc w' _ e
                 Hb Hc Hne).
      reflexivity. }
  split; [exact Hd|].
  apply (save_school_data_raises _ py_float _ _ fuel school id dest ws e w''
           Hid Hdest Hd).
Qed.

End Driver.

Ltac by_running := vm_compute; reflexivity.

Ltac one_round :=
  eapply iterates_more; [by_running | by_running | by_running | ].

(** The obstructed listing with a budget of one second: the first
    iteration ends four seconds in, the check that follows stops the loop
    with both records; and with a budget of 0 only the first panel's
    record comes back.  Both results carry the truncation warning. *)
Lemma budget_exceeded_truncates_witness :
  (exists d1 d2 w'',
      load_and_store_all_content Fixtures.decimal 1000 1 2
        Fixtures.listing_obstructed
      = Some (Ok [d1; d2], w'')
      /\ warnings w'' = [SCROLL_TIME_WARN])
  /\ (exists d1 w'',
         load_and_store_all_content Fixtures.decimal 1000 0 2
           Fixtures.listing_obstructed
         = Some (Ok [d1], w'')
         /\ warnings w'' = [SCROLL_TIME_WARN]
         /\ map snd (journal w'') = [Detached 1]).
Proof.
  split.
  - edestruct (budget_exceeded_truncates Q Fixtures.decimal 1000 1
                 Fixtures.listing_obstructed) as [H _]; [by_running|].
    edestruct H as [Hd Hw].
    + one_round. apply iterates_here.
    + vm_compute. discriminate.
    + simpl. apply Nat.lt_succ_diag_r.
    + eexists. eexists. eexists. split; [exact Hd|exact Hw].
  - edestruct (budget_exceeded_truncates Q Fixtures.decimal 1000 0
                 Fixtures.listing_obstructed) as [_ H]; [by_running|].
    destruct (H ltac:(reflexivity) 2%nat ltac:(lia)) as [Hd Hj].
    eexists. eexists. split; [exact Hd|]. split; [reflexivity|].
    rewrite Hj. reflexivity.
Defined.

(** The listing of the spec's scenario: three panels, one more after a
    click, then no control.  Four records, no warning. *)
Lemma control_timeout_completes_witness :
  exists d1 d2 d3 d4 w'',
    load_and_store_all_content Fixtures.decimal 1000 MAX_SCROLL_TIME 2
      Fixtures.listing
    = Some (Ok [d1; d2; d3; d4], w'')
    /\ warnings w'' = []
    /\ pending w'' = [].
Proof.
  edestruct (control_timeout_completes Q Fixtures.decimal 1000 MAX_SCROLL_TIME
               Fixtures.listing) with (fuel := 2%nat)
    as (w'' & _ & Hd & Hw & Hp).
  - by_running.
  - one_round. apply iterates_here.
  - vm_compute. reflexivity.
  - reflexivity.
  - lia.
  - simpl. lia.
  - do 4 eexists. exists w''. split; [exact Hd|]. split; assumption.
Defined.

(* ------------------------------------------------------------------ *)
(** ** The obstruction resolver in the session *)

Lemma hidden_classes_app evs1 evs2 :
  hidden_classes (evs1 ++ evs2) = (hidden_classes evs1 ++ hidden_classes evs2)%list.
Proof.
  induction evs1 as [|e evs1 IH]; simpl; [reflexivity|].
  destruct e; simpl; rewrite IH; reflexivity.
Qed.

Lemma hidden_classes_resolution ovs :
  hidden_classes (resolution_events ovs)
  = map ov_class (filter ov_displayed ovs).
Proof.
  induction ovs as [|o ovs IH]; simpl; [reflexivity|].
  destruct (ov_displayed o); simpl; rewrite IH; reflexivity.
Qed.

Section Resolver.
Variable Float : Type.
Variable py_float : string -> option Float.
Variable recursion_limit : nat.
Variable max_scroll_time : Q.

Abbreviation loop := (scroll_loop py_float recursion_limit max_scroll_time).
Abbreviation driver :=
  (load_and_store_all_content py_float recursion_limit max_scroll_time).
Abbreviation rounds := (iterates py_float recursion_limit max_scroll_time).

(** C8, as the script has it.  Take a page on which the control is there.
    When the click is intercepted by the overlay [o], the topmost one
    displayed, and the lookup by the second class attribute found in the
    detail of the interception finds the place of [o], the resolver hides
    [o] where it stands, nothing being removed, and calls itself.  When
    the report of every displayed overlay leads to that overlay and the
    interpreter allows more nested calls than overlays are displayed, the
    call hides them all, topmost first, before the one click that
    activates the control. *)
Theorem resolver_clears_stack w :
  pending w <> [] ->
  (forall frames pre o post el_class,
      overlays w = (pre ++ o :: post)%list ->
      forallb (fun y => negb (ov_displayed y)) pre = true ->
      ov_displayed o = true ->
      nth_error (Regex.findall (ov_detail o)) 1 = Some el_class ->
      find_index (has_class el_class) (overlays w) = Some (List.length pre) ->
      blocker w = Some o
      /\ click_showmore (S frames) w
         = click_showmore frames
             (log (Hidden (ov_class o))
                {| now := now (paused w); draws := draws (paused w);
                   document := document w; pending := pending w;
                   overlays := (pre ++ undisplay o :: post)%list;
                   journal :=
                     (journal w
                        ++ [(now (paused w), Intercepted (ov_class o))])%list;
                   warnings := warnings w |}))
  /\ (forall frames,
         (forall i o,
             nth_error (overlays w) i = Some o -> ov_displayed o = true ->
             leads_home (overlays w) i o) ->
         (displayed_count (overlays w) < frames)%nat ->
         exists w' batch,
           click_showmore frames w = (Ok tt, w')
           /\ overlays w' = map undisplay (overlays w)
           /\ map snd (journal w')
              = (map snd (journal w) ++ resolution_events (overlays w)
                   ++ [Activated])%list
           /\ pending w = batch :: pending w'
           /\ document w' = (document w ++ batch)%list).
Proof.
  intros Hp. split.
  - intros frames pre o post el_class Ho Hpre Hdisp Hcls Hfind. split.
    + unfold blocker. rewrite Ho, (hidden_find _ Hpre). simpl.
      rewrite Hdisp. reflexivity.
    + apply (click_showmore_hides frames w pre o post el_class); assumption.
  - intros frames Hl Hlt.
    destruct (resolve_stack _ frames w (Build_resolvable w Hp Hl) eq_refl Hlt)
      as (w' & batch & Hrun & Hov & Hj & _ & Hpend & Hdoc & _).
    exists w', batch. repeat split; assumption.
Qed.

(** C7, as the script has it.  The recursion of the resolver is bounded by
    nothing but the number of nested calls the interpreter allows.  Take
    a page on which the control is there and the report of every displayed
    overlay leads to that overlay, with N overlays displayed.  A call that
    found any budget left at the head of the loop hides all N and
    activates the control when more than N nested calls are allowed, and
    at least N + 1 click pauses of half a second have passed when it
    returns, whatever the budget; the budget is looked at again only at
    the head of the next iteration.  When no more than N nested calls are
    allowed the call ends in [RecursionError] after as many hidings as
    calls, which is fatal to the session. *)
Theorem resolver_bound_is_call_depth w :
  resolvable w ->
  let n := displayed_count (overlays w) in
  ((n < recursion_limit)%nat ->
   exists w',
     click_showmore recursion_limit w = (Ok tt, w')
     /\ hidden_classes (map snd (journal w'))
        = (hidden_classes (map snd (journal w))
             ++ map ov_class (filter ov_displayed (overlays w)))%list
     /\ now w + (Qnat n + 1) * MIN_CLICK_PAUSE <= now w'
     /\ (forall fuel start acc,
            now w - start < max_scroll_time ->
            loop (S fuel) start acc w
            = match store_and_delete_cards py_float w' with
              | (Ok more, w2) => loop fuel start (acc ++ more)%list w2
              | (Raise TimeoutException, w2) => Some (Ok (acc, false), w2)
              | (Raise e, w2) => Some (Raise e, w2)
              end))
  /\ ((recursion_limit <= n)%nat ->
      exists w',
        click_showmore recursion_limit w = (Raise RecursionError, w')
        /\ displayed_count (overlays w') = (n - recursion_limit)%nat
        /\ now w + Qnat recursion_limit * MIN_CLICK_PAUSE <= now w'
        /\ (forall ws recs w0 acc fuel school id dest,
               store_and_delete_cards py_float (startup ws) = (Ok recs, w0) ->
               rounds (now w0) recs w0 acc w ->
               now w - now w0 < max_scroll_time ->
               (List.length (pending ws) < fuel)%nat ->
               dict_get SCHOOL_IDS school = Some id ->
               dict_get CSV_DESTS school = Some dest ->
               save_school_data py_float recursion_limit max_scroll_time
                 fuel school ws
               = Some (Raise (RuntimeError school RecursionError), w'))).
Proof.
  intros Hr n. split.
  - intros Hlt.
    destruct (resolve_stack _ recursion_limit w Hr eq_refl Hlt)
      as (w' & batch & Hrun & _ & Hj & Hlo & _).
    exists w'. split; [exact Hrun|]. split; [|split; [exact Hlo|]].
    + rewrite Hj, !hidden_classes_app, hidden_classes_resolution. simpl.
      rewrite app_nil_r. reflexivity.
    + intros fuel start acc Hb. apply Qlt_bool_true in Hb.
      simpl. rewrite Hb, Hrun. reflexivity.
  - intros Hle.
    destruct (resolve_stack_overflow recursion_limit w Hr Hle)
      as (w' & Hrun & Hcnt & Hlo).
    exists w'. repeat split; try assumption.
    intros ws recs w0 acc fuel school id dest Hs Hro Hb Hf Hid Hdest.
    apply (resolver_exception_fatal _ py_float recursion_limit
             max_scroll_time ws recs w0 acc w RecursionError w' fuel school
             id dest Hs Hro Hb Hrun); try assumption; discriminate.
Qed.

End Resolver.

(* ------------------------------------------------------------------ *)
(** ** Integer literals *)

Module IntProofs.
Import Text PyInt.




Lemma underscore_is_plain : is_digit "_" = false /\ is_space "_" = false.
Proof. split; reflexivity. Qed.









End IntProofs.






(* ------------------------------------------------------------------ *)
(** ** The resolver on the pages of the examples *)

Lemma listing_obstructed_resolvable : resolvable Fixtures.listing_obstructed.
Proof.
  apply named_overlays_resolvable.
  - discriminate.
  - repeat constructor; by_running.
  - repeat constructor.
  - repeat constructor; simpl; intuition discriminate.
Qed.

(** Three overlays over the control: each is intercepted and hidden in
    turn, then the control is activated; all three are still there. *)
Lemma resolver_clears_stack_witness :
  exists w',
    click_showmore 1000 Fixtures.listing_obstructed = (Ok tt, w')
    /\ map snd (journal w')
       = [Intercepted "bx-gbi-frame"; Hidden "bx-gbi-frame";
          Intercepted "cookie-banner"; Hidden "cookie-banner";
          Intercepted "modal-backdrop"; Hidden "modal-backdrop"; Activated]
    /\ map ov_class (overlays w')
       = ["bx-gbi-frame"; "cookie-banner"; "modal-backdrop"]
    /\ map ov_displayed (overlays w') = [false; false; false].
Proof.
  destruct (resolver_clears_stack Fixtures.listing_obstructed) as [_ H];
    [discriminate|].
  destruct (H 1000%nat (reports_lead_home _ listing_obstructed_resolvable))
    as (w' & batch & Hrun & Hov & Hj & _).
  - vm_compute. lia.
  - exists w'. split; [exact Hrun|]. rewrite Hj, Hov.
    repeat split; reflexivity.
Defined.

(** C8, as the spec has it, fails.  The overlay with two classes
    intercepts the click; the detail names its class attribute, no element
    answers to that as a class name, the wait for it runs out, and the
    call ends with the overlay still displayed over the control, nothing
    hidden and no second click.  And three overlays that are all found
    are not all hidden when three nested calls are allowed: the control
    is not activated. *)
Lemma resolver_leaves_overlay_example :
  (blocker Scenes.listing_two_classes = Some Scenes.two_classes
   /\ Regex.findall (ov_detail Scenes.two_classes)
      = ["Buttons__Button-sc-19xdot-1"; "modal fade"]
   /\ exists w',
        click_showmore 1000 Scenes.listing_two_classes
        = (Raise TimeoutException, w')
        /\ blocker w' = Some Scenes.two_classes
        /\ map snd (journal w') = [Intercepted "modal fade"]
        /\ pending w' = pending Scenes.listing_two_classes)
  /\ (exists w',
         click_showmore 3 Fixtures.listing_obstructed
         = (Raise RecursionError, w')
         /\ pending w' = pending Fixtures.listing_obstructed
         /\ ~ In Activated (map snd (journal w'))).
Proof.
  split.
  - split; [by_running|]. split; [by_running|].
    eexists. split; [by_running|]. repeat split; reflexivity.
  - eexists. split; [by_running|]. split; [reflexivity|].
    simpl. intuition discriminate.
Qed.

(** C7, as the spec has it, fails.  On the obstructed listing with a budget
    of one second the loop starts at time 0; the one call of the resolver
    hides the three overlays at times 1, 2 and 3, none of them within the
    budget, and the driver still returns both records. *)
Lemma resolver_runs_past_budget_example :
  exists d1 d2 w'',
    load_and_store_all_content Fixtures.decimal 1000 1 2
      Fixtures.listing_obstructed
    = Some (Ok [d1; d2], w'')
    /\ map Qred (hidden_times (journal w'')) = [1; 2; 3]
    /\ ~ resolved_within_budget 0 1 w''.
Proof.
  do 3 eexists. split; [by_running|]. split; [by_running|].
  unfold resolved_within_budget. simpl. intros H.
  inversion H as [|t ts Ht _]; subst. vm_compute in Ht. discriminate.
Qed.

(** The same page with 1000 nested calls allowed, and with 3. *)
Lemma resolver_bound_is_call_depth_witness :
  (exists w',
      click_showmore 1000 Fixtures.listing_obstructed = (Ok tt, w')
      /\ hidden_classes (map snd (journal w'))
         = ["bx-gbi-frame"; "cookie-banner"; "modal-backdrop"]
      /\ 2 <= now w')
  /\ (exists w',
         click_showmore 3 Fixtures.listing_obstructed
         = (Raise RecursionError, w')
         /\ displayed_count (overlays w') = 0%nat).
Proof.
  split.
  - destruct (resolver_bound_is_call_depth Q Fixtures.decimal 1000 1
                Fixtures.listing_obstructed listing_obstructed_resolvable)
      as [H _].
    destruct H as (w' & Hrun & Hh & Hlo & _); [vm_compute; lia|].
    exists w'. split; [exact Hrun|]. split; [rewrite Hh; reflexivity|].
    eapply Qle_trans; [|exact Hlo]. vm_compute. discriminate.
  - destruct (resolver_bound_is_call_depth Q Fixtures.decimal 3 1
                Fixtures.listing_obstructed listing_obstructed_resolvable)
      as [_ H].
    destruct H as (w' & Hrun & Hc & _); [vm_compute; lia|].
    exists w'. split; [exact Hrun|]. rewrite Hc. reflexivity.
Defined.

(* ------------------------------------------------------------------ *)
(** ** More about the record extractor *)

Section ExtractorMore.
Variable Float : Type.
Variable py_float : string -> option Float.

(** X2.  A panel can be read once: a second extraction with the same
    handle, whatever the first one gave, raises
    [StaleElementReferenceException] and changes nothing. *)
Theorem extract_prof_data_twice card w :
  let w1 := snd (extract_prof_data py_float card w) in
  extract_prof_data py_float card w1
  = (Raise StaleElementReferenceException, w1).
Proof.
  intros w1. apply extract_stale. subst w1.
  destruct (lookup card (document w)) as [c|] eqn:E.
  - rewrite (extract_attached _ py_float card w c E). simpl snd.
    pose proof (attached_detach card w) as H.
    destruct (lookup card (document (detach card w))) as [c'|] eqn:E';
      [|reflexivity].
    rewrite (lookup_attached card _ c' E') in H. discriminate.
  - rewrite (extract_stale _ py_float card w E). exact E.
Qed.

Lemma take_again_pct_of_value text w :
  take_again_pct_of text w = (fst (take_again_pct_of text w), w).
Proof.
  rewrite <- (take_again_pct_of_pure text w) at 3.
  destruct (take_again_pct_of text w). reflexivity.
Qed.

(** X3.  Which panels give a record.  For a panel that is attached,
    extraction returns a record exactly when the panel has a name element,
    a rating element whose text [float] accepts, a department element and
    at least two feedback elements, the second with a text [float]
    accepts and the first with a text the percentage reading accepts; the
    record holds the first name, rating and department and the two
    feedback values.  When it raises instead, the exception is one of
    [NoSuchElementException], [IndexError] and [ValueError]. *)
Theorem extract_prof_data_success card w c :
  lookup card (document w) = Some c ->
  (forall d,
      fst (extract_prof_data py_float card w) = Ok d
      <-> exists names rating_text ratings departments text difficulty_text
                 rest,
          name_els c = Name d :: names
          /\ rating_els c = rating_text :: ratings
          /\ py_float rating_text = Some (Rating d)
          /\ department_els c = Department d :: departments
          /\ feedback_els c = text :: difficulty_text :: rest
          /\ py_float difficulty_text = Some (Difficulty d)
          /\ fst (take_again_pct_of text w) = Ok (Would_Take_Again d))
  /\ (forall e,
         fst (extract_prof_data py_float card w) = Raise e ->
         e = NoSuchElementException \/ e = IndexError \/ e = ValueError).
Proof.
  intros Hl. rewrite (extract_attached _ py_float card w c Hl). simpl fst.
  unfold card_outcome, extract_prof_data, try_finally, free_card_memory,
    script_remove_child, find_element_text, find_elements, float,
    subscript, bind, ret, raise.
  destruct c as [ns rs ds fs]; simpl.
  split.
  - intros d. split.
    + destruct ns as [|n ns]; simpl; [discriminate|].
      destruct rs as [|r rs]; simpl; [discriminate|].
      destruct (py_float r) as [rt|] eqn:Er; simpl; [|discriminate].
      destruct ds as [|dp ds]; simpl; [discriminate|].
      destruct fs as [|f0 [|f1 fs]]; simpl; try discriminate.
      destruct (py_float f1) as [df|] eqn:Ed; simpl; [|discriminate].
      rewrite (take_again_pct_of_value f0 (one_card_world _)).
      destruct (fst (take_again_pct_of f0 (one_card_world _)))
        as [wta|e] eqn:Et; simpl; [|discriminate].
      intros H; inversion H; subst; simpl.
      exists ns, r, rs, ds, f0, f1, fs. repeat split; try assumption.
      unfold take_again_pct_of in *.
      destruct (String.eqb f0 "N/A"); [exact Et|].
      destruct (PyInt.int (Text.drop_last f0)); exact Et.
    + intros (names & r & rs' & dps & text & dtext & rest & Hn & Hr & Hrf
              & Hdp & Hf & Hdf & Ht).
      simpl in *. subst ns rs ds fs. simpl. rewrite Hrf. simpl.
      rewrite Hdf. simpl.
      rewrite (take_again_pct_of_value text (one_card_world _)).
      assert (Ht' : fst (take_again_pct_of text (one_card_world
                     {| name_els := Name d :: names;
                        rating_els := r :: rs';
                        department_els := Department d :: dps;
                        feedback_els := text :: dtext :: rest |}))
                    = Ok (Would_Take_Again d)).
      { unfold take_again_pct_of in *.
        destruct (String.eqb text "N/A"); [exact Ht|].
        destruct (PyInt.int (Text.drop_last text)); exact Ht. }
      rewrite Ht'. simpl. destruct d; reflexivity.
  - intros e.
    destruct ns as [|n ns]; simpl; [intros H; inversion H; auto|].
    destruct rs as [|r rs]; simpl; [intros H; inversion H; auto|].
    destruct (py_float r) as [rt|]; simpl; [|intros H; inversion H; auto].
    destruct ds as [|dp ds]; simpl; [intros H; inversion H; auto|].
    destruct fs as [|f0 [|f1 fs]]; simpl;
      try (intros H; inversion H; auto; fail).
    destruct (py_float f1) as [df|]; simpl; [|intros H; inversion H; auto].
    unfold take_again_pct_of.
    destruct (String.eqb f0 "N/A"); simpl; [discriminate|].
    destruct (PyInt.int (Text.drop_last f0)); simpl;
      [discriminate|intros H; inversion H; auto].
Qed.

Lemma list_results_ok (results : list (result (ProfData Float))) ds :
  list_results results = Ok ds <-> results = map Ok ds.
Proof.
  revert ds. induction results as [|r rs IH]; intros ds; simpl.
  - split; intros H.
    + inversion H. reflexivity.
    + destruct ds; [reflexivity|discriminate].
  - destruct r as [d|e].
    + destruct (list_results rs) as [ds'|e'] eqn:E.
      * split; intros H.
        -- injection H as <-. simpl. f_equal. apply IH. reflexivity.
        -- destruct ds as [|d0 ds0]; [discriminate|]. simpl in H.
           injection H as Hd Hrs. subst d0. apply IH in Hrs.
           injection Hrs as <-. reflexivity.
      * split; intros H; [discriminate|].
        destruct ds as [|d0 ds0]; [discriminate|]. simpl in H.
        injection H as Hd Hrs. apply IH in Hrs. discriminate.
    + split; intros H; [discriminate|].
      destruct ds; discriminate.
Qed.

(** X4.  A batch on a page with distinct handles returns records exactly
    when every panel gives one: the records are then those of the panels
    in document order, one for each, and whatever the batch returns the
    document is left without panels. *)
Theorem store_and_delete_cards_success w :
  NoDup (map fst (document w)) ->
  (forall recs,
      fst (store_and_delete_cards py_float w) = Ok recs
      <-> map (fun kc => card_outcome py_float (snd kc)) (document w)
          = map Ok recs)
  /\ (forall recs,
         fst (store_and_delete_cards py_float w) = Ok recs ->
         List.length recs = List.length (document w))
  /\ document (snd (store_and_delete_cards py_float w)) = [].
Proof.
  intros Hnd.
  assert (Hfst : fst (store_and_delete_cards py_float w)
                 = list_results
                     (map (fun kc => card_outcome py_float (snd kc))
                          (document w))).
  { unfold store_and_delete_cards, find_cards, bind.
    pose proof (executor_map_outcomes _ py_float _ Hnd w) as Ho.
    destruct (executor_map py_float (map fst (document w)) w) as [rs w1].
    simpl in *. subst rs. rewrite (outcomes_of_document _ py_float w Hnd).
    reflexivity. }
  split; [|split].
  - intros recs. rewrite Hfst. apply list_results_ok.
  - intros recs H. rewrite Hfst in H. apply list_results_ok in H.
    apply (f_equal (@List.length _)) in H. rewrite !length_map in H.
    symmetry. exact H.
  - apply (store_and_delete_cards_world _ py_float w).
Qed.

Lemma served_permutation cards cards' kc :
  Permutation cards cards' -> served cards kc = served cards' kc.
Proof.
  unfold served. induction 1 as [|x l l' _ IH|x y l|l l' l'' _ IH1 _ IH2];
    simpl.
  - reflexivity.
  - rewrite IH. reflexivity.
  - destruct (Nat.eqb (fst kc) x), (Nat.eqb (fst kc) y); reflexivity.
  - congruence.
Qed.

(** X5.  The order in which the panels of a batch are served does not
    matter: for distinct handles, serving them in any other order gives
    the same outcomes up to that order and leaves the same document. *)
Theorem batch_order_irrelevant cards cards' w :
  NoDup cards ->
  Permutation cards cards' ->
  Permutation (fst (executor_map py_float cards w))
              (fst (executor_map py_float cards' w))
  /\ document (snd (executor_map py_float cards w))
     = document (snd (executor_map py_float cards' w)).
Proof.
  intros Hnd Hp.
  assert (Hnd' : NoDup cards') by (apply (Permutation_NoDup Hp Hnd)).
  split.
  - rewrite (executor_map_outcomes _ py_float _ Hnd w),
      (executor_map_outcomes _ py_float _ Hnd' w).
    apply Permutation_map, Hp.
  - destruct (executor_map_world _ py_float cards w) as [H _].
    destruct (executor_map_world _ py_float cards' w) as [H' _].
    rewrite H, H'. apply filter_ext. intros kc.
    rewrite (served_permutation _ _ kc Hp). reflexivity.
Qed.

End ExtractorMore.

(* ------------------------------------------------------------------ *)
(** ** More about the pagination driver *)

Section DriverMore.
Variable Float : Type.
Variable py_float : string -> option Float.
Variable recursion_limit : nat.
Variable max_scroll_time : Q.

Abbreviation loop := (scroll_loop py_float recursion_limit max_scroll_time).
Abbreviation driver :=
  (load_and_store_all_content py_float recursion_limit max_scroll_time).

(** How the loop can be left from a page without attached panels. *)
Lemma scroll_loop_exit fuel :
  forall start acc w r w',
    loop fuel start acc w = Some (r, w') ->
    document w = [] ->
    document w' = [] /\ warnings w' = warnings w /\ now w <= now w'
    /\ match r with
       | Ok (prof_data, more_content) =>
           (exists more, prof_data = (acc ++ more)%list)
           /\ (more_content = true -> max_scroll_time <= now w' - start)
       | Raise _ => True
       end.
Proof.
  induction fuel as [|fuel IH]; intros start acc w r w' H Hd; [discriminate|].
  simpl in H.
  destruct (Qlt_bool (now w - start) max_scroll_time) eqn:Eb.
  2:{ inversion H; subst. apply Qlt_bool_false in Eb.
      repeat split; try assumption; try lra.
      exists []. rewrite app_nil_r. reflexivity. }
  destruct (click_showmore recursion_limit w) as [[[]|e] w1] eqn:E.
  - destruct (click_showmore_frame _ _ _ _ E)
      as (Hw & Hn & _ & _ & batch & Hp & Hdoc).
    pose proof (store_and_delete_cards_world _ py_float w1)
      as (Hd2 & Hn2 & _ & _ & _ & Hw2).
    destruct (store_and_delete_cards py_float w1) as [[more|e] w2];
      simpl in *.
    + apply IH in H; [|exact Hd2].
      destruct H as (Hd' & Hw' & Hn' & Hr).
      rewrite Hn2 in Hn'.
      split; [exact Hd'|]. split; [congruence|]. split; [lra|].
      destruct r as [[pd mc]|e]; [|exact I].
      destruct Hr as [[more' ->] Hmc]. split; [|exact Hmc].
      exists (more ++ more')%list. rewrite app_assoc. reflexivity.
    + assert (Hout : document w2 = [] /\ warnings w2 = warnings w
                     /\ now w <= now w2)
        by (split; [exact Hd2|split; [congruence|rewrite Hn2; exact Hn]]).
      destruct e; inversion H; subst;
        destruct Hout as (? & ? & ?); repeat split; try assumption;
        try discriminate.
      exists []. rewrite app_nil_r. reflexivity.
  - destruct (click_showmore_frame _ _ _ _ E) as (Hw & Hn & _ & _ & _ & Hdoc).
    assert (Hout : document w1 = [] /\ warnings w1 = warnings w
                   /\ now w <= now w1)
      by (split; [congruence|split; assumption]).
    destruct e; inversion H; subst;
      destruct Hout as (? & ? & ?); repeat split; try assumption;
      try discriminate.
    exists []. rewrite app_nil_r. reflexivity.
Qed.

(** What the driver leaves, however it ends. *)
Lemma driver_exit fuel w r w' :
  driver fuel w = Some (r, w') ->
  document w' = []
  /\ match r with
     | Raise _ => warnings w' = warnings w
     | Ok prof_data =>
         (forall recs w0,
             store_and_delete_cards py_float w = (Ok recs, w0) ->
             exists more, prof_data = (recs ++ more)%list)
         /\ (warnings w' = warnings w
             \/ (warnings w' = (warnings w ++ [SCROLL_TIME_WARN])%list
                 /\ max_scroll_time <= now w' - now w))
     end.
Proof.
  unfold load_and_store_all_content.
  pose proof (store_and_delete_cards_world _ py_float w)
    as (Hd & Hn & _ & _ & _ & Hw).
  destruct (store_and_delete_cards py_float w) as [[recs|e] w0];
    simpl in *.
  2:{ intros H; inversion H; subst. split; assumption. }
  destruct (loop fuel (now w0) recs w0) as [[[[pd mc]|e] w1]|] eqn:El;
    [| |discriminate].
  - destruct (scroll_loop_exit fuel _ _ _ _ _ El Hd)
      as (Hd1 & Hw1 & Hn1 & Hgrow & Hmc).
    destruct mc; intros H; inversion H; subst; simpl.
    + split; [exact Hd1|]. split.
      * intros recs' w0' Heq. inversion Heq; subst. exact Hgrow.
      * right. split; [congruence|]. rewrite <- Hn. apply Hmc. reflexivity.
    + split; [exact Hd1|]. split.
      * intros recs' w0' Heq. inversion Heq; subst. exact Hgrow.
      * left. congruence.
  - destruct (scroll_loop_exit fuel _ _ _ _ _ El Hd) as (Hd1 & Hw1 & _).
    intros H; inversion H; subst. split; [exact Hd1|congruence].
Qed.

(** X8.  However the driver ends, with records or with an exception, no
    panel is left attached to the document. *)
Theorem driver_detaches_every_panel fuel w r w' :
  load_and_store_all_content py_float recursion_limit max_scroll_time fuel w
  = Some (r, w') ->
  document w' = [].
Proof.
  intros Hd. apply (driver_exit fuel w r w' Hd).
Qed.

(** X9.  The driver adds no warning when it raises, and at most the
    truncation warning when it returns; it adds that one only when the
    clock it leaves shows the budget used up since the driver was
    entered. *)
Theorem truncation_warning_only_past_budget fuel w r w' :
  load_and_store_all_content py_float recursion_limit max_scroll_time fuel w
  = Some (r, w') ->
  match r with
  | Raise _ => warnings w' = warnings w
  | Ok _ =>
      warnings w' = warnings w
      \/ (warnings w' = (warnings w ++ [SCROLL_TIME_WARN])%list
          /\ max_scroll_time <= now w' - now w)
  end.
Proof.
  intros Hd. destruct (driver_exit fuel w r w' Hd) as (_ & H).
  destruct r as [pd|e]; [exact (proj2 H)|exact H].
Qed.

End DriverMore.

(* ------------------------------------------------------------------ *)
(** ** The driver on a whole listing *)

Lemma click_showmore_gone frames w :
  (0 < frames)%nat ->
  pending w = [] ->
  click_showmore frames w
  = (Raise TimeoutException, set_now (now (paused w) + wait_out MAX_WAIT) (paused w)).
Proof.
  intros Hf Hp. destruct frames as [|frames]; [lia|].
  rewrite click_showmore_unfold. unfold click_showmore_step.
  change (pending (paused w)) with (pending w). rewrite Hp. reflexivity.
Qed.

Lemma click_showmore_clear frames w batch rest :
  (0 < frames)%nat ->
  pending w = batch :: rest ->
  blocker w = None ->
  click_showmore frames w
  = (Ok tt,
     {| now := now w + pause_of w; draws := tl (draws w);
        document := (document w ++ batch)%list; pending := rest;
        overlays := overlays w;
        journal := (journal w ++ [(now w + pause_of w, Activated)])%list;
        warnings := warnings w |}).
Proof.
  intros Hf Hp Hb. destruct frames as [|frames]; [lia|].
  rewrite click_showmore_unfold. unfold click_showmore_step.
  change (pending (paused w)) with (pending w). rewrite Hp.
  change (blocker (paused w)) with (blocker w). rewrite Hb.
  unfold click. change (blocker (paused w)) with (blocker w). rewrite Hb.
  unfold log. simpl. rewrite Hp. reflexivity.
Qed.

(** A call of [click_showmore] that returns has slept through a click
    pause at least. *)
Lemma click_showmore_takes_pause frames w w' :
  click_showmore frames w = (Ok tt, w') ->
  now w + MIN_CLICK_PAUSE <= now w'.
Proof.
  destruct frames as [|frames]; [discriminate|].
  rewrite click_showmore_unfold. unfold click_showmore_step.
  pose proof (paused_now w) as Hp.
  destruct (pending (paused w)) as [|b bs]; [discriminate|].
  destruct (blocker (paused w)) as [o|] eqn:Eb.
  - destruct (nth_error (Regex.findall (ov_detail o)) 1) as [cls|];
      [|discriminate].
    destruct (find_index _ _) as [i|]; [|discriminate].
    destruct (script_display_none i _) as [[[]|e] w3] eqn:Es; [|discriminate].
    intros H. apply click_showmore_frame in H as (_ & Hn & _).
    unfold script_display_none in Es.
    destruct (nth_error _ i); [|discriminate].
    inversion Es; subst. simpl in Hn. simpl in Hp. lra.
  - unfold click. rewrite Eb. intros H. inversion H; subst. exact Hp.
Qed.

Section Listing.
Variable Float : Type.
Variable py_float : string -> option Float.
Variable recursion_limit : nat.
Variable max_scroll_time : Q.

Abbreviation loop := (scroll_loop py_float recursion_limit max_scroll_time).
Abbreviation driver :=
  (load_and_store_all_content py_float recursion_limit max_scroll_time).
Abbreviation outcome := (fun kc : nat * Card => card_outcome py_float (snd kc)).
Abbreviation readable :=
  (fun kc : nat * Card => exists d, card_outcome py_float (snd kc) = Ok d).

Lemma store_and_delete_cards_outcome w :
  NoDup (map fst (document w)) ->
  fst (store_and_delete_cards py_float w)
  = list_results (map outcome (document w)).
Proof.
  intros Hnd. unfold store_and_delete_cards, find_cards, bind.
  pose proof (executor_map_outcomes _ py_float _ Hnd w) as Ho.
  destruct (executor_map py_float (map fst (document w)) w) as [rs w1].
  simpl in *. subst rs. rewrite (outcomes_of_document _ py_float w Hnd).
  reflexivity.
Qed.

Lemma readable_results (doc : list (nat * Card)) :
  Forall readable doc -> exists recs, map outcome doc = map Ok recs.
Proof.
  induction 1 as [|kc doc [d Hd] _ [recs IH]].
  - exists []. reflexivity.
  - exists (d :: recs). simpl. rewrite Hd, IH. reflexivity.
Qed.

(** A batch of readable panels with distinct handles. *)
Lemma store_and_delete_cards_readable w :
  NoDup (map fst (document w)) ->
  Forall readable (document w) ->
  exists recs,
    store_and_delete_cards py_float w
    = (Ok recs, snd (store_and_delete_cards py_float w))
    /\ map Ok recs = map outcome (document w).
Proof.
  intros Hnd Hr. destruct (readable_results _ Hr) as [recs Hrecs].
  exists recs. split; [|symmetry; exact Hrecs].
  pose proof (store_and_delete_cards_outcome w Hnd) as Hf.
  rewrite Hrecs in Hf.
  assert (Hl : list_results (map Ok recs) = Ok recs)
    by (apply list_results_ok; reflexivity).
  rewrite Hl in Hf.
  destruct (store_and_delete_cards py_float w) as [r w']. simpl in *.
  rewrite Hf. reflexivity.
Qed.

Lemma Qnat_positive n : 0 < Qnat n -> (0 < n)%nat.
Proof.
  destruct n; [|lia]. unfold Qnat, inject_Z. simpl. intros H.
  apply Qlt_irrefl in H. contradiction.
Qed.

(** The loop ends within two checks of its head for every second of
    budget that is left, and one more. *)
Lemma scroll_loop_budgeted fuel :
  forall start acc w,
    (0 < fuel)%nat ->
    2 * (max_scroll_time - (now w - start)) + 1 <= Qnat fuel ->
    exists r, loop fuel start acc w = Some r.
Proof.
  induction fuel as [|fuel IH]; intros start acc w Hpos Hf; [lia|].
  simpl. destruct (Qlt_bool (now w - start) max_scroll_time) eqn:Eb; [|eauto].
  apply Qlt_bool_true in Eb.
  destruct (click_showmore recursion_limit w) as [[[]|e] w1] eqn:E.
  - pose proof (click_showmore_takes_pause _ _ _ E) as Hn.
    pose proof (store_and_delete_cards_world _ py_float w1) as (_ & Hn2 & _).
    destruct (store_and_delete_cards py_float w1) as [[more|e] w2];
      simpl in Hn2.
    + rewrite Qnat_succ in Hf. unfold MIN_CLICK_PAUSE in Hn.
      apply IH.
      * apply Qnat_positive. lra.
      * rewrite Hn2. lra.
    + destruct e; eauto.
  - destruct e; eauto.
Qed.

Lemma driver_budgeted fuel w :
  (0 < fuel)%nat ->
  2 * max_scroll_time + 1 <= Qnat fuel ->
  exists r, driver fuel w = Some r.
Proof.
  intros Hpos Hf. unfold load_and_store_all_content.
  destruct (store_and_delete_cards py_float w) as [[recs|e] w0]; [|eauto].
  destruct (scroll_loop_budgeted fuel (now w0) recs w0 Hpos)
    as [[[[pd [|]]|e] w1] Hr]; [lra| | |]; rewrite Hr; eauto.
Qed.

(** X6.  The driver ends, whatever the page.  Every iteration that goes
    round sleeps through a click pause of half a second at least, so the
    check at the head of the loop fails after at most twice as many
    iterations as the budget has seconds: with one check more than that,
    and one at least, the driver has returned or raised.  For the 1200
    seconds of the script, 2401 checks. *)
Theorem load_and_store_all_content_terminates w fuel :
  (0 < fuel)%nat ->
  2 * max_scroll_time + 1 <= Qnat fuel ->
  exists r,
    load_and_store_all_content py_float recursion_limit max_scroll_time fuel w
    = Some r.
Proof. apply driver_budgeted. Qed.

(** What extraction can raise. *)
Lemma card_outcome_raises c e :
  card_outcome py_float c = Raise e ->
  e = NoSuchElementException \/ e = IndexError \/ e = ValueError.
Proof.
  unfold card_outcome, extract_prof_data, try_finally, free_card_memory,
    script_remove_child, find_element_text, find_elements, float,
    take_again_pct_of, subscript, bind, ret, raise.
  destruct c as [ns rs ds fs]; simpl.
  destruct ns as [|n ns]; simpl; [intros H; inversion H; auto|].
  destruct rs as [|r rs]; simpl; [intros H; inversion H; auto|].
  destruct (py_float r) as [rt|]; simpl; [|intros H; inversion H; auto].
  destruct ds as [|dp ds]; simpl; [intros H; inversion H; auto|].
  destruct fs as [|f0 [|f1 fs]]; simpl;
    try (intros H; inversion H; auto; fail).
  destruct (py_float f1) as [df|]; simpl; [|intros H; inversion H; auto].
  destruct (String.eqb f0 "N/A"); simpl; [discriminate|].
  destruct (PyInt.int (Text.drop_last f0)); simpl;
    [discriminate|intros H; inversion H; auto].
Qed.

Lemma list_results_raises (results : list (result (ProfData Float))) e :
  list_results results = Raise e -> In (Raise e) results.
Proof.
  induction results as [|r rs IH]; simpl; [discriminate|].
  destruct r as [d|e0].
  - destruct (list_results rs); [discriminate|].
    intros H; inversion H; subst. right. apply IH. reflexivity.
  - intros H; inversion H; subst. left. reflexivity.
Qed.

(** A batch never raises [TimeoutException]. *)
Lemma store_and_delete_cards_no_timeout w w' :
  NoDup (map fst (document w)) ->
  store_and_delete_cards py_float w <> (Raise TimeoutException, w').
Proof.
  intros Hnd H.
  pose proof (store_and_delete_cards_outcome w Hnd) as Hf.
  rewrite H in Hf. simpl in Hf. symmetry in Hf.
  apply list_results_raises in Hf. apply in_map_iff in Hf as ([k c] & Hc & _).
  simpl in Hc. apply card_outcome_raises in Hc.
  destruct Hc as [Hc|[Hc|Hc]]; discriminate.
Qed.

(** The records of the loop are those of the panels it has served. *)
Lemma scroll_loop_serves fuel :
  forall start acc w pd mc w',
    loop fuel start acc w = Some (Ok (pd, mc), w') ->
    document w = [] ->
    NoDup (map fst (List.concat (pending w))) ->
    exists served,
      List.concat (pending w) = (served ++ List.concat (pending w'))%list
      /\ map Ok pd = (map Ok acc ++ map outcome served)%list.
Proof.
  induction fuel as [|fuel IH]; intros start acc w pd mc w' H Hd Hnd;
    [discriminate|].
  simpl in H.
  destruct (Qlt_bool (now w - start) max_scroll_time).
  2:{ inversion H; subst. exists []. rewrite app_nil_r. split; reflexivity. }
  destruct (click_showmore recursion_limit w) as [[[]|e] w1] eqn:E.
  - destruct (click_showmore_frame _ _ _ _ E)
      as (_ & _ & _ & _ & batch & Hp & Hdoc).
    rewrite Hd in Hdoc. simpl in Hdoc.
    rewrite Hp in Hnd. simpl in Hnd. rewrite map_app in Hnd.
    assert (Hnd1 : NoDup (map fst (document w1)))
      by (rewrite Hdoc; apply (NoDup_app_remove_r _ _ Hnd)).
    pose proof (store_and_delete_cards_outcome w1 Hnd1) as Hf.
    pose proof (store_and_delete_cards_world _ py_float w1)
      as (Hd2 & _ & _ & Hp2 & _).
    destruct (store_and_delete_cards py_float w1) as [[more|e] w2] eqn:Es;
      simpl in Hf, Hd2, Hp2.
    + symmetry in Hf. apply list_results_ok in Hf. rewrite Hdoc in Hf.
      apply IH in H; [|exact Hd2|].
      2:{ rewrite Hp2. apply (NoDup_app_remove_l _ _ Hnd). }
      destruct H as (served & Hs & Hpd). rewrite Hp2 in Hs.
      exists (batch ++ served)%list. split.
      * rewrite Hp. simpl. rewrite Hs, app_assoc. reflexivity.
      * rewrite Hpd, !map_app, Hf, app_assoc. reflexivity.
    + exfalso. destruct e; try discriminate.
      apply (store_and_delete_cards_no_timeout w1 w2 Hnd1 Es).
  - destruct (click_showmore_frame _ _ _ _ E) as (_ & _ & _ & _ & Hp & _).
    destruct e; try discriminate. inversion H; subst.
    exists []. rewrite Hp, app_nil_r. split; reflexivity.
Qed.

(** The records of the driver are those of the panels that have left the
    page. *)
Lemma driver_serves fuel w prof_data w' :
  NoDup (map fst (all_panels w)) ->
  load_and_store_all_content py_float recursion_limit max_scroll_time fuel w
  = Some (Ok prof_data, w') ->
  exists served,
    all_panels w = (served ++ all_panels w')%list
    /\ map Ok prof_data = map (fun kc => card_outcome py_float (snd kc)) served
    /\ List.length prof_data = List.length served.
Proof.
  unfold all_panels. intros Hnd. rewrite map_app in Hnd.
  unfold load_and_store_all_content.
  pose proof (store_and_delete_cards_outcome w (NoDup_app_remove_r _ _ Hnd))
    as Hf.
  pose proof (store_and_delete_cards_world _ py_float w)
    as (Hd0 & _ & _ & Hp0 & _).
  destruct (store_and_delete_cards py_float w) as [[recs|e] w0];
    simpl in Hf, Hd0, Hp0; [|discriminate].
  symmetry in Hf. apply list_results_ok in Hf.
  destruct (loop fuel (now w0) recs w0) as [[[[pd mc]|e] w1]|] eqn:El;
    try discriminate.
  destruct (scroll_loop_serves fuel _ _ _ _ _ _ El Hd0) as (served & Hs & Hpd).
  { rewrite Hp0. apply (NoDup_app_remove_l _ _ Hnd). }
  destruct (scroll_loop_exit _ py_float _ _ fuel _ _ _ _ _ El Hd0) as (Hd1 & _).
  rewrite Hp0 in Hs.
  assert (G : exists served',
             (document w ++ List.concat (pending w))%list
             = (served' ++ document w1 ++ List.concat (pending w1))%list
             /\ map Ok pd = map outcome served'
             /\ List.length pd = List.length served').
  { exists (document w ++ served)%list. rewrite Hd1. simpl.
    split; [rewrite Hs, app_assoc; reflexivity|].
    assert (Hm : map Ok pd = map outcome (document w ++ served)%list)
      by (rewrite Hpd, map_app, Hf; reflexivity).
    split; [exact Hm|].
    apply (f_equal (@List.length _)) in Hm. rewrite !length_map in Hm.
    exact Hm. }
  destruct mc; intros H; inversion H; subst; exact G.
Qed.

(** X7.  The driver never drops a record.  On a listing with distinct
    handles, when the driver returns, the panels of the listing are those
    it has served followed by those still behind the control, and the
    records returned are the records of the served panels, one for each,
    in the order of the listing. *)
Theorem driver_never_drops_records fuel w prof_data w' :
  NoDup (map fst (all_panels w)) ->
  load_and_store_all_content py_float recursion_limit max_scroll_time fuel w
  = Some (Ok prof_data, w') ->
  exists served,
    all_panels w = (served ++ all_panels w')%list
    /\ map Ok prof_data = map (fun kc => card_outcome py_float (snd kc)) served
    /\ List.length prof_data = List.length served.
Proof. exact (driver_serves fuel w prof_data w'). Qed.

(** The loop on a listing with nothing over the control. *)
Lemma scroll_loop_unobstructed fuel :
  forall start acc w r w',
    loop fuel start acc w = Some (r, w') ->
    document w = [] ->
    displayed_count (overlays w) = 0%nat ->
    NoDup (map fst (List.concat (pending w))) ->
    Forall readable (List.concat (pending w)) ->
    (0 < recursion_limit)%nat ->
    exists pd mc, r = Ok (pd, mc) /\ (mc = false -> pending w' = []).
Proof.
  induction fuel as [|fuel IH]; intros start acc w r w' H Hd Hc Hnd Hr Hl;
    [discriminate|].
  simpl in H.
  destruct (Qlt_bool (now w - start) max_scroll_time).
  2:{ inversion H; subst. exists acc, true. split; [reflexivity|discriminate]. }
  pose proof (count_zero_find _ Hc) as Hb. fold (blocker w) in Hb.
  destruct (pending w) as [|batch more] eqn:Ep.
  - rewrite (click_showmore_gone recursion_limit w Hl Ep) in H.
    inversion H; subst. exists acc, false. split; [reflexivity|].
    intros _. exact Ep.
  - rewrite (click_showmore_clear recursion_limit w batch more Hl Ep Hb) in H.
    match type of H with
    | context [store_and_delete_cards py_float ?x] => set (w1 := x) in *
    end.
    simpl in Hnd, Hr. rewrite map_app in Hnd. apply Forall_app in Hr as [Hr0 Hr1].
    assert (Hd1 : document w1 = batch) by (simpl; rewrite Hd; reflexivity).
    destruct (store_and_delete_cards_readable w1) as (recs1 & Hs & _).
    { rewrite Hd1. apply (NoDup_app_remove_r _ _ Hnd). }
    { rewrite Hd1. exact Hr0. }
    pose proof (store_and_delete_cards_world _ py_float w1)
      as (Hd2 & _ & _ & Hp2 & Ho2 & _).
    rewrite Hs in H. 
    apply IH in H; try assumption.
    + rewrite Ho2. exact Hc.
    + rewrite Hp2. apply (NoDup_app_remove_l _ _ Hnd).
    + rewrite Hp2. exact Hr1.
Qed.

(** X10.  A listing with nothing over the control, with distinct handles
    and with readable panels only: the driver returns, with the records
    of the panels it has served, in the order of the listing; and when
    it returns without the truncation warning it has served them all,
    so that the records are those of the whole listing and no batch is
    left behind the control. *)
Theorem unobstructed_listing_is_complete w fuel :
  NoDup (map fst (all_panels w)) ->
  Forall readable (all_panels w) ->
  displayed_count (overlays w) = 0%nat ->
  (0 < recursion_limit)%nat ->
  (0 < fuel)%nat ->
  2 * max_scroll_time + 1 <= Qnat fuel ->
  exists recs w' served,
    load_and_store_all_content py_float recursion_limit max_scroll_time fuel w
    = Some (Ok recs, w')
    /\ all_panels w = (served ++ all_panels w')%list
    /\ map Ok recs = map (fun kc => card_outcome py_float (snd kc)) served
    /\ (warnings w' = warnings w ->
        pending w' = []
        /\ map Ok recs
           = map (fun kc => card_outcome py_float (snd kc)) (all_panels w)
        /\ List.length recs = List.length (all_panels w)).
Proof.
  intros Hnd Hr Hc Hl Hpos Hf.
  destruct (driver_budgeted fuel w Hpos Hf) as [[r w'] Hrun].
  assert (Hok : exists recs, r = Ok recs
                 /\ (warnings w' = warnings w -> pending w' = [])).
  { revert Hrun. unfold all_panels in *. rewrite map_app in Hnd.
    apply Forall_app in Hr as [Hr0 Hr1].
    unfold load_and_store_all_content.
    destruct (store_and_delete_cards_readable w
                (NoDup_app_remove_r _ _ Hnd) Hr0) as (recs0 & Hs & _).
    pose proof (store_and_delete_cards_world _ py_float w)
      as (Hd0 & _ & _ & Hp0 & Ho0 & Hw0).
    rewrite Hs.
    set (w0 := snd (store_and_delete_cards py_float w)) in *.
    destruct (loop fuel (now w0) recs0 w0) as [[r1 w1]|] eqn:El;
      [|discriminate].
    destruct (scroll_loop_unobstructed fuel _ _ _ _ _ El Hd0)
      as (pd & mc & -> & Hmc); try assumption.
    { rewrite Ho0. exact Hc. }
    { rewrite Hp0. apply (NoDup_app_remove_l _ _ Hnd). }
    { rewrite Hp0. exact Hr1. }
    destruct (scroll_loop_exit _ py_float _ _ fuel _ _ _ _ _ El Hd0)
      as (_ & Hw1 & _).
    destruct mc; intros H; inversion H; subst; exists pd;
      (split; [reflexivity|]).
    - simpl. rewrite Hw1, Hw0. intros E. exfalso.
      rewrite <- (app_nil_r (warnings w)) in E at 2.
      apply app_inv_head in E. discriminate.
    - intros _. apply Hmc. reflexivity. }
  destruct Hok as (recs & -> & Hdone).
  destruct (driver_serves fuel w recs w' Hnd Hrun)
    as (served & Hs & Hm & Hlen).
  exists recs, w', served. split; [exact Hrun|]. split; [exact Hs|].
  split; [exact Hm|]. intros Hw. specialize (Hdone Hw).
  destruct (driver_exit _ py_float _ _ fuel w _ w' Hrun) as (Hd' & _).
  assert (E : all_panels w = served).
  { rewrite Hs. unfold all_panels. rewrite Hd', Hdone. simpl.
    apply app_nil_r. }
  split; [exact Hdone|]. rewrite E. split; [exact Hm|exact Hlen].
Qed.

End Listing.

(* ------------------------------------------------------------------ *)
(** ** Sessions and the entry point *)

Lemma startup_frame w :
  document (startup w) = document w /\ pending (startup w) = pending w
  /\ overlays (startup w) = overlays w /\ warnings (startup w) = warnings w
  /\ journal (startup w) = journal w.
Proof.
  unfold startup, bind, random_uniform, time_sleep.
  destruct (draws w); simpl; repeat split; reflexivity.
Qed.

Section Sessions.
Variable Float : Type.
Variable py_float : string -> option Float.
Variable recursion_limit : nat.
Variable max_scroll_time : Q.

Abbreviation driver :=
  (load_and_store_all_content py_float recursion_limit max_scroll_time).
Abbreviation session :=
  (session_data py_float recursion_limit max_scroll_time).
Abbreviation save :=
  (save_school_data py_float recursion_limit max_scroll_time).
Abbreviation entry := (main py_float recursion_limit max_scroll_time).

Lemma session_data_unfold fuel source w :
  session fuel source w
  = match driver fuel (startup w) with
    | None => None
    | Some (Raise e, w2) => Some (Raise e, w2)
    | Some (Ok [], w2) =>
        Some (Ok [], snd (warnings_warn (NO_DATA_WARN source) w2))
    | Some (Ok (d :: ds), w2) => Some (Ok (d :: ds), w2)
    end.
Proof.
  unfold session_data, startup.
  destruct ((pause <- random_uniform MIN_WAIT MAX_WAIT ;; time_sleep pause) w)
    as [[[]|x] w1] eqn:E.
  - simpl. destruct (driver fuel w1) as [[[[|d ds]|e] w2]|]; reflexivity.
  - unfold bind, random_uniform, time_sleep in E.
    destruct (draws w); discriminate.
Qed.

Lemma save_school_data_unfold fuel school w :
  save fuel school w
  = match dict_get SCHOOL_IDS school, dict_get CSV_DESTS school with
    | None, _ => Some (Raise (RuntimeError school KeyError), w)
    | Some _, None => Some (Raise (RuntimeError school KeyError), w)
    | Some id, Some dest =>
        match session fuel (SITE ++ PATH_SEG ++ str_of_int id) w with
        | None => None
        | Some (Raise e, w2) => Some (Raise (RuntimeError school e), w2)
        | Some (Ok rows, w2) => Some (Ok (dest, rows), w2)
        end
    end.
Proof.
  unfold save_school_data, getitem.
  destruct (dict_get SCHOOL_IDS school) as [id|]; [|reflexivity].
  destruct (dict_get CSV_DESTS school) as [dest|]; reflexivity.
Qed.

(** X11.  The warnings of a session that returns rows: what was there,
    then the truncation warning if the driver gave one, then the no-data
    warning with the URL exactly when there are no rows. *)
Theorem session_warnings_account fuel source w rows w' :
  session_data py_float recursion_limit max_scroll_time fuel source w
  = Some (Ok rows, w') ->
  exists truncated : bool,
    warnings w'
    = (warnings w ++ (if truncated then [SCROLL_TIME_WARN] else [])
         ++ match rows with
            | [] => [NO_DATA_WARN source]
            | _ :: _ => []
            end)%list.
Proof.
  rewrite session_data_unfold.
  destruct (driver fuel (startup w)) as [[[rows0|e] w2]|] eqn:Ed;
    [|discriminate|discriminate].
  destruct (driver_exit _ py_float _ _ fuel (startup w) _ w2 Ed)
    as (_ & _ & Hw).
  destruct (startup_frame w) as (_ & _ & _ & Hsw & _). rewrite Hsw in Hw.
  destruct rows0 as [|d ds]; intros H; inversion H; subst; simpl.
  - destruct Hw as [Hw|[Hw _]]; rewrite Hw.
    + exists false. reflexivity.
    + exists true. rewrite <- app_assoc. reflexivity.
  - destruct Hw as [Hw|[Hw _]]; rewrite Hw.
    + exists false. rewrite app_nil_r. reflexivity.
    + exists true. reflexivity.
Qed.

(** X12.  A page without panels and without a load-more control is no
    error: with some budget and at least one call allowed, the session
    returns no rows and adds the no-data warning only, and the session of
    a known school returns its destination with no rows. *)
Theorem empty_page_session fuel w :
  document w = [] ->
  pending w = [] ->
  0 < max_scroll_time ->
  (0 < recursion_limit)%nat ->
  (0 < fuel)%nat ->
  (forall source,
      exists w',
        session fuel source w = Some (Ok [], w')
        /\ warnings w' = (warnings w ++ [NO_DATA_WARN source])%list)
  /\ (forall school id dest,
         dict_get SCHOOL_IDS school = Some id ->
         dict_get CSV_DESTS school = Some dest ->
         exists w',
           save fuel school w = Some (Ok (dest, []), w')
           /\ warnings w'
              = (warnings w
                   ++ [NO_DATA_WARN (SITE ++ PATH_SEG ++ str_of_int id)])%list).
Proof.
  intros Hd Hp Hb Hl Hf.
  destruct (startup_frame w) as (Hsd & Hsp & _ & Hsw & _).
  assert (Hs : store_and_delete_cards py_float (startup w)
               = (Ok [], startup w)).
  { unfold store_and_delete_cards, find_cards, bind.
    rewrite Hsd, Hd. reflexivity. }
  assert (Hdrv : driver fuel (startup w)
                 = Some (Ok [],
                         set_now (now (paused (startup w)) + wait_out MAX_WAIT)
                           (paused (startup w)))).
  { destruct fuel as [|fuel]; [lia|].
    rewrite (load_and_store_unfold _ py_float _ _ (S fuel) _ _ _ Hs).
    rewrite (scroll_loop_timeout _ py_float _ _ fuel (now (startup w)) []
               (startup w)
               (set_now (now (paused (startup w)) + wait_out MAX_WAIT)
                  (paused (startup w)))).
    - reflexivity.
    - assert (E : now (startup w) - now (startup w) == 0) by lra.
      rewrite E. exact Hb.
    - apply click_showmore_gone; [exact Hl|]. rewrite Hsp. exact Hp. }
  assert (Hses : forall source,
             exists w',
               session fuel source w = Some (Ok [], w')
               /\ warnings w' = (warnings w ++ [NO_DATA_WARN source])%list).
  { intros source. rewrite session_data_unfold, Hdrv.
    eexists. split; [reflexivity|]. simpl. rewrite Hsw. reflexivity. }
  split; [exact Hses|].
  intros school id dest Hid Hdest.
  destruct (Hses (SITE ++ PATH_SEG ++ str_of_int id)) as (w' & Hrun & Hw).
  exists w'. rewrite save_school_data_unfold, Hid, Hdest, Hrun.
  split; [reflexivity|exact Hw].
Qed.

Lemma save_school_data_cases fuel school w :
  (forall e w',
      save fuel school w = Some (Raise e, w') ->
      exists cause, e = RuntimeError school cause)
  /\ (dict_get SCHOOL_IDS school = None ->
      save fuel school w = Some (Raise (RuntimeError school KeyError), w))
  /\ (forall dest rows w',
         save fuel school w = Some (Ok (dest, rows), w') ->
         dict_get CSV_DESTS school = Some dest).
Proof.
  rewrite save_school_data_unfold.
  destruct (dict_get SCHOOL_IDS school) as [id|].
  - destruct (dict_get CSV_DESTS school) as [dest|].
    + destruct (session fuel _ w) as [[[rows|e0] w2]|].
      * split; [intros e w' H; discriminate|].
        split; [discriminate|].
        intros dest' rows' w' H. inversion H. reflexivity.
      * split; [intros e w' H; inversion H; eauto|].
        split; [discriminate|]. intros dest' rows' w' H; discriminate.
      * split; [intros e w' H; discriminate|].
        split; [discriminate|]. intros dest' rows' w' H; discriminate.
    + split; [intros e w' H; inversion H; eauto|].
      split; [discriminate|]. intros dest' rows' w' H; discriminate.
  - split; [intros e w' H; inversion H; eauto|].
    split; [reflexivity|]. intros dest' rows' w' H; discriminate.
Qed.


(** X13.  [save_school_data] raises nothing but [RuntimeError] naming its
    school.  For a school that is not among the keys the cause is
    [KeyError] and the browser is not touched; and when rows are written
    they go to the destination listed for the school. *)
Theorem save_school_data_failures fuel school w :
  (forall e w',
      save fuel school w = Some (Raise e, w') ->
      exists cause, e = RuntimeError school cause)
  /\ (dict_get SCHOOL_IDS school = None ->
      save fuel school w = Some (Raise (RuntimeError school KeyError), w))
  /\ (forall dest rows w',
         save fuel school w = Some (Ok (dest, rows), w') ->
         dict_get CSV_DESTS school = Some dest).
Proof. exact (save_school_data_cases fuel school w). Qed.

Lemma driver_total fuel w :
  (List.length (pending w) < fuel)%nat -> exists r, driver fuel w = Some r.
Proof.
  intros Hf.
  pose proof (store_and_delete_cards_world _ py_float w) as (_ & _ & _ & Hp & _).
  unfold load_and_store_all_content.
  destruct (store_and_delete_cards py_float w) as [[recs|e] w0];
    simpl in Hp; [|eauto].
  destruct (scroll_loop_total _ py_float recursion_limit max_scroll_time
              fuel (now w0) recs w0) as [[[[pd [|]]|e] w1] Hr];
    [rewrite Hp; exact Hf| | |]; rewrite Hr; eauto.
Qed.

Lemma save_school_data_total fuel school w :
  (List.length (pending w) < fuel)%nat ->
  exists r, save fuel school w = Some r.
Proof.
  intros Hf. rewrite save_school_data_unfold.
  destruct (dict_get SCHOOL_IDS school) as [id|]; [|eauto].
  destruct (dict_get CSV_DESTS school) as [dest|]; [|eauto].
  rewrite session_data_unfold.
  destruct (driver_total fuel (startup w)) as [[[[|d ds]|e] w2] Hr].
  { destruct (startup_frame w) as (_ & Hp & _). rewrite Hp. exact Hf. }
  all: rewrite Hr; eauto.
Qed.

(** X14.  [main] checks the driver binary before anything else: a missing
    file aborts the run with [FileNotFoundError] and a file that cannot be
    executed with [PermissionError], whatever the machine and the pages.
    With the binary in place the outer pool is refused with [ValueError],
    before any session is opened, exactly on a machine reporting a
    single processing unit. *)
Theorem main_preconditions gecko cpu_count fuel browsers :
  (isfile gecko = false ->
   entry gecko cpu_count fuel browsers = Some (Aborted FileNotFoundError))
  /\ (isfile gecko = true -> access_x_ok gecko = false ->
      entry gecko cpu_count fuel browsers = Some (Aborted PermissionError))
  /\ (isfile gecko = true -> access_x_ok gecko = true ->
      cpu_count = Some 1%nat ->
      entry gecko cpu_count fuel browsers = Some (Crashed ValueError))
  /\ (MAX_OUTER_THREADS cpu_count = 0%nat <-> cpu_count = Some 1%nat).
Proof.
  unfold main, handle_gecko_errors.
  split; [intros ->; reflexivity|].
  split; [intros -> ->; reflexivity|].
  split; [intros -> -> ->; reflexivity|].
  destruct cpu_count as [[|[|n]]|]; simpl; split; intros H;
    try reflexivity; try discriminate.
  exfalso. change (S (S n) / 2 = 0)%nat in H.
  pose proof (Nat.div_mod_eq (S (S n)) 2) as Hd.
  pose proof (Nat.mod_upper_bound (S (S n)) 2 ltac:(lia)) as Hm. lia.
Qed.

Lemma outer_map_all_ok fuel browsers schools :
  (forall school, In school schools ->
     exists file w', save fuel school (browsers school) = Some (Ok file, w')) ->
  exists files,
    outer_map py_float recursion_limit max_scroll_time fuel browsers schools
    = Some (Ok files)
    /\ map (fun f => Some (fst f)) files
       = map (dict_get CSV_DESTS) schools.
Proof.
  induction schools as [|school schools IH]; intros H; simpl.
  - exists []. split; reflexivity.
  - destruct (H school (or_introl eq_refl)) as ([dest rows] & w' & Hs).
    destruct IH as (files & Hfiles & Hdests).
    { intros s Hin. apply H. right; exact Hin. }
    rewrite Hs, Hfiles. exists ((dest, rows) :: files).
    split; [reflexivity|]. simpl. rewrite Hdests. f_equal.
    destruct (save_school_data_cases fuel school (browsers school))
      as (_ & _ & Hd).
    symmetry. apply (Hd dest rows w' Hs).
Qed.

Lemma outer_map_first_failure fuel browsers pre school post e w' :
  (forall s, In s (pre ++ school :: post)%list ->
     exists r, save fuel s (browsers s) = Some r) ->
  (forall s, In s pre ->
     exists file w1, save fuel s (browsers s) = Some (Ok file, w1)) ->
  save fuel school (browsers school) = Some (Raise e, w') ->
  outer_map py_float recursion_limit max_scroll_time fuel browsers
    (pre ++ school :: post)%list
  = Some (Raise e).
Proof.
  intros Hall Hpre Hs.
  assert (Hrest : forall l,
             (forall s, In s l -> exists r, save fuel s (browsers s) = Some r) ->
             exists r,
               outer_map py_float recursion_limit max_scroll_time fuel
                 browsers l = Some r).
  { induction l as [|s l IHl]; intros Hl; simpl; [eauto|].
    destruct (Hl s (or_introl eq_refl)) as [[[file|e0] w0] Hr];
      destruct IHl as [[files|e1] Hr1];
      try (intros s' Hin; apply Hl; right; exact Hin);
      rewrite Hr, Hr1; eauto. }
  induction pre as [|p pre IH]; simpl.
  - destruct (Hrest post) as [r Hr].
    { intros s Hin. apply Hall. apply in_or_app. right; right; exact Hin. }
    rewrite Hs, Hr. reflexivity.
  - destruct (Hpre p (or_introl eq_refl)) as (file & w1 & Hp).
    rewrite Hp, IH; [reflexivity| |].
    + intros s Hin. apply Hall. right; exact Hin.
    + intros s Hin. apply Hpre. right; exact Hin.
Qed.

(** X15.  With the binary in place and at least two processing units,
    and enough iterations for every page: when the session of every
    school succeeds, [main] completes with one file per school, at the
    destinations listed, in the order of the keys; when the sessions of
    the schools before some school succeed and that school's session
    raises, [main] ends with that exception, a [RuntimeError] naming that
    school, whatever the later sessions do. *)
Theorem main_outcome gecko cpu_count fuel browsers :
  handle_gecko_errors gecko = None ->
  MAX_OUTER_THREADS cpu_count <> 0%nat ->
  (forall school, (List.length (pending (browsers school)) < fuel)%nat) ->
  ((forall school, In school (map fst SCHOOL_IDS) ->
      exists file w',
        save fuel school (browsers school) = Some (Ok file, w')) ->
   exists files,
     entry gecko cpu_count fuel browsers = Some (Completed files)
     /\ map fst files = map snd CSV_DESTS)
  /\ (forall pre school post e w',
         map fst SCHOOL_IDS = (pre ++ school :: post)%list ->
         (forall s, In s pre ->
            exists file w1,
              save fuel s (browsers s) = Some (Ok file, w1)) ->
         save fuel school (browsers school) = Some (Raise e, w') ->
         entry gecko cpu_count fuel browsers = Some (Crashed e)
         /\ exists cause, e = RuntimeError school cause).
Proof.
  intros Hg Hp Hf. unfold main. rewrite Hg.
  apply Nat.eqb_neq in Hp. rewrite Hp. split.
  - intros Hall.
    destruct (outer_map_all_ok fuel browsers _ Hall) as (files & Hrun & Hd).
    exists files. rewrite Hrun. split; [reflexivity|].
    assert (E : map Some (map fst files) = map Some (map snd CSV_DESTS)).
    { rewrite map_map, Hd. reflexivity. }
    clear - E. revert E. generalize (map snd CSV_DESTS).
    induction (map fst files) as [|x xs IH]; intros [|y ys] E;
      try discriminate; [reflexivity|].
    simpl in E. injection E as -> E. f_equal. apply IH, E.
  - intros pre school post e w' Hk Hpre Hs. rewrite Hk.
    rewrite (outer_map_first_failure fuel browsers pre school post e w').
    + split; [reflexivity|].
      destruct (save_school_data_cases fuel school (browsers school))
        as (Hr & _).
      apply (Hr e w' Hs).
    + intros s _. apply save_school_data_total, Hf.
    + exact Hpre.
    + exact Hs.
Qed.

End Sessions.

(* ------------------------------------------------------------------ *)
(** ** More about the obstruction resolver *)

Lemma update_nth_undisplay i ovs :
  map undisplay (update_nth i undisplay ovs) = map undisplay ovs.
Proof.
  revert i. induction ovs as [|o ovs IH]; intros [|i]; simpl; try reflexivity.
  rewrite IH. reflexivity.
Qed.

Lemma update_nth_count i ovs :
  (displayed_count (update_nth i undisplay ovs) <= displayed_count ovs)%nat.
Proof.
  unfold displayed_count. revert i.
  induction ovs as [|o ovs IH]; intros [|i]; simpl; try lia.
  - destruct (ov_displayed o); simpl; lia.
  - specialize (IH i). destruct (ov_displayed o); simpl; lia.
Qed.

Lemma update_nth_hidden i ovs t :
  nth_error ovs i = Some t ->
  ov_displayed t = false ->
  update_nth i undisplay ovs = ovs.
Proof.
  revert i. induction ovs as [|o ovs IH]; intros [|i]; simpl; try discriminate.
  - intros H Ht. inversion H; subst. destruct t as [c d b]; simpl in *.
    subst b. reflexivity.
  - intros H Ht. rewrite (IH i H Ht). reflexivity.
Qed.

(** X16.  What a call of [click_showmore] can do to the page, however it
    ends: it adds no warning, never sets the clock back, only adds to the
    journal, and removes no overlay, changing at most their display from
    shown to hidden.  It reveals one batch of panels exactly when it
    returns normally; when it raises, the panels and the batches to come
    are as before. *)
Theorem click_showmore_keeps_the_page frames :
  forall w,
    let r := fst (click_showmore frames w) in
    let w' := snd (click_showmore frames w) in
    warnings w' = warnings w
    /\ now w <= now w'
    /\ (exists events, journal w' = (journal w ++ events)%list)
    /\ map undisplay (overlays w') = map undisplay (overlays w)
    /\ (displayed_count (overlays w') <= displayed_count (overlays w))%nat
    /\ match r with
       | Ok _ => exists batch,
           pending w = batch :: pending w'
           /\ document w' = (document w ++ batch)%list
       | Raise _ => pending w' = pending w /\ document w' = document w
       end.
Proof.
  assert (Hnil : forall j : list (Q * event), exists events, j = (j ++ events)%list)
    by (intros j; exists []; rewrite app_nil_r; reflexivity).
  assert (Hone : forall (j : list (Q * event)) e,
             exists events, (j ++ [e])%list = (j ++ events)%list)
    by (intros j e; eexists; reflexivity).
  induction frames as [|frames IH]; intros w.
  - simpl. repeat split; try reflexivity; try lra; try lia. apply Hnil.
  - rewrite click_showmore_unfold. unfold click_showmore_step.
    pose proof (pause_of_range w) as [Hlo _].
    assert (Hm : now w <= now w + pause_of w)
      by (unfold MIN_CLICK_PAUSE in Hlo; lra).
    assert (Hm4 : now w <= now w + pause_of w + wait_out MAX_WAIT)
      by (pose proof wait_out_positive; unfold MIN_CLICK_PAUSE in *; lra).
    change (pending (paused w)) with (pending w).
    destruct (pending w) as [|b bs] eqn:Ep.
    { simpl. repeat split; try reflexivity; try lia; try exact Hm4;
        try assumption.
      apply Hnil. }
    change (blocker (paused w)) with (blocker w).
    destruct (blocker w) as [o|] eqn:Eb.
    2:{ unfold click. change (blocker (paused w)) with (blocker w).
        rewrite Eb. simpl. rewrite Ep. simpl.
        split; [reflexivity|]. split; [exact Hm|]. split; [apply Hone|].
        split; [reflexivity|]. split; [lia|].
        exists b. split; reflexivity. }
    destruct (nth_error (Regex.findall (ov_detail o)) 1) as [cls|].
    2:{ simpl. split; [reflexivity|]. split; [exact Hm|].
        split; [apply Hone|].
        repeat split; try reflexivity; try assumption; lia. }
    change (overlays (log (Intercepted (ov_class o)) (paused w)))
      with (overlays w).
    destruct (find_index (has_class cls) (overlays w)) as [i|].
    2:{ simpl. split; [reflexivity|]. split; [exact Hm4|].
        split; [apply Hone|].
        repeat split; try reflexivity; try assumption; lia. }
    unfold script_display_none.
    change (overlays (log (Intercepted (ov_class o)) (paused w)))
      with (overlays w).
    destruct (nth_error (overlays w) i) as [t|].
    2:{ simpl. split; [reflexivity|]. split; [exact Hm|].
        split; [apply Hone|].
        repeat split; try reflexivity; try assumption; lia. }
    match goal with
    | |- context [click_showmore frames ?x] => set (w3 := x)
    end.
    destruct (IH w3) as (Hw & Hn & [events Hj] & Hu & Hc & Hr).
    change (now w3) with (now w + pause_of w) in Hn.
    change (pending w3) with (pending w) in Hr. rewrite Ep in Hr.
    split; [exact Hw|]. split; [lra|]. split.
    { rewrite Hj. subst w3. cbn [journal log paused].
      rewrite <- !app_assoc. eexists. reflexivity. }
    split; [rewrite Hu; apply update_nth_undisplay|].
    split; [|exact Hr].
    eapply Nat.le_trans; [exact Hc|apply update_nth_count].
Qed.

(** X17.  The page on which an already hidden element carries the class
    that the driver reports for the overlay in the way: the resolver
    hides the hidden element again and again, the overlay stays, and the
    call ends in [RecursionError] after as many rounds as nested calls
    are allowed, each costing a click pause. *)
Theorem ambiguous_class_recurs_until_the_limit frames :
  forall w o el_class i twin,
    pending w <> [] ->
    blocker w = Some o ->
    nth_error (Regex.findall (ov_detail o)) 1 = Some el_class ->
    find_index (has_class el_class) (overlays w) = Some i ->
    nth_error (overlays w) i = Some twin ->
    ov_displayed twin = false ->
    exists w',
      click_showmore frames w = (Raise RecursionError, w')
      /\ overlays w' = overlays w
      /\ hidden_classes (map snd (journal w'))
         = (hidden_classes (map snd (journal w))
              ++ repeat (ov_class twin) frames)%list
      /\ now w + Qnat frames * MIN_CLICK_PAUSE <= now w'.
Proof.
  induction frames as [|frames IH]; intros w o cls i twin Hp Hb Hn Hi Ht Hd.
  - exists w. simpl. rewrite app_nil_r.
    repeat split. unfold Qnat, inject_Z. simpl. lra.
  - rewrite click_showmore_unfold. unfold click_showmore_step.
    change (pending (paused w)) with (pending w).
    destruct (pending w) as [|b bs] eqn:Ep; [contradiction Hp; reflexivity|].
    change (blocker (paused w)) with (blocker w). rewrite Hb, Hn.
    change (overlays (log (Intercepted (ov_class o)) (paused w)))
      with (overlays w).
    rewrite Hi. unfold script_display_none.
    change (overlays (log (Intercepted (ov_class o)) (paused w)))
      with (overlays w).
    rewrite Ht, (update_nth_hidden i (overlays w) twin Ht Hd).
    match goal with
    | |- context [click_showmore frames ?w3] =>
        destruct (IH w3 o cls i twin) as (w' & Hrun & Ho & Hj & Hlo)
    end; simpl; try assumption.
    + rewrite Ep. discriminate.
    + exists w'. split; [exact Hrun|]. split; [exact Ho|]. split.
      * rewrite Hj. simpl. rewrite !map_app, !hidden_classes_app. simpl.
        rewrite <- !app_assoc. reflexivity.
      * simpl in Hlo. rewrite Qnat_succ.
        pose proof (pause_of_range w) as [Plo _].
        unfold MIN_CLICK_PAUSE in *. lra.
Qed.

Section ResolverMore.
Variable Float : Type.
Variable py_float : string -> option Float.
Variable recursion_limit : nat.
Variable max_scroll_time : Q.

Abbreviation driver :=
  (load_and_store_all_content py_float recursion_limit max_scroll_time).
Abbreviation rounds := (iterates py_float recursion_limit max_scroll_time).


End ResolverMore.

(* ------------------------------------------------------------------ *)
(** ** The pattern of the resolver *)

Module RegexProofs.
Import Text Regex.

Abbreviation quote_free :=
  (all_chars (fun c => negb (Ascii.eqb c dquote))).

Lemma capture_sound s :
  forall g n,
    capture s = Some (g, n) ->
    quote_free g = true /\ exists rest, s = g ++ String dquote rest.
Proof.
  induction s as [|c s IH]; intros g n; simpl; [discriminate|].
  destruct (Ascii.eqb c dquote) eqn:E.
  - intros H; inversion H; subst. apply Ascii.eqb_eq in E; subst c.
    split; [reflexivity|]. exists s. reflexivity.
  - destruct (capture s) as [[g' n']|]; [|discriminate].
    intros H; inversion H; subst.
    destruct (IH g' n' eq_refl) as (Hq & rest & ->).
    split; [simpl; rewrite E, Hq; reflexivity|]. exists rest. reflexivity.
Qed.

Lemma strip_prefix_sound p :
  forall s r, strip_prefix p s = Some r -> s = p ++ r.
Proof.
  induction p as [|a p IH]; intros s r; simpl.
  - intros H; inversion H; reflexivity.
  - destruct s as [|b s]; [discriminate|].
    destruct (Ascii.eqb a b) eqn:E; [|discriminate].
    apply Ascii.eqb_eq in E; subst b. intros H. rewrite (IH s r H).
    reflexivity.
Qed.

Lemma attr_here_sound s g n :
  attr_here s = Some (g, n) -> is_class_value s g.
Proof.
  unfold attr_here.
  destruct (strip_prefix class_attr s) as [r|] eqn:E; [|discriminate].
  apply strip_prefix_sound in E.
  destruct (capture r) as [[[|c g'] n']|] eqn:Ec; try discriminate.
  intros H; inversion H; subst.
  destruct (capture_sound r _ _ Ec) as (Hq & rest & ->).
  split; [discriminate|]. split; [exact Hq|].
  exists "", rest. reflexivity.
Qed.

Lemma is_class_value_cons c s g :
  is_class_value s g -> is_class_value (String c s) g.
Proof.
  intros (Hne & Hq & pre & rest & ->). split; [exact Hne|].
  split; [exact Hq|]. exists (String c pre), rest. reflexivity.
Qed.

Lemma tag_scan_sound s :
  forall g n, tag_scan s = Some (g, n) -> is_class_value s g.
Proof.
  induction s as [|c s IH]; intros g n; simpl.
  - apply attr_here_sound.
  - destruct (Ascii.eqb c ">"); [apply attr_here_sound|].
    destruct (tag_scan s) as [[g' n']|] eqn:E.
    + intros H; inversion H; subst.
      apply is_class_value_cons, (IH g n' eq_refl).
    + apply attr_here_sound.
Qed.

Lemma findall_from_sound s :
  forall k g, In g (findall_from k s) -> is_class_value s g.
Proof.
  induction s as [|c s IH]; intros k g; simpl; [contradiction|].
  destruct k as [|k].
  - destruct (Ascii.eqb c "<").
    + unfold match_open. destruct s as [|c' s'] eqn:Es.
      * simpl. contradiction.
      * rewrite <- Es in *.
        destruct (if Ascii.eqb c' ">" then None
                  else match tag_scan s' with
                       | Some (g0, n) => Some (g0, S n)
                       | None => None
                       end) as [[g0 n0]|] eqn:Em.
        -- intros [<-|Hin].
           ++ apply is_class_value_cons. subst s.
              destruct (Ascii.eqb c' ">"); [discriminate|].
              destruct (tag_scan s') as [[g1 n1]|] eqn:Et; [|discriminate].
              inversion Em; subst.
              apply is_class_value_cons, (tag_scan_sound s' _ _ Et).
           ++ apply is_class_value_cons, (IH _ _ Hin).
        -- intros Hin. apply is_class_value_cons, (IH _ _ Hin).
    + intros Hin. apply is_class_value_cons, (IH _ _ Hin).
  - intros Hin. apply is_class_value_cons, (IH _ _ Hin).
Qed.
End RegexProofs.

(** X19.  Every text that the pattern of [click_showmore] finds is the
    value of a class attribute written in the searched text: it is not
    empty, holds no double quote, and stands in the text right after the
    attribute's opening quote and right before a closing quote. *)
Theorem findall_matches_are_class_values s g :
  In g (Regex.findall s) -> is_class_value s g.
Proof. apply RegexProofs.findall_from_sound. Qed.

Module DetailProofs.
Import Text Regex.

Lemma name_char_plain c :
  is_name_char c = true ->
  Ascii.eqb c "<" = false /\ Ascii.eqb c ">" = false
  /\ Ascii.eqb c dquote = false /\ Ascii.eqb "=" c = false.
Proof.
  destruct c as [[] [] [] [] [] [] [] []]; vm_compute; intuition congruence.
Qed.

(** No attribute starts inside a name that is followed by a quote. *)
Lemma strip_prefix_in_name p p' :
  all_chars (fun c => negb (Ascii.eqb c dquote)) p = true ->
  forall x z,
    all_chars is_name_char x = true ->
    strip_prefix (p ++ String "=" p') (x ++ String dquote z) = None.
Proof.
  induction p as [|a p IH]; intros Hp x z Hx.
  - destruct x as [|b x]; cbn [strip_prefix append]; [reflexivity|].
    cbn [all_chars] in Hx. apply andb_prop in Hx as [Hb _].
    destruct (name_char_plain b Hb) as (_ & _ & _ & He). rewrite He.
    reflexivity.
  - cbn [all_chars] in Hp. apply andb_prop in Hp as [Ha Hp].
    apply negb_true_iff in Ha.
    destruct x as [|b x]; cbn [strip_prefix append].
    + rewrite Ha. reflexivity.
    + cbn [all_chars] in Hx. apply andb_prop in Hx as [_ Hx].
      destruct (Ascii.eqb a b); [apply IH; assumption|reflexivity].
Qed.

Lemma attr_here_in_name x z :
  all_chars is_name_char x = true ->
  attr_here (x ++ String dquote z) = None.
Proof.
  intros Hx. unfold attr_here.
  change class_attr with ("class" ++ String "=" (String dquote "")).
  rewrite strip_prefix_in_name; [reflexivity|reflexivity|exact Hx].
Qed.

Lemma tag_scan_in_name x z :
  all_chars is_name_char x = true ->
  tag_scan (String dquote z) = None ->
  tag_scan (x ++ String dquote z) = None.
Proof.
  intros Hx Hz. induction x as [|c x IH]; [exact Hz|].
  cbn [all_chars] in Hx. apply andb_prop in Hx as [Hc Hx].
  destruct (name_char_plain c Hc) as (_ & Hgt & _).
  change (String c x ++ String dquote z)
    with (String c (x ++ String dquote z)).
  cbn [tag_scan]. rewrite Hgt, (IH Hx).
  apply (attr_here_in_name (String c x) z). cbn [all_chars].
  rewrite Hc, Hx. reflexivity.
Qed.

Lemma capture_name v z :
  all_chars is_name_char v = true ->
  capture (v ++ String dquote z) = Some (v, S (String.length v)).
Proof.
  induction v as [|c v IH]; intros Hv; cbn [capture append String.length].
  - rewrite Ascii.eqb_refl. reflexivity.
  - cbn [all_chars] in Hv. apply andb_prop in Hv as [Hc Hv].
    destruct (name_char_plain c Hc) as (_ & _ & Hq & _).
    rewrite Hq, (IH Hv). reflexivity.
Qed.

Lemma tag_scan_through x :
  all_chars is_name_char x = true ->
  forall y g n,
    tag_scan y = Some (g, n) ->
    tag_scan (x ++ y) = Some (g, (String.length x + n)%nat).
Proof.
  induction x as [|c x IH]; intros Hx y g n Hy; [exact Hy|].
  cbn [all_chars] in Hx. apply andb_prop in Hx as [Hc Hx].
  destruct (name_char_plain c Hc) as (_ & Hgt & _).
  cbn [append tag_scan String.length plus].
  rewrite Hgt, (IH Hx y g n Hy). reflexivity.
Qed.

(** The attribute of an element, from the space before it. *)
Lemma tag_scan_attribute v z :
  v <> "" ->
  all_chars is_name_char v = true ->
  tag_scan (String dquote z) = None ->
  tag_scan (String " " (class_attr ++ v ++ String dquote z))
  = Some (v, (9 + String.length v)%nat).
Proof.
  intros Hne Hv Hz.
  pose proof (tag_scan_in_name v z Hv Hz) as Hin.
  pose proof (capture_name v z Hv) as Hcap.
  unfold class_attr in *.
  change dquote with (Ascii false true false false false true false false)
    in *.
  simpl. rewrite Hin. simpl. unfold attr_here, class_attr.
  change dquote with (Ascii false true false false false true false false).
  simpl. rewrite Hcap.
  destruct v as [|c v]; [contradiction Hne; reflexivity|].
  reflexivity.
Qed.

Lemma match_open_element t v z :
  t <> "" ->
  all_chars is_name_char t = true ->
  v <> "" ->
  all_chars is_name_char v = true ->
  tag_scan (String dquote z) = None ->
  match_open (t ++ String " " (class_attr ++ v ++ String dquote z))
  = Some (v, (String.length t + (9 + String.length v))%nat).
Proof.
  intros Ht Hta Hv Hva Hz.
  destruct t as [|c t]; [contradiction Ht; reflexivity|].
  cbn [all_chars] in Hta. apply andb_prop in Hta as [Hc Hta].
  destruct (name_char_plain c Hc) as (_ & Hgt & _).
  change (String c t ++ ?y) with (String c (t ++ y)).
  unfold match_open. rewrite Hgt.
  rewrite (tag_scan_through t Hta _ v _ (tag_scan_attribute v z Hv Hva Hz)).
  reflexivity.
Qed.

Lemma findall_from_app x :
  forall k y,
    findall_from (String.length x + k) (x ++ y) = findall_from k y.
Proof.
  induction x as [|c x IH]; intros k y; [reflexivity|]. simpl. apply IH.
Qed.

(** The matches from an opening bracket on, when an element with a class
    follows. *)
Lemma findall_element t v z :
  t <> "" ->
  all_chars is_name_char t = true ->
  v <> "" ->
  all_chars is_name_char v = true ->
  tag_scan (String dquote z) = None ->
  findall_from 0
    (String "<" (t ++ String " " (class_attr ++ v ++ String dquote z)))
  = v :: findall_from 0 z.
Proof.
  intros Ht Hta Hv Hva Hz. cbn [findall_from Ascii.eqb Bool.eqb].
  rewrite (match_open_element t v z Ht Hta Hv Hva Hz). f_equal.
  rewrite findall_from_app.
  unfold class_attr. cbn [append findall_from plus].
  replace (S (String.length v)) with (String.length v + 1)%nat by lia.
  rewrite findall_from_app. reflexivity.
Qed.

Lemma findall_no_open p :
  all_chars (fun c => negb (Ascii.eqb c "<")) p = true ->
  forall y, findall_from 0 (p ++ y) = findall_from 0 y.
Proof.
  induction p as [|c p IH]; intros Hp y; [reflexivity|].
  cbn [all_chars] in Hp. apply andb_prop in Hp as [Hc Hp].
  apply negb_true_iff in Hc. cbn [append findall_from]. rewrite Hc.
  apply IH, Hp.
Qed.

Lemma findall_driver_detail button_class tag cls :
  is_name button_class -> is_name tag -> is_name cls ->
  findall (driver_detail button_class tag cls) = [button_class; cls].
Proof.
  intros [Hb Hba] [Ht Hta] [Hc Hca].
  set (p1 := "Message: Element ").
  set (p2 := " type=" ++ String dquote "button"
             ++ String dquote
                  "> is not clickable at point (640,587) because another element ").
  set (z2 := "> obscures it").
  assert (Hshape :
            driver_detail button_class tag cls
            = p1 ++ String "<"
                ("button" ++ String " "
                   (class_attr ++ button_class
                      ++ String dquote
                           (p2 ++ String "<"
                              (tag ++ String " "
                                 (class_attr ++ cls ++ String dquote z2))))))
    by reflexivity.
  unfold findall. rewrite Hshape.
  rewrite (findall_no_open p1) by reflexivity.
  rewrite findall_element;
    [|discriminate|reflexivity|exact Hb|exact Hba|reflexivity].
  rewrite (findall_no_open p2) by reflexivity.
  rewrite findall_element;
    [|exact Ht|exact Hta|exact Hc|exact Hca|reflexivity].
  reflexivity.
Qed.
End DetailProofs.

(** X20.  On a detail worded as the driver words it, for a control of
    class [button_class] under an element [tag] of class [cls], all three
    names free of angle brackets, double quotes and equals signs, the
    pattern finds the class of the control and then the class of the
    element in the way; so the second match, the one the resolver takes,
    is the class of the overlay to hide. *)
Theorem driver_detail_names_the_overlay button_class tag cls :
  is_name button_class -> is_name tag -> is_name cls ->
  Regex.findall (driver_detail button_class tag cls) = [button_class; cls]
  /\ forall displayed,
       well_described
         {| ov_class := cls;
            ov_detail := driver_detail button_class tag cls;
            ov_displayed := displayed |}.
Proof.
  intros Hb Ht Hc.
  pose proof (DetailProofs.findall_driver_detail button_class tag cls Hb Ht Hc)
    as H.
  split; [exact H|]. intros displayed. unfold well_described. simpl.
  rewrite H. reflexivity.
Qed.

(* ------------------------------------------------------------------ *)
(** ** The pattern finds the class attributes *)

Module OccurrenceProofs.
Import Text Regex.

Abbreviation gt_free := (all_chars (fun c => negb (Ascii.eqb c ">"))).
Abbreviation quote_free := (all_chars (fun c => negb (Ascii.eqb c dquote))).

Lemma append_assoc (a b c : string) : (a ++ b) ++ c = a ++ b ++ c.
Proof. induction a as [|x a IH]; simpl; [reflexivity|]. rewrite IH. reflexivity. Qed.

Lemma length_append (a b : string) :
  String.length (a ++ b) = (String.length a + String.length b)%nat.
Proof. induction a as [|x a IH]; simpl; [reflexivity|]. rewrite IH. reflexivity. Qed.

(** Two ways to cut a text after prefixes of the same length agree. *)
Lemma append_same_length (a a' b b' : string) :
  a ++ b = a' ++ b' -> String.length a = String.length a' ->
  a = a' /\ b = b'.
Proof.
  revert a'. induction a as [|x a IH]; intros [|x' a'] H Hl; simpl in *;
    try discriminate.
  - split; [reflexivity|exact H].
  - injection H as -> H. destruct (IH a' H) as [-> ->]; [lia|].
    split; reflexivity.
Qed.

(** The value of an attribute ends at the first double quote. *)
Lemma quote_free_unique (g g' r r' : string) :
  quote_free g = true -> quote_free g' = true ->
  g ++ String dquote r = g' ++ String dquote r' ->
  g = g' /\ r = r'.
Proof.
  revert g'. induction g as [|x g IH]; intros [|x' g'] Hg Hg' H; simpl in *.
  - injection H as ->. split; reflexivity.
  - injection H as <- _. rewrite Ascii.eqb_refl in Hg'. discriminate.
  - injection H as -> _. rewrite Ascii.eqb_refl in Hg. discriminate.
  - injection H as -> H.
    apply andb_prop in Hg as [_ Hg]. apply andb_prop in Hg' as [_ Hg'].
    destruct (IH g' Hg Hg' H) as [-> ->]. split; reflexivity.
Qed.

Lemma capture_complete g :
  quote_free g = true ->
  forall rest, capture (g ++ String dquote rest) = Some (g, S (String.length g)).
Proof.
  induction g as [|c g IH]; intros Hg rest; cbn [capture append String.length].
  - rewrite Ascii.eqb_refl. reflexivity.
  - cbn [all_chars] in Hg. apply andb_prop in Hg as [Hc Hg].
    apply negb_true_iff in Hc. rewrite Hc, (IH Hg). reflexivity.
Qed.

Lemma capture_spec s g n :
  capture s = Some (g, n) ->
  quote_free g = true /\ n = S (String.length g)
  /\ exists rest, s = g ++ String dquote rest.
Proof.
  revert g n. induction s as [|c s IH]; intros g n; simpl; [discriminate|].
  destruct (Ascii.eqb c dquote) eqn:E.
  - intros H; inversion H; subst. apply Ascii.eqb_eq in E; subst c.
    split; [reflexivity|]. split; [reflexivity|]. exists s. reflexivity.
  - destruct (capture s) as [[g' n']|]; [|discriminate].
    intros H; inversion H; subst.
    destruct (IH g' n' eq_refl) as (Hq & -> & rest & ->).
    split; [simpl; rewrite E, Hq; reflexivity|]. split; [reflexivity|].
    exists rest. reflexivity.
Qed.

Lemma strip_prefix_spec p :
  forall s r, strip_prefix p s = Some r <-> s = p ++ r.
Proof.
  induction p as [|a p IH]; intros s r; simpl.
  - split; [intros H; inversion H; reflexivity|intros ->; reflexivity].
  - destruct s as [|b s]; [split; discriminate|].
    destruct (Ascii.eqb a b) eqn:E.
    + apply Ascii.eqb_eq in E; subst b. rewrite IH. split.
      * intros ->. reflexivity.
      * intros H. injection H as H. exact H.
    + split; [discriminate|]. intros H. injection H as -> _.
      rewrite Ascii.eqb_refl in E. discriminate.
Qed.

Lemma attr_here_some s g n :
  attr_here s = Some (g, n) ->
  exists rest, attribute_at s g rest /\ n = (8 + String.length g)%nat.
Proof.
  unfold attr_here.
  destruct (strip_prefix class_attr s) as [r|] eqn:E; [|discriminate].
  apply strip_prefix_spec in E.
  destruct (capture r) as [[[|c g'] n']|] eqn:Ec; try discriminate.
  intros H; inversion H; subst.
  destruct (capture_spec r _ _ Ec) as (Hq & -> & rest & ->).
  exists rest. split; [|simpl; lia].
  split; [reflexivity|]. split; [discriminate|exact Hq].
Qed.

Lemma attr_here_none s :
  attr_here s = None -> forall g rest, ~ attribute_at s g rest.
Proof.
  unfold attr_here. intros H g rest (-> & Hne & Hq).
  assert (E : strip_prefix class_attr (class_attr ++ g ++ String dquote rest)
              = Some (g ++ String dquote rest))
    by (apply strip_prefix_spec; reflexivity).
  rewrite E, (capture_complete g Hq rest) in H.
  destruct g; [contradiction Hne; reflexivity|discriminate].
Qed.

Lemma tail_at_nil s g rest : tail_at s "" g rest <-> attribute_at s g rest.
Proof.
  unfold tail_at, attribute_at. simpl. intuition.
Qed.

Lemma tail_at_cons c s body g rest :
  tail_at (String c s) (String c body) g rest
  <-> Ascii.eqb c ">" = false /\ tail_at s body g rest.
Proof.
  unfold tail_at. simpl. split.
  - intros (H & Hb & Hne & Hq). injection H as H.
    apply andb_prop in Hb as [Hc Hb]. apply negb_true_iff in Hc.
    repeat split; assumption.
  - intros (Hc & -> & Hb & Hne & Hq). rewrite Hc, Hb.
    repeat split; assumption.
Qed.

Lemma tail_at_head c s body g rest :
  tail_at (String c s) body g rest ->
  body = "" \/ exists body', body = String c body'.
Proof.
  intros (H & _). destruct body as [|b body]; [left; reflexivity|].
  right. simpl in H. injection H as -> _. exists body. reflexivity.
Qed.

Lemma tag_scan_spec s :
  match tag_scan s with
  | Some (g, n) =>
      exists body rest,
        tail_at s body g rest
        /\ n = (String.length body + 8 + String.length g)%nat
        /\ forall body' g' rest',
             tail_at s body' g' rest' ->
             (String.length body' <= String.length body)%nat
  | None => forall body g rest, ~ tail_at s body g rest
  end.
Proof.
  induction s as [|c s IH].
  - simpl. destruct (attr_here "") as [[g n]|] eqn:E.
    + apply attr_here_some in E as (rest & (H & _) & _). discriminate.
    + intros body g rest (H & _). destruct body; discriminate.
  - cbn [tag_scan].
    assert (Hhere :
              match attr_here (String c s) with
              | Some (g, n) =>
                  exists rest,
                    tail_at (String c s) "" g rest
                    /\ n = (0 + 8 + String.length g)%nat
              | None => forall g rest, ~ tail_at (String c s) "" g rest
              end).
    { destruct (attr_here (String c s)) as [[g n]|] eqn:E.
      - apply attr_here_some in E as (rest & Ha & ->).
        exists rest. split; [apply tail_at_nil, Ha|reflexivity].
      - intros g rest H. apply tail_at_nil in H.
        apply (attr_here_none _ E g rest H). }
    destruct (Ascii.eqb c ">") eqn:Ec.
    + destruct (attr_here (String c s)) as [[g n]|].
      * destruct Hhere as (rest & Ht & ->). exists "", rest.
        split; [exact Ht|]. split; [reflexivity|].
        intros body' g' rest' H'.
        destruct (tail_at_head _ _ _ _ _ H') as [->|[b ->]]; [simpl; lia|].
        apply tail_at_cons in H' as [H' _]. congruence.
      * intros body g rest H.
        destruct (tail_at_head _ _ _ _ _ H) as [->|[b ->]];
          [apply (Hhere g rest H)|].
        apply tail_at_cons in H as [H _]. congruence.
    + destruct (tag_scan s) as [[g n]|].
      * destruct IH as (body & rest & Ht & -> & Hmax).
        exists (String c body), rest.
        split; [apply tail_at_cons; split; assumption|].
        split; [reflexivity|].
        intros body' g' rest' H'.
        destruct (tail_at_head _ _ _ _ _ H') as [->|[b ->]]; [simpl; lia|].
        apply tail_at_cons in H' as [_ H']. simpl.
        apply le_n_S, (Hmax b g' rest' H').
      * destruct (attr_here (String c s)) as [[g n]|].
        -- destruct Hhere as (rest & Ht & ->). exists "", rest.
           split; [exact Ht|]. split; [reflexivity|].
           intros body' g' rest' H'.
           destruct (tail_at_head _ _ _ _ _ H') as [->|[b ->]]; [simpl; lia|].
           apply tail_at_cons in H' as [_ H']. exfalso.
           apply (IH b g' rest' H').
        -- intros body g rest H.
           destruct (tail_at_head _ _ _ _ _ H) as [->|[b ->]];
             [apply (Hhere g rest H)|].
           apply tail_at_cons in H as [_ H]. apply (IH b g rest H).
Qed.


Lemma occurrence_at_open s' body g rest :
  occurrence_at (String "<" s') body g rest
  <-> exists c b,
        body = String c b /\ s' = String c (b ++ class_attr ++ g ++ String dquote rest)
        /\ Ascii.eqb c ">" = false /\ tail_at (b ++ class_attr ++ g ++ String dquote rest) b g rest.
Proof.
  unfold occurrence_at, tail_at. split.
  - intros (H & Hne & Hb & Hg & Hq). injection H as ->.
    destruct body as [|c b]; [contradiction Hne; reflexivity|].
    cbn [all_chars] in Hb. apply andb_prop in Hb as [Hc Hb].
    apply negb_true_iff in Hc. exists c, b. repeat split; assumption.
  - intros (c & b & -> & -> & Hc & _ & Hb & Hg & Hq).
    split; [reflexivity|]. split; [discriminate|].
    cbn [all_chars]. rewrite Hc, Hb. repeat split; assumption.
Qed.

Lemma match_open_spec s' :
  match match_open s' with
  | Some (g, n) =>
      exists body rest,
        occurrence_at (String "<" s') body g rest
        /\ n = (String.length body + 8 + String.length g)%nat
        /\ forall body' g' rest',
             occurrence_at (String "<" s') body' g' rest' ->
             (String.length body' <= String.length body)%nat
  | None => forall body g rest, ~ occurrence_at (String "<" s') body g rest
  end.
Proof.
  unfold match_open. destruct s' as [|c s].
  - intros body g rest H. apply occurrence_at_open in H
      as (c & b & _ & H & _). discriminate.
  - destruct (Ascii.eqb c ">") eqn:Ec.
    + intros body g rest H. apply occurrence_at_open in H
        as (c' & b & _ & H & Hc & _). injection H as <- _. congruence.
    + pose proof (tag_scan_spec s) as Hs.
      destruct (tag_scan s) as [[g n]|].
      * destruct Hs as (b & rest & Ht & -> & Hmax).
        exists (String c b), rest. split; [|split; [reflexivity|]].
        -- apply occurrence_at_open. exists c, b.
           destruct Ht as (-> & Ht). repeat split; try assumption; apply Ht.
        -- intros body' g' rest' H'. apply occurrence_at_open in H'
             as (c' & b' & -> & H' & _ & Ht').
           injection H' as <- H'. simpl. apply le_n_S.
           apply (Hmax b' g' rest'). rewrite H'. exact Ht'.
      * intros body g rest H. apply occurrence_at_open in H
          as (c' & b & _ & H & _ & Ht). injection H as <- H.
        apply (Hs b g rest). rewrite H. exact Ht.
Qed.

Lemma findall_from_skip x :
  forall k y, findall_from (String.length x + k) (x ++ y) = findall_from k y.
Proof.
  induction x as [|c x IH]; intros k y; [reflexivity|]. simpl. apply IH.
Qed.

Lemma occurrence_at_length s body g rest :
  occurrence_at s body g rest ->
  String.length s
  = (1 + (String.length body + 8 + String.length g) + String.length rest)%nat
  /\ exists x, s = String "<" (x ++ rest)
                /\ String.length x = (String.length body + 8 + String.length g)%nat.
Proof.
  intros (-> & _). split.
  - cbn [String.length]. rewrite !length_append. cbn [String.length].
    change (String.length class_attr) with 7%nat. lia.
  - exists (body ++ class_attr ++ g ++ String dquote "").
    split.
    + rewrite !append_assoc. reflexivity.
    + rewrite !length_append. cbn [String.length].
      change (String.length class_attr) with 7%nat. lia.
Qed.

(** The matcher finds the occurrences. *)
Lemma findall_occurrences_upto n :
  forall s, (String.length s <= n)%nat -> occurrences s (findall_from 0 s).
Proof.
  induction n as [|n IH]; intros s Hn.
  - destruct s; [apply occurrences_end|simpl in Hn; lia].
  - destruct s as [|c s]; [apply occurrences_end|].
    cbn [findall_from]. simpl in Hn.
    destruct (Ascii.eqb c "<") eqn:Ec.
    + apply Ascii.eqb_eq in Ec; subst c.
      pose proof (match_open_spec s) as Hm.
      destruct (match_open s) as [[g k]|].
      * destruct Hm as (body & rest & Ho & -> & Hmax).
        destruct (occurrence_at_length _ _ _ _ Ho) as (Hlen & x & Hx & Hxl).
        apply (occurrences_take _ body g rest); [exact Ho|exact Hmax|].
        injection Hx as ->. rewrite <- Hxl.
        rewrite <- (Nat.add_0_r (String.length x)), findall_from_skip.
        apply IH. cbn [String.length] in Hlen. lia.
      * apply occurrences_skip; [exact Hm|]. apply IH. lia.
    + apply occurrences_skip; [|apply IH; lia].
      intros body g rest (H & _). injection H as -> _.
      discriminate.
Qed.

Lemma findall_occurrences s : occurrences s (findall s).
Proof. apply (findall_occurrences_upto (String.length s)). apply le_n. Qed.

Lemma occurrence_at_unique s body g rest body' g' rest' :
  occurrence_at s body g rest ->
  occurrence_at s body' g' rest' ->
  String.length body = String.length body' ->
  g = g' /\ rest = rest'.
Proof.
  intros (-> & _ & _ & _ & Hq) (H & _ & _ & _ & Hq') Hl.
  injection H as H.
  apply append_same_length in H as [_ H]; [|exact Hl].
  injection H as H.
  apply (quote_free_unique _ _ _ _ Hq Hq' H).
Qed.

(** The search has one result. *)
Lemma occurrences_unique s gs :
  occurrences s gs -> forall gs', occurrences s gs' -> gs = gs'.
Proof.
  induction 1 as [|c s gs Hno _ IH|s body g rest gs Ho Hmax _ IH];
    intros gs' H'.
  - inversion H' as [| |s' body' g' rest' gs0 Ho' _ _]; subst;
      [reflexivity|].
    destruct Ho' as (H & _). discriminate.
  - inversion H' as [|c' s' gs0 _ Hrest|s' body' g' rest' gs0 Ho' _ _]; subst.
    + apply IH, Hrest.
    + exfalso. apply (Hno _ _ _ Ho').
  - inversion H' as [|c' s' gs0 Hno' _|s' body' g' rest' gs0 Ho' Hmax' Hrest];
      subst.
    + destruct Ho as (H & _). discriminate.
    + exfalso. apply (Hno' _ _ _ Ho).
    + destruct (occurrence_at_unique _ _ _ _ _ _ _ Ho Ho') as [-> ->].
      * apply Nat.le_antisymm; [apply (Hmax' _ _ _ Ho)|apply (Hmax _ _ _ Ho')].
      * f_equal. apply IH, Hrest.
Qed.

End OccurrenceProofs.

Section ResolverPattern.
Variable Float : Type.
Variable py_float : string -> option Float.
Variable recursion_limit : nat.
Variable max_scroll_time : Q.

(** C10.  When the click on the control is intercepted, the resolver goes
    on with the second class attribute that occurs in the detail of the
    interception: it hides the element that answers to it and calls
    itself.  When fewer than two class attributes occur in the detail, be
    it one or none, [IndexError] is raised; the loop does not catch it,
    the driver raises it and the session of the school ends in a
    [RuntimeError] caused by it.  The occurrences are those of
    [occurrences], whatever the matcher. *)
Theorem resolver_takes_second_class frames w o found :
  pending w <> [] ->
  blocker w = Some o ->
  occurrences (ov_detail o) found ->
  let w2 := log (Intercepted (ov_class o)) (paused w) in
  match found with
  | _ :: el_class :: _ =>
      click_showmore (S frames) w
      = (hide_overlay el_class ;;; click_showmore frames) w2
  | _ =>
      click_showmore (S frames) w = (Raise IndexError, w2)
      /\ (forall ws recs w0 acc fuel school id dest,
             recursion_limit = S frames ->
             store_and_delete_cards py_float (startup ws) = (Ok recs, w0) ->
             iterates py_float recursion_limit max_scroll_time (now w0) recs
               w0 acc w ->
             now w - now w0 < max_scroll_time ->
             (List.length (pending ws) < fuel)%nat ->
             dict_get SCHOOL_IDS school = Some id ->
             dict_get CSV_DESTS school = Some dest ->
             load_and_store_all_content py_float recursion_limit
               max_scroll_time fuel (startup ws)
             = Some (Raise IndexError, w2)
             /\ save_school_data py_float recursion_limit max_scroll_time
                  fuel school ws
                = Some (Raise (RuntimeError school IndexError), w2))
  end.
Proof.
  intros Hp Hb Hocc w2.
  rewrite (OccurrenceProofs.occurrences_unique _ _ Hocc _
             (OccurrenceProofs.findall_occurrences (ov_detail o))).
  assert (Hstep : click_showmore (S frames) w
                  = match nth_error (Regex.findall (ov_detail o)) 1 with
                    | None => (Raise IndexError, w2)
                    | Some el_class =>
                        (hide_overlay el_class ;;; click_showmore frames) w2
                    end).
  { rewrite click_showmore_unfold. unfold click_showmore_step.
    change (pending (paused w)) with (pending w).
    destruct (pending w) as [|b bs]; [contradiction Hp; reflexivity|].
    change (blocker (paused w)) with (blocker w). rewrite Hb.
    fold w2. destruct (nth_error _ 1) as [cls|]; [|reflexivity].
    unfold bind, hide_overlay, bind, await_presence.
    destruct (find_index _ _) as [i|]; [|reflexivity].
    destruct (script_display_none i w2) as [[[]|e] w3]; reflexivity. }
  assert (Hfatal :
            click_showmore (S frames) w = (Raise IndexError, w2) ->
            forall ws recs w0 acc fuel school id dest,
              recursion_limit = S frames ->
              store_and_delete_cards py_float (startup ws) = (Ok recs, w0) ->
              iterates py_float recursion_limit max_scroll_time (now w0) recs
                w0 acc w ->
              now w - now w0 < max_scroll_time ->
              (List.length (pending ws) < fuel)%nat ->
              dict_get SCHOOL_IDS school = Some id ->
              dict_get CSV_DESTS school = Some dest ->
              load_and_store_all_content py_float recursion_limit
                max_scroll_time fuel (startup ws)
              = Some (Raise IndexError, w2)
              /\ save_school_data py_float recursion_limit max_scroll_time
                   fuel school ws
                 = Some (Raise (RuntimeError school IndexError), w2)).
  { intros Hrun ws recs w0 acc fuel school id dest Hl Hs Hr Hbud Hf Hid Hdest.
    apply (resolver_exception_fatal _ py_float recursion_limit
             max_scroll_time ws recs w0 acc w IndexError w2 fuel school id
             dest Hs Hr Hbud); try assumption; try discriminate.
    rewrite Hl. exact Hrun. }
  destruct (Regex.findall (ov_detail o)) as [|g1 [|g2 gs]];
    simpl in Hstep; try (split; [exact Hstep|exact (Hfatal Hstep)]).
  exact Hstep.
Qed.

End ResolverPattern.


(* ------------------------------------------------------------------ *)
(** ** The further properties on the pages of the examples *)

(** On the obstructed listing the resolver goes on with the class of the
    frame, the second attribute of the detail; and the overlay reported
    without a class, whose detail holds the class of the control only,
    ends the session of the school with [IndexError]. *)
Lemma resolver_takes_second_class_witness :
  click_showmore 1000 Fixtures.listing_obstructed
  = (hide_overlay "bx-gbi-frame" ;;; click_showmore 999)
      (log (Intercepted "bx-gbi-frame") (paused Fixtures.listing_obstructed))
  /\ option_map fst
       (save_school_data Fixtures.decimal 1000 MAX_SCROLL_TIME 2
          "Mount Allison University" Fixtures.listing_classless)
     = Some (Raise (RuntimeError "Mount Allison University" IndexError)).
Proof.
  split.
  - apply (resolver_takes_second_class Q Fixtures.decimal 1000 MAX_SCROLL_TIME
             999 Fixtures.listing_obstructed
             (Fixtures.overlay "iframe" "bx-gbi-frame")
             ["Buttons__Button-sc-19xdot-1 PaginationButton__StyledPaginationButton-txi1dr-1 glImpo";
              "bx-gbi-frame"]).
    + discriminate.
    + reflexivity.
    + assert (E : Regex.findall
                    (ov_detail (Fixtures.overlay "iframe" "bx-gbi-frame"))
                  = ["Buttons__Button-sc-19xdot-1 PaginationButton__StyledPaginationButton-txi1dr-1 glImpo";
                     "bx-gbi-frame"]) by by_running.
      rewrite <- E. apply OccurrenceProofs.findall_occurrences.
  - pose (w := snd (store_and_delete_cards Fixtures.decimal
                      (startup Fixtures.listing_classless))).
    pose proof (resolver_takes_second_class Q Fixtures.decimal 1000
                  MAX_SCROLL_TIME 999 w Fixtures.classless
                  ["Buttons__Button-sc-19xdot-1"]) as H.
    destruct H as [_ H].
    + vm_compute. discriminate.
    + by_running.
    + assert (E : Regex.findall (ov_detail Fixtures.classless)
                  = ["Buttons__Button-sc-19xdot-1"]) by by_running.
      rewrite <- E. apply OccurrenceProofs.findall_occurrences.
    + edestruct (H Fixtures.listing_classless) with
        (fuel := 2%nat) (school := "Mount Allison University")
        (id := 1444%Z) (dest := "rmp_mta.csv") as [_ Hs].
      * reflexivity.
      * by_running.
      * apply iterates_here.
      * vm_compute. reflexivity.
      * simpl. lia.
      * reflexivity.
      * reflexivity.
      * rewrite Hs. reflexivity.
Defined.


(** Panel 1 of the listing has all it takes, and gives its record. *)
Lemma extract_prof_data_success_witness :
  fst (extract_prof_data Fixtures.decimal 1 Fixtures.listing)
  = Ok {| Name := "J. Smith"; Rating := 41 # 10;
          Would_Take_Again := Some 60%Z; Difficulty := 32 # 10;
          Department := "Math" |}.
Proof.
  destruct (extract_prof_data_success Q Fixtures.decimal 1%nat
              Fixtures.listing Fixtures.smith) as [H _].
  - reflexivity.
  - apply H. exists [], "4.1", [], [], "60%", "3.2", [].
    repeat split; reflexivity.
Defined.

Lemma listing_handles_distinct : NoDup (map fst (document Fixtures.listing)).
Proof. repeat constructor; simpl; intuition discriminate. Qed.

(** The first batch of the listing: three panels, three records. *)
Lemma store_and_delete_cards_success_witness :
  exists recs,
    fst (store_and_delete_cards Fixtures.decimal Fixtures.listing) = Ok recs
    /\ List.length recs = 3%nat.
Proof.
  destruct (store_and_delete_cards_success Q Fixtures.decimal
              Fixtures.listing listing_handles_distinct) as (_ & H & _).
  eexists. split; [by_running|]. apply H. by_running.
Defined.

(** The garbled listing served in document order and in another order. *)
Lemma batch_order_irrelevant_witness :
  Permutation
    (fst (executor_map Fixtures.decimal [1; 2; 3]%nat Fixtures.listing_garbled))
    (fst (executor_map Fixtures.decimal [3; 1; 2]%nat Fixtures.listing_garbled)).
Proof.
  destruct (batch_order_irrelevant Q Fixtures.decimal [1; 2; 3]%nat
              [3; 1; 2]%nat Fixtures.listing_garbled) as [H _].
  - repeat constructor; simpl; intuition discriminate.
  - apply Permutation_sym.
    apply (Permutation_cons_app [1; 2]%nat [] 3%nat).
    rewrite app_nil_r. apply Permutation_refl.
  - exact H.
Defined.

(** Five batches behind the control and a budget of one second: three
    checks of the loop's head are enough, and 2401 checks for the budget
    of the script. *)
Lemma load_and_store_all_content_terminates_witness :
  (exists r,
      load_and_store_all_content Fixtures.decimal 1000 1 3 Scenes.listing_long
      = Some r)
  /\ (exists r,
         load_and_store_all_content Fixtures.decimal 1000 MAX_SCROLL_TIME 2401
           Scenes.listing_long
         = Some r).
Proof.
  split.
  - apply (load_and_store_all_content_terminates Q Fixtures.decimal 1000 1
             Scenes.listing_long 3%nat); [lia|vm_compute; discriminate].
  - apply (load_and_store_all_content_terminates Q Fixtures.decimal 1000
             MAX_SCROLL_TIME Scenes.listing_long 2401%nat);
      [lia|vm_compute; discriminate].
Defined.

Lemma listing_long_panels_distinct :
  NoDup (map fst (all_panels Scenes.listing_long)).
Proof. repeat constructor; simpl; intuition discriminate. Qed.

(** The long listing with a budget of one second: three records come
    back, those of the first three panels, and the other three panels are
    still behind the control. *)
Lemma driver_never_drops_records_witness :
  exists prof_data w' served,
    load_and_store_all_content Fixtures.decimal 1000 1 3 Scenes.listing_long
    = Some (Ok prof_data, w')
    /\ all_panels Scenes.listing_long = (served ++ all_panels w')%list
    /\ List.length prof_data = List.length served
    /\ List.length prof_data = 3%nat.
Proof.
  eexists. eexists.
  match goal with
  | |- exists served, ?run = Some (Ok ?pd, ?w') /\ _ =>
      destruct (driver_never_drops_records Q Fixtures.decimal 1000 1 3%nat
                  Scenes.listing_long pd w' listing_long_panels_distinct)
        as (served & Hs & _ & Hlen); [by_running|]
  end.
  exists served. split; [reflexivity|]. split; [exact Hs|].
  split; [exact Hlen|reflexivity].
Defined.

(** On the garbled listing the driver raises, and no panel stays. *)
Lemma driver_detaches_every_panel_witness :
  exists w',
    load_and_store_all_content Fixtures.decimal 1000 MAX_SCROLL_TIME 2
      Fixtures.listing_garbled = Some (Raise ValueError, w')
    /\ document w' = [].
Proof.
  eexists. split; [by_running|].
  eapply (driver_detaches_every_panel Q Fixtures.decimal 1000
            MAX_SCROLL_TIME 2%nat Fixtures.listing_garbled).
  by_running.
Defined.

(** On the obstructed listing with a budget of one second the truncation
    warning comes with a clock past the budget. *)
Lemma truncation_warning_only_past_budget_witness :
  exists prof_data w',
    load_and_store_all_content Fixtures.decimal 1000 1 2
      Fixtures.listing_obstructed = Some (Ok prof_data, w')
    /\ warnings w' = [SCROLL_TIME_WARN]
    /\ 1 <= now w' - now Fixtures.listing_obstructed.
Proof.
  eexists. eexists. split; [by_running|].
  match goal with
  | |- warnings ?w' = _ /\ _ =>
      pose proof (truncation_warning_only_past_budget Q Fixtures.decimal
                    1000 1 2%nat Fixtures.listing_obstructed _ w'
                    ltac:(by_running)) as H
  end.
  cbv beta iota in H. destruct H as [H|[Hw Hb]].
  - vm_compute in H. discriminate.
  - split; [reflexivity|exact Hb].
Defined.

Lemma listing_panels_distinct : NoDup (map fst (all_panels Fixtures.listing)).
Proof. repeat constructor; simpl; intuition discriminate. Qed.

(** The listing of the spec's scenario is scraped completely within the
    budget of the script. *)
Lemma unobstructed_listing_is_complete_witness :
  exists recs w',
    load_and_store_all_content Fixtures.decimal 1000 MAX_SCROLL_TIME 2401
      Fixtures.listing = Some (Ok recs, w')
    /\ List.length recs = 4%nat
    /\ pending w' = [].
Proof.
  destruct (unobstructed_listing_is_complete Q Fixtures.decimal 1000
              MAX_SCROLL_TIME Fixtures.listing 2401%nat)
    as (recs & w' & served & Hrun & _ & _ & Hdone).
  - exact listing_panels_distinct.
  - repeat constructor; eexists; by_running.
  - reflexivity.
  - lia.
  - lia.
  - vm_compute. discriminate.
  - exists recs, w'. split; [exact Hrun|].
    assert (Hw : warnings w' = warnings Fixtures.listing).
    { assert (E : option_map (fun rw => warnings (snd rw))
                    (load_and_store_all_content Fixtures.decimal 1000
                       MAX_SCROLL_TIME 2401 Fixtures.listing)
                  = Some []) by by_running.
      rewrite Hrun in E. simpl in E. injection E as E. exact E. }
    destruct (Hdone Hw) as (Hp & _ & Hlen). split; [exact Hlen|exact Hp].
Defined.

(** The session on the empty page. *)
Lemma session_warnings_account_witness :
  exists w' truncated,
    session_data Fixtures.decimal 1000 MAX_SCROLL_TIME 1 "u" Scenes.empty_page
    = Some (Ok [], w')
    /\ warnings w'
       = ((if truncated : bool then [SCROLL_TIME_WARN] else [])
            ++ [NO_DATA_WARN "u"])%list.
Proof.
  eexists.
  match goal with
  | |- exists t, ?run = Some (Ok [], ?w') /\ _ =>
      destruct (session_warnings_account Q Fixtures.decimal 1000
                  MAX_SCROLL_TIME 1%nat "u" Scenes.empty_page [] w')
        as [truncated H]; [by_running|]
  end.
  exists truncated. split; [reflexivity|exact H].
Defined.

Lemma empty_page_session_witness :
  exists w',
    save_school_data Fixtures.decimal 1000 MAX_SCROLL_TIME 1
      "Acadia University" Scenes.empty_page
    = Some (Ok ("rmp_acadia.csv", []), w')
    /\ warnings w'
       = [NO_DATA_WARN "https://www.ratemyprofessors.com/search/professors/1406"].
Proof.
  destruct (empty_page_session Q Fixtures.decimal 1000 MAX_SCROLL_TIME 1%nat
              Scenes.empty_page) as [_ H].
  - reflexivity.
  - reflexivity.
  - reflexivity.
  - lia.
  - lia.
  - destruct (H "Acadia University" 1406%Z "rmp_acadia.csv" eq_refl eq_refl)
      as (w' & Hrun & Hw).
    exists w'. split; [exact Hrun|]. rewrite Hw. reflexivity.
Defined.

(** Five schools, the third with the garbled listing: [main] ends with
    the [RuntimeError] of that school. *)
Lemma main_outcome_witness :
  main Fixtures.decimal 1000 MAX_SCROLL_TIME Scenes.gecko_ready (Some 8%nat) 2
    Scenes.browsers_one_garbled
  = Some (Crashed (RuntimeError "Memorial University of Newfoundland"
                     ValueError)).
Proof.
  destruct (main_outcome Q Fixtures.decimal 1000 MAX_SCROLL_TIME
              Scenes.gecko_ready (Some 8%nat) 2%nat
              Scenes.browsers_one_garbled) as [_ H].
  - reflexivity.
  - discriminate.
  - intros school. unfold Scenes.browsers_one_garbled.
    destruct (String.eqb school _); simpl; lia.
  - edestruct (H ["Acadia University"; "Carleton University"]
                 "Memorial University of Newfoundland"
                 ["Mount Allison University";
                  "Mount Saint Vincent University"]) as [Hrun _].
    + reflexivity.
    + intros s [<-|[<-|[]]]; eexists; eexists; by_running.
    + by_running.
    + exact Hrun.
Defined.

(** The twins: five calls allowed, five times the hidden twin is hidden,
    and the shown one is still shown. *)
Lemma ambiguous_class_recurs_until_the_limit_witness :
  exists w',
    click_showmore 5 Scenes.listing_twins = (Raise RecursionError, w')
    /\ map ov_displayed (overlays w') = [false; true]
    /\ hidden_classes (map snd (journal w'))
       = ["modal"; "modal"; "modal"; "modal"; "modal"].
Proof.
  destruct (ambiguous_class_recurs_until_the_limit 5 Scenes.listing_twins
              Scenes.twin_shown "modal" 0%nat Scenes.twin_hidden)
    as (w' & Hrun & Ho & Hj & _); try by_running.
  - discriminate.
  - exists w'. split; [exact Hrun|]. rewrite Ho, Hj. split; reflexivity.
Defined.


(** The class found in the detail of the first example overlay. *)
Lemma findall_matches_are_class_values_witness :
  is_class_value (Fixtures.detail "iframe" "bx-gbi-frame") "bx-gbi-frame".
Proof.
  apply findall_matches_are_class_values. vm_compute. right; left.
  reflexivity.
Defined.

Lemma driver_detail_names_the_overlay_witness :
  Regex.findall
    (driver_detail "Buttons__Button-sc-19xdot-1" "iframe" "bx-gbi-frame")
  = ["Buttons__Button-sc-19xdot-1"; "bx-gbi-frame"].
Proof.
  apply (driver_detail_names_the_overlay "Buttons__Button-sc-19xdot-1"
           "iframe" "bx-gbi-frame");
    (split; [discriminate|reflexivity]).
Defined.
